(** * file_monitor.py: the event-aggregation engine

    A shallow embedding of [src/.autocommit-pro/file_monitor.py]:
    [FileChangeEvent], [IntelligentFileHandler] (classifier and debouncer)
    and [FileMonitor] (batcher, delivery, lifecycle, statistics).

    Conventions of the embedding.
    - Time is [Z], in microseconds (the resolution of [datetime]); a
      comparison [(a - b).total_seconds() > 2.0] is [a - b > 2000000].
    - The file system and the clock are inputs of every step ([Env]); a
      step reads each once.
    - The threads of the program (watchdog's observer thread, the cleanup
      thread, the batch timer, the executor's workers, the caller) are
      interleaved as atomic steps: one handler call, one pass of a loop body,
      one task.  The source takes no lock around [recent_events]; races inside
      a step are outside this model, and so is the overlap of two tasks on
      the two workers of the executor: tasks run one at a time, oldest first.
    - [print] calls are left out. *)

From Stdlib Require Import List String Ascii ZArith Bool Lia Arith.
From Stdlib Require Import Sorting.Sorted Sorting.Permutation.
Import ListNotations.
Open Scope string_scope.
Open Scope Z_scope.

(** ** Strings *)

(** Python's [d in s] on [str]: [d] occurs in [s] as a contiguous run. *)
Fixpoint str_in (d s : string) : bool :=
  String.prefix d s ||
  match s with
  | EmptyString => false
  | String _ s' => str_in d s'
  end.

(** Python's [x in xs] on a list of [str]. *)
Definition list_in (x : string) (xs : list string) : bool :=
  existsb (String.eqb x) xs.

(** ** Library interface: [os.path], [pathlib], [fnmatch]

    These functions belong to the Python standard library and depend on the
    platform; the source only calls them.  The development is generic in
    them, and [Posix] below gives the POSIX instance used in examples. *)
Class PathLib := {
  normpath : string -> string;            (* os.path.normpath *)
  basename : string -> string;            (* os.path.basename *)
  path_suffix : string -> string;         (* pathlib.Path(p).suffix *)
  fnmatch : string -> string -> bool      (* fnmatch.fnmatch(name, pat) *)
}.

(** ** Configuration

    [self.config] is the dictionary read from JSON; every access in the
    source is of the form [config.get(section, {}).get(key, default)], so a
    section or a key may be absent. *)
Record MonitoringSection := {
  exclude_directories : option (list string);
  file_extensions : option (list string)
}.

Record GitSection := {
  ignore_patterns : option (list string)
}.

Record SystemSection := {
  monitoring_interval : option Z          (* seconds, held in microseconds *)
}.

Record Config := {
  monitoring : option MonitoringSection;
  git : option GitSection;
  system : option SystemSection
}.

Definition get_default {A B} (sec : option A) (key : A -> option B) (dflt : B) : B :=
  match sec with
  | Some s => match key s with Some v => v | None => dflt end
  | None => dflt
  end.

Definition seconds (n : Z) : Z := n * 1000000.

(** [FileMonitor._get_default_config] *)
Definition _get_default_config : Config :=
  {| system := Some {| monitoring_interval := Some (seconds 30) |};
     monitoring := Some
       {| exclude_directories := Some [".git"; "__pycache__"; "node_modules"];
          file_extensions := Some [".py"; ".js"; ".ts"; ".html"; ".css"; ".md"] |};
     git := Some {| ignore_patterns := Some ["*.log"; "*.tmp"; ".DS_Store"] |} |}.

(** ** FileClassifier: [IntelligentFileHandler.should_ignore_file] *)
Section Classifier.
Context `{PathLib}.

Definition temp_patterns : list string :=
  ["*.tmp"; "*.temp"; "*.swp"; "*.swo"; "*~"; ".DS_Store"].

Definition should_ignore_file (config : Config) (file_path : string) : bool :=
  let file_path := normpath file_path in
  (* Check excluded directories *)
  let excluded_dirs := get_default (monitoring config) exclude_directories [] in
  if existsb (fun excluded_dir => str_in excluded_dir file_path) excluded_dirs
  then true else
  (* Check file extensions *)
  let allowed_extensions := get_default (monitoring config) file_extensions [] in
  if match allowed_extensions with
     | [] => false
     | _ :: _ => negb (list_in (path_suffix file_path) allowed_extensions)
     end
  then true else
  (* Check git ignore patterns *)
  let patterns := get_default (git config) ignore_patterns [] in
  let file_name := basename file_path in
  if existsb (fun pattern => fnmatch file_name pattern || fnmatch file_path pattern)
       patterns
  then true else
  (* Ignore temporary and system files *)
  if existsb (fun pattern => fnmatch file_name pattern) temp_patterns
  then true else false.
End Classifier.

(** ** The POSIX instance of the library interface *)
Module Posix.

Definition sep : ascii := "/"%char.

(** [s.split('/')] *)
Fixpoint split (s : string) : list string :=
  match s with
  | EmptyString => [EmptyString]
  | String a s' =>
      if Ascii.eqb a sep then EmptyString :: split s'
      else match split s' with
           | [] => [String a EmptyString]
           | w :: ws => String a w :: ws
           end
  end.

(** The loop of [posixpath.normpath] over the components. *)
Fixpoint norm_comps (initial_slashes : nat) (comps new_comps : list string)
  : list string :=
  match comps with
  | [] => new_comps
  | comp :: rest =>
      if String.eqb comp "" || String.eqb comp "." then
        norm_comps initial_slashes rest new_comps
      else if negb (String.eqb comp "..")
              || (Nat.eqb initial_slashes 0 && Nat.eqb (List.length new_comps) 0)
              || (negb (Nat.eqb (List.length new_comps) 0)
                  && String.eqb (last new_comps "") "..")
      then norm_comps initial_slashes rest (new_comps ++ [comp])
      else norm_comps initial_slashes rest (removelast new_comps)
  end.

Definition count_initial_slashes (path : string) : nat :=
  if String.prefix "/" path then
    if String.prefix "//" path && negb (String.prefix "///" path) then 2%nat
    else 1%nat
  else 0%nat.

Fixpoint repeat_sep (n : nat) : string :=
  match n with O => "" | S n' => String sep (repeat_sep n') end.

(** [posixpath.normpath] *)
Definition posix_normpath (path : string) : string :=
  if String.eqb path "" then "." else
  let initial_slashes := count_initial_slashes path in
  let comps := norm_comps initial_slashes (split path) [] in
  let path := repeat_sep initial_slashes ++ String.concat "/" comps in
  if String.eqb path "" then "." else path.

(** [posixpath.basename]: what follows the last slash. *)
Definition posix_basename (path : string) : string :=
  last (split path) "".

(** [name.rfind('.')], as the position of the last dot, if any. *)
Fixpoint rfind_dot (name : string) : option nat :=
  match name with
  | EmptyString => None
  | String a s' =>
      match rfind_dot s' with
      | Some i => Some (S i)
      | None => if Ascii.eqb a "."%char then Some O else None
      end
  end.

(** [PurePath.suffix] of a final component: [name[i:]] when the last dot is
    neither the first nor the last character. *)
Definition suffix_of_name (name : string) : string :=
  match rfind_dot name with
  | Some i =>
      if Nat.ltb 0 i && Nat.ltb i (String.length name - 1)
      then String.substring i (String.length name - i) name
      else ""
  | None => ""
  end.

Definition posix_suffix (path : string) : string :=
  suffix_of_name (posix_basename path).

(** Shell-style matching for patterns made of literal characters, [*] and
    [?], on which it agrees with [fnmatch.fnmatch] under POSIX
    ([normcase] is the identity there).  Character classes [[...]] are
    not interpreted. *)
Fixpoint wild_match (pat name : string) : bool :=
  match pat with
  | EmptyString => match name with EmptyString => true | _ => false end
  | String c pat' =>
      if Ascii.eqb c "*"%char then
        (fix star (name : string) : bool :=
           wild_match pat' name ||
           match name with
           | EmptyString => false
           | String _ name' => star name'
           end) name
      else
        match name with
        | EmptyString => false
        | String a name' =>
            (Ascii.eqb c "?"%char || Ascii.eqb c a) && wild_match pat' name'
        end
  end.

Definition posix_fnmatch (name pat : string) : bool := wild_match pat name.

#[export] Instance posix : PathLib := {
  normpath := posix_normpath;
  basename := posix_basename;
  path_suffix := posix_suffix;
  fnmatch := posix_fnmatch
}.

End Posix.

(** ** Python's [dict]: keys in insertion order

    [recent_events] and [unique_changes] are dictionaries keyed by path.  A
    Python dictionary iterates in the order its keys were first inserted,
    and the cleanup loop and [list(unique_changes.values())] both depend on
    that order, so a dictionary is an association list in insertion order. *)
Module PyDict.
Section Dict.
Context {V : Type}.

Definition dict := list (string * V).

(** [d.get(k)] *)
Fixpoint get (k : string) (d : dict) : option V :=
  match d with
  | [] => None
  | (k', v) :: d' => if String.eqb k k' then Some v else get k d'
  end.

(** [d[k] = v]: an existing key keeps its position. *)
Fixpoint set (k : string) (v : V) (d : dict) : dict :=
  match d with
  | [] => [(k, v)]
  | (k', v') :: d' =>
      if String.eqb k k' then (k, v) :: d' else (k', v') :: set k v d'
  end.

(** The dictionary left by [d.pop(k)]. *)
Fixpoint remove (k : string) (d : dict) : dict :=
  match d with
  | [] => []
  | (k', v') :: d' =>
      if String.eqb k k' then d' else (k', v') :: remove k d'
  end.

Definition keys (d : dict) : list string := map fst d.
Definition values (d : dict) : list V := map snd d.

(** Well-formed dictionaries hold each key once. *)
Definition wf (d : dict) : Prop := NoDup (keys d).
End Dict.
Arguments dict V : clear implicits.
End PyDict.

(** ** ChangeRecord: [class FileChangeEvent] *)
Inductive EventType := created | modified | deleted | moved.

Record FileChangeEvent := {
  file_path : string;
  event_type : EventType;
  timestamp : Z;
  file_size : Z;
  file_hash : string
}.

(** What the constructor can see of the file system.  [None] stands for an
    [OSError] (which [FileNotFoundError] and [PermissionError] are). *)
Record FileSystem := {
  path_exists : string -> bool;           (* os.path.exists *)
  path_isfile : string -> bool;           (* os.path.isfile *)
  path_getsize : string -> option Z;      (* os.path.getsize *)
  md5_hexdigest : string -> option string (* hashlib.md5(open(p,'rb').read()).hexdigest() *)
}.

Record Env := {
  now : Z;                                (* datetime.now() *)
  fs : FileSystem
}.

Definition _get_file_size (fs : FileSystem) (file_path : string) : Z :=
  if path_exists fs file_path then
    match path_getsize fs file_path with
    | Some n => n
    | None => 0
    end
  else 0.

Definition _get_file_hash (fs : FileSystem) (file_path : string) : string :=
  if negb (path_exists fs file_path) || negb (path_isfile fs file_path) then ""
  else match md5_hexdigest fs file_path with
       | Some h => h
       | None => ""
       end.

(** [FileChangeEvent(file_path, event_type)], with [timestamp] left to
    [datetime.now()], which is how every call of the source builds one. *)
Definition new_FileChangeEvent (env : Env) (path : string) (type : EventType)
  : FileChangeEvent :=
  {| file_path := path;
     event_type := type;
     timestamp := now env;
     file_size := _get_file_size (fs env) path;
     file_hash := _get_file_hash (fs env) path |}.

(** ** Debouncer: [class IntelligentFileHandler] *)

(** watchdog's [FileSystemEvent]; [dest_path] is an attribute of move events
    only, which is what [hasattr(event, 'dest_path')] asks. *)
Record FileSystemEvent := {
  is_directory : bool;
  src_path : string;
  dest_path : option string
}.

(** A raw notification: its kind, the event object, and the clock and file
    system at the moment the handler runs. *)
Record Notification := {
  n_kind : EventType;
  n_event : FileSystemEvent;
  n_env : Env
}.

Definition RecentEvents := PyDict.dict FileChangeEvent.

Definition debounce_interval : Z := seconds 2.

Section Handler.
Context `{PathLib}.
Variable config : Config.

Definition on_modified (env : Env) (event : FileSystemEvent)
           (recent_events : RecentEvents) : RecentEvents :=
  if is_directory event then recent_events else
  if should_ignore_file config (src_path event) then recent_events else
  (* Debounce rapid changes to the same file *)
  let file_path := normpath (src_path event) in
  let current_event := new_FileChangeEvent env file_path modified in
  (* Check if we've seen this file recently *)
  match PyDict.get file_path recent_events with
  | Some previous_event =>
      (* If hash is the same, ignore (probably just timestamp change) *)
      if String.eqb (file_hash current_event) (file_hash previous_event)
      then recent_events
      else PyDict.set file_path current_event recent_events
  | None => PyDict.set file_path current_event recent_events
  end.

Definition on_created (env : Env) (event : FileSystemEvent)
           (recent_events : RecentEvents) : RecentEvents :=
  if is_directory event then recent_events else
  if should_ignore_file config (src_path event) then recent_events else
  let file_path := normpath (src_path event) in
  PyDict.set file_path (new_FileChangeEvent env file_path created) recent_events.

Definition on_deleted (env : Env) (event : FileSystemEvent)
           (recent_events : RecentEvents) : RecentEvents :=
  if is_directory event then recent_events else
  if should_ignore_file config (src_path event) then recent_events else
  let file_path := normpath (src_path event) in
  PyDict.set file_path (new_FileChangeEvent env file_path deleted) recent_events.

Definition on_moved (env : Env) (event : FileSystemEvent)
           (recent_events : RecentEvents) : RecentEvents :=
  if is_directory event then recent_events else
  match dest_path event with
  | Some dest =>
      (* File was moved *)
      if negb (should_ignore_file config dest) then
        let dest_path := normpath dest in
        PyDict.set dest_path (new_FileChangeEvent env dest_path moved) recent_events
      else recent_events
  | None => recent_events
  end.

(** watchdog's [FileSystemEventHandler.dispatch]: the method for the
    notification's kind. *)
Definition dispatch (n : Notification) : RecentEvents -> RecentEvents :=
  match n_kind n with
  | created => on_created (n_env n) (n_event n)
  | modified => on_modified (n_env n) (n_event n)
  | deleted => on_deleted (n_env n) (n_event n)
  | moved => on_moved (n_env n) (n_event n)
  end.

(** The handler's dictionary after a sequence of notifications. *)
Definition dispatch_all (ns : list Notification) (recent_events : RecentEvents)
  : RecentEvents :=
  fold_left (fun recent n => dispatch n recent) ns recent_events.
End Handler.

(** The first loop of [cleanup_old_events]: the paths whose pending record is
    older than the debounce interval, in dictionary order. *)
Definition is_expired (current_time : Z) (event : FileChangeEvent) : bool :=
  current_time - timestamp event >? debounce_interval.

Definition expired_files (current_time : Z) (recent_events : RecentEvents)
  : list string :=
  PyDict.keys (filter (fun item => is_expired current_time (snd item)) recent_events).

(** ** Batcher: deduplication and ordering in [_process_change_batch] *)

(** [for change in changes: unique_changes[change.file_path] = change] *)
Definition unique_changes (changes : list FileChangeEvent)
  : PyDict.dict FileChangeEvent :=
  fold_left (fun d change => PyDict.set (file_path change) change d) changes [].

(** [list.sort(key=lambda x: x.timestamp)] is stable; so is this insertion
    sort, which places an element before the first one with a timestamp that
    is not smaller. *)
Fixpoint insert_by_timestamp (x : FileChangeEvent) (l : list FileChangeEvent)
  : list FileChangeEvent :=
  match l with
  | [] => [x]
  | y :: l' =>
      if timestamp x <=? timestamp y then x :: y :: l'
      else y :: insert_by_timestamp x l'
  end.

Definition sort_by_timestamp (l : list FileChangeEvent) : list FileChangeEvent :=
  fold_right insert_by_timestamp [] l.

(** The list [final_changes] that the callbacks are called with. *)
Definition final_changes (changes : list FileChangeEvent) : list FileChangeEvent :=
  sort_by_timestamp (PyDict.values (unique_changes changes)).

(** ** Subscribers

    A callback is code of the caller.  It is given the list object
    [final_changes] itself, not a copy, so it may leave the list changed for
    the callbacks after it; and it returns, raises an [Exception], or raises
    a [BaseException] that is not an [Exception] ([SystemExit],
    [KeyboardInterrupt]), which [except Exception] does not catch. *)
Inductive Outcome := Returned | RaisedException | RaisedBaseException.

Record Callback := {
  cb_name : string;
  cb_call : list FileChangeEvent -> Outcome * list FileChangeEvent
}.

(** One call of a callback: who was called, with what, and how it ended. *)
Record Invocation := {
  inv_name : string;
  inv_batch : list FileChangeEvent;
  inv_outcome : Outcome
}.

(** [for callback in self.change_callbacks: try: callback(final_changes)
     except Exception: print(...)] *)
Fixpoint call_callbacks (callbacks : list Callback) (batch : list FileChangeEvent)
  : list Invocation :=
  match callbacks with
  | [] => []
  | callback :: rest =>
      let (outcome, batch') := cb_call callback batch in
      {| inv_name := cb_name callback; inv_batch := batch; inv_outcome := outcome |}
      :: match outcome with
         | Returned | RaisedException => call_callbacks rest batch'
         | RaisedBaseException => []
         end
  end.

(** What one call of [_process_change_batch] that gets past its guard does:
    the list it forms and the calls it makes with it. *)
Record Delivery := {
  dl_batch : list FileChangeEvent;
  dl_calls : list Invocation
}.

Definition _process_change_batch (callbacks : list Callback)
           (changes : list FileChangeEvent) : option Delivery :=
  match changes with
  | [] => None
  | _ :: _ =>
      let final_changes := final_changes changes in
      Some {| dl_batch := final_changes;
              dl_calls := call_callbacks callbacks final_changes |}
  end.

(** ** Aggregator: [class FileMonitor] *)

(** [self.stats] *)
Record Stats := {
  total_events : Z;
  ignored_events : Z;
  processed_batches : Z;
  start_time : Z
}.

(** A [threading.Thread], which watchdog's [Observer] is: [start] may be
    called once, [join] only after [start]. *)
Inductive ThreadState := NotStarted | Alive | Finished.

(** The [ThreadPoolExecutor]: the tasks submitted and not yet run, each the
    argument of a [_process_change_batch] call, and whether [shutdown] was
    called. *)
Record Executor := {
  work_queue : list (list FileChangeEvent);
  is_shutdown : bool
}.

Record FileMonitor := {
  config : Config;
  recent_events : RecentEvents;           (* self.event_handler.recent_events *)
  observer : ThreadState;
  pending_changes : list FileChangeEvent;
  change_callbacks : list Callback;
  last_batch_time : Z;
  batch_interval : Z;
  executor : Executor;
  stats : Stats;
  deliveries : list Delivery              (* history of the batches delivered *)
}.

(** [FileMonitor.__init__], given the dictionary [_load_config] returned. *)
Definition new_FileMonitor (cfg : Config) (now : Z) : FileMonitor :=
  {| config := cfg;
     recent_events := [];
     observer := NotStarted;
     pending_changes := [];
     change_callbacks := [];
     last_batch_time := now;
     batch_interval := get_default (system cfg) monitoring_interval (seconds 30);
     executor := {| work_queue := []; is_shutdown := false |};
     stats := {| total_events := 0; ignored_events := 0; processed_batches := 0;
                 start_time := now |};
     deliveries := [] |}.

(** *** Field updates *)
Definition with_recent_events (v : RecentEvents) (m : FileMonitor) : FileMonitor :=
  {| config := config m; recent_events := v; observer := observer m;
     pending_changes := pending_changes m; change_callbacks := change_callbacks m;
     last_batch_time := last_batch_time m; batch_interval := batch_interval m;
     executor := executor m; stats := stats m; deliveries := deliveries m |}.

Definition with_observer (v : ThreadState) (m : FileMonitor) : FileMonitor :=
  {| config := config m; recent_events := recent_events m; observer := v;
     pending_changes := pending_changes m; change_callbacks := change_callbacks m;
     last_batch_time := last_batch_time m; batch_interval := batch_interval m;
     executor := executor m; stats := stats m; deliveries := deliveries m |}.

Definition with_pending_changes (v : list FileChangeEvent) (m : FileMonitor)
  : FileMonitor :=
  {| config := config m; recent_events := recent_events m; observer := observer m;
     pending_changes := v; change_callbacks := change_callbacks m;
     last_batch_time := last_batch_time m; batch_interval := batch_interval m;
     executor := executor m; stats := stats m; deliveries := deliveries m |}.

Definition with_change_callbacks (v : list Callback) (m : FileMonitor) : FileMonitor :=
  {| config := config m; recent_events := recent_events m; observer := observer m;
     pending_changes := pending_changes m; change_callbacks := v;
     last_batch_time := last_batch_time m; batch_interval := batch_interval m;
     executor := executor m; stats := stats m; deliveries := deliveries m |}.

Definition with_last_batch_time (v : Z) (m : FileMonitor) : FileMonitor :=
  {| config := config m; recent_events := recent_events m; observer := observer m;
     pending_changes := pending_changes m; change_callbacks := change_callbacks m;
     last_batch_time := v; batch_interval := batch_interval m;
     executor := executor m; stats := stats m; deliveries := deliveries m |}.

Definition with_executor (v : Executor) (m : FileMonitor) : FileMonitor :=
  {| config := config m; recent_events := recent_events m; observer := observer m;
     pending_changes := pending_changes m; change_callbacks := change_callbacks m;
     last_batch_time := last_batch_time m; batch_interval := batch_interval m;
     executor := v; stats := stats m; deliveries := deliveries m |}.

Definition with_stats (v : Stats) (m : FileMonitor) : FileMonitor :=
  {| config := config m; recent_events := recent_events m; observer := observer m;
     pending_changes := pending_changes m; change_callbacks := change_callbacks m;
     last_batch_time := last_batch_time m; batch_interval := batch_interval m;
     executor := executor m; stats := v; deliveries := deliveries m |}.

Definition with_deliveries (v : list Delivery) (m : FileMonitor) : FileMonitor :=
  {| config := config m; recent_events := recent_events m; observer := observer m;
     pending_changes := pending_changes m; change_callbacks := change_callbacks m;
     last_batch_time := last_batch_time m; batch_interval := batch_interval m;
     executor := executor m; stats := stats m; deliveries := v |}.

(** *** Methods as state transformers that may raise

    A method runs on the monitor and either returns or raises; what it wrote
    before raising stays written. *)
Inductive Exn :=
| RuntimeError (msg : string)
| KeyError (key : string).

Inductive Res (A : Type) :=
| Val (a : A)
| Exc (e : Exn).
Arguments Val {A} a.
Arguments Exc {A} e.

Definition M (A : Type) : Type := FileMonitor -> Res A * FileMonitor.

Definition ret {A} (a : A) : M A := fun m => (Val a, m).
Definition raise {A} (e : Exn) : M A := fun m => (Exc e, m).
Definition bind {A B} (c : M A) (k : A -> M B) : M B :=
  fun m => match c m with
           | (Val a, m') => k a m'
           | (Exc e, m') => (Exc e, m')
           end.
Definition read {A} (f : FileMonitor -> A) : M A := fun m => (Val (f m), m).
Definition update (f : FileMonitor -> FileMonitor) : M unit := fun m => (Val tt, f m).

Notation "x <- c ;; k" := (bind c (fun x => k))
  (at level 61, c at next level, right associativity).
Notation "c ;; k" := (bind c (fun _ => k))
  (at level 61, right associativity).

(** [for x in xs: body(x)] *)
Fixpoint for_each {A} (xs : list A) (body : A -> M unit) : M unit :=
  match xs with
  | [] => ret tt
  | x :: xs' => body x ;; for_each xs' body
  end.

(** [self.executor.submit(self._process_change_batch, changes)] *)
Definition executor_submit (changes : list FileChangeEvent) : M unit :=
  ex <- read executor ;;
  if is_shutdown ex then
    raise (RuntimeError "cannot schedule new futures after shutdown")
  else
    update (with_executor {| work_queue := work_queue ex ++ [changes];
                             is_shutdown := is_shutdown ex |}).

(** A worker of the executor takes the oldest task and runs it; an exception
    that leaves the task is kept in its future and goes no further. *)
Definition run_task (changes : list FileChangeEvent) : M unit :=
  callbacks <- read change_callbacks ;;
  history <- read deliveries ;;
  match _process_change_batch callbacks changes with
  | None => ret tt
  | Some delivery => update (with_deliveries (history ++ [delivery]))
  end.

Definition worker_run : M unit :=
  ex <- read executor ;;
  match work_queue ex with
  | [] => ret tt
  | changes :: rest =>
      update (with_executor {| work_queue := rest; is_shutdown := is_shutdown ex |}) ;;
      run_task changes
  end.

(** [self.executor.shutdown(wait=True)]: no new task is taken, and the call
    returns when the queued ones have run. *)
Definition executor_shutdown : M unit :=
  ex <- read executor ;;
  update (with_executor {| work_queue := []; is_shutdown := true |}) ;;
  for_each (work_queue ex) run_task.

Definition add_change_callback (callback : Callback) : M unit :=
  callbacks <- read change_callbacks ;;
  update (with_change_callbacks (callbacks ++ [callback])).

Definition incr_total_events (s : Stats) : Stats :=
  {| total_events := total_events s + 1; ignored_events := ignored_events s;
     processed_batches := processed_batches s; start_time := start_time s |}.

Definition incr_processed_batches (s : Stats) : Stats :=
  {| total_events := total_events s; ignored_events := ignored_events s;
     processed_batches := processed_batches s + 1; start_time := start_time s |}.

Definition _trigger_batch_processing (now : Z) : M unit :=
  pending <- read pending_changes ;;
  match pending with
  | [] => ret tt
  | _ :: _ =>
      let changes_to_process := pending in
      update (with_pending_changes []) ;;
      update (with_last_batch_time now) ;;
      s <- read stats ;;
      update (with_stats (incr_processed_batches s)) ;;
      (* Process in background thread *)
      executor_submit changes_to_process
  end.

Definition _process_file_change (now : Z) (event : FileChangeEvent) : M unit :=
  pending <- read pending_changes ;;
  update (with_pending_changes (pending ++ [event])) ;;
  s <- read stats ;;
  update (with_stats (incr_total_events s)) ;;
  (* Check if we should trigger a batch processing *)
  last <- read last_batch_time ;;
  interval <- read batch_interval ;;
  pending <- read pending_changes ;;
  let time_since_last_batch := now - last in
  if (time_since_last_batch >=? interval)
     || (Z.of_nat (List.length pending) >=? 10)
  then _trigger_batch_processing now
  else ret tt.

(** The body of the second loop of [cleanup_old_events]:
    [event = self.recent_events.pop(file_path)], then
    [self.monitor._process_file_change(event)]. *)
Definition settle (current_time : Z) (file_path : string) : M unit :=
  recent <- read recent_events ;;
  match PyDict.get file_path recent with
  | None => raise (KeyError file_path)
  | Some event =>
      update (with_recent_events (PyDict.remove file_path recent)) ;;
      _process_file_change current_time event
  end.

(** One pass of the loop of [cleanup_old_events], after its [sleep]. *)
Definition cleanup_old_events (current_time : Z) : M unit :=
  recent <- read recent_events ;;
  let expired := expired_files current_time recent in
  for_each expired (settle current_time).

(** One pass of the loop of [timer_callback], after its [sleep]. *)
Definition timer_callback (now : Z) : M unit :=
  pending <- read pending_changes ;;
  match pending with
  | [] => ret tt
  | _ :: _ => _trigger_batch_processing now
  end.

Definition force_process_changes (now : Z) : M unit :=
  pending <- read pending_changes ;;
  match pending with
  | [] => ret tt
  | _ :: _ => _trigger_batch_processing now
  end.

(** [self.observer.start()] *)
Definition observer_start : M unit :=
  o <- read observer ;;
  match o with
  | NotStarted => update (with_observer Alive)
  | Alive | Finished => raise (RuntimeError "threads can only be started once")
  end.

(** [self.observer.stop()] asks the thread to end; [self.observer.join()]
    waits until it has. *)
Definition observer_stop : M unit := ret tt.

Definition observer_join : M unit :=
  o <- read observer ;;
  match o with
  | NotStarted => raise (RuntimeError "cannot join thread before it is started")
  | Alive | Finished => update (with_observer Finished)
  end.

(** [self.observer.schedule(self.event_handler, self.watch_directory,
    recursive=True)] registers the handler; the state of the monitor is not
    touched. *)
Definition observer_schedule : M unit := ret tt.

(** [_start_batch_timer] starts the timer thread; what the thread does is a
    sequence of [timer_callback] passes. *)
Definition _start_batch_timer : M unit := ret tt.

Definition start_monitoring : M unit :=
  (* Schedule the observer *)
  observer_schedule ;;
  observer_start ;;
  (* Start background batch processing timer *)
  _start_batch_timer.

Definition stop_monitoring (now : Z) : M unit :=
  observer_stop ;;
  observer_join ;;
  (* Process any remaining changes *)
  pending <- read pending_changes ;;
  match pending with
  | [] => ret tt
  | _ :: _ => _trigger_batch_processing now
  end ;;
  (* Shutdown executor *)
  executor_shutdown.

(** [get_stats], without the uptime strings. *)
Record StatsSnapshot := {
  snap_stats : Stats;
  snap_uptime : Z;
  snap_pending_changes : Z;
  snap_active_callbacks : Z
}.

Definition get_stats (current_time : Z) (m : FileMonitor) : StatsSnapshot :=
  {| snap_stats := stats m;
     snap_uptime := current_time - start_time (stats m);
     snap_pending_changes := Z.of_nat (List.length (pending_changes m));
     snap_active_callbacks := Z.of_nat (List.length (change_callbacks m)) |}.

(** *** The engine as a transition system

    What the threads of the program and the caller can do to a monitor, one
    atomic step each.  The observer thread delivers notifications only while
    it is alive. *)
Inductive Action :=
| Notify (n : Notification)
| CleanupPass (current_time : Z)
| TimerPass (now : Z)
| WorkerRun
| AddChangeCallback (callback : Callback)
| StartMonitoring
| StopMonitoring (now : Z)
| ForceProcessChanges (now : Z).

Section Engine.
Context `{PathLib}.

Definition notify (n : Notification) : M unit :=
  o <- read observer ;;
  match o with
  | Alive =>
      cfg <- read config ;;
      recent <- read recent_events ;;
      update (with_recent_events (dispatch cfg n recent))
  | NotStarted | Finished => ret tt
  end.

Definition step (a : Action) : M unit :=
  match a with
  | Notify n => notify n
  | CleanupPass t => cleanup_old_events t
  | TimerPass t => timer_callback t
  | WorkerRun => worker_run
  | AddChangeCallback callback => add_change_callback callback
  | StartMonitoring => start_monitoring
  | StopMonitoring t => stop_monitoring t
  | ForceProcessChanges t => force_process_changes t
  end.

(** A run: an exception ends the thread or the call it is raised in, and
    the monitor goes on from the state that was reached. *)
Definition run (actions : list Action) (m : FileMonitor) : FileMonitor :=
  fold_left (fun m a => snd (step a m)) actions m.
End Engine.

(** ** The subscriber: [class AutoGitManager] of auto_git_manager.py

    The manager registers [_on_file_changes] with the monitor
    ([_setup_monitoring]) and turns batches into commits.  Git and the
    commit-message generator are collaborators: what they answer on one call
    is an input ([World]).  [GitRepository.commit] and [GitRepository.push]
    catch every [Exception] themselves and always return a
    [GitOperationResult]; [generate_commit_message] may raise. *)
Module AutoGit.

Record GitOperationResult := {
  success : bool;
  message : string
}.

(** [self.stats], without [start_time]. *)
Record Stats := {
  total_commits : Z;
  total_pushes : Z;
  auto_commits : Z;
  manual_commits : Z;
  failed_operations : Z
}.

Record AutoGitManager := {
  pending_changes : list string;          (* a set of paths *)
  last_commit_time : Z;
  last_push_time : Z;
  auto_push_enabled : bool;
  max_commit_frequency : Z;               (* seconds, held in microseconds *)
  stats : Stats
}.

Record World := {
  clock : Z;                              (* datetime.now() *)
  generated_message : string + string;    (* ai_generator.generate_commit_message():
                                             the message, or the text of the
                                             exception it raises *)
  commit_result : string -> GitOperationResult;   (* git_repo.commit(message) *)
  push_result : GitOperationResult;       (* git_repo.push() *)
  status_is_dirty : bool;                 (* git_repo.get_status().get('is_dirty', False) *)
  status_ahead : Z                        (* ...get('ahead_behind', {}).get('ahead', 0) *)
}.

(** [AutoGitManager.__init__], given the two settings it reads from the
    configuration. *)
Definition new_AutoGitManager (auto_push : bool) (max_frequency : Z) (now : Z)
  : AutoGitManager :=
  {| pending_changes := [];
     last_commit_time := now;
     last_push_time := now;
     auto_push_enabled := auto_push;
     max_commit_frequency := max_frequency;
     stats := {| total_commits := 0; total_pushes := 0; auto_commits := 0;
                 manual_commits := 0; failed_operations := 0 |} |}.

(** [s.add(x)] on a set. *)
Definition set_add (x : string) (s : list string) : list string :=
  if list_in x s then s else (s ++ [x])%list.

Definition with_pending_changes (v : list string) (a : AutoGitManager) : AutoGitManager :=
  {| pending_changes := v; last_commit_time := last_commit_time a;
     last_push_time := last_push_time a; auto_push_enabled := auto_push_enabled a;
     max_commit_frequency := max_commit_frequency a; stats := stats a |}.

Definition with_stats (v : Stats) (a : AutoGitManager) : AutoGitManager :=
  {| pending_changes := pending_changes a; last_commit_time := last_commit_time a;
     last_push_time := last_push_time a; auto_push_enabled := auto_push_enabled a;
     max_commit_frequency := max_commit_frequency a; stats := v |}.

Definition failed (a : AutoGitManager) : AutoGitManager :=
  with_stats {| total_commits := total_commits (stats a);
                total_pushes := total_pushes (stats a);
                auto_commits := auto_commits (stats a);
                manual_commits := manual_commits (stats a);
                failed_operations := failed_operations (stats a) + 1 |} a.

Definition pushed (now : Z) (a : AutoGitManager) : AutoGitManager :=
  {| pending_changes := pending_changes a; last_commit_time := last_commit_time a;
     last_push_time := now; auto_push_enabled := auto_push_enabled a;
     max_commit_frequency := max_commit_frequency a;
     stats := {| total_commits := total_commits (stats a);
                 total_pushes := total_pushes (stats a) + 1;
                 auto_commits := auto_commits (stats a);
                 manual_commits := manual_commits (stats a);
                 failed_operations := failed_operations (stats a) |} |}.

(** A successful commit: counted, dated, and [pending_changes.clear()]. *)
Definition committed (automatic : bool) (now : Z) (a : AutoGitManager) : AutoGitManager :=
  {| pending_changes := []; last_commit_time := now;
     last_push_time := last_push_time a; auto_push_enabled := auto_push_enabled a;
     max_commit_frequency := max_commit_frequency a;
     stats := {| total_commits := total_commits (stats a) + 1;
                 total_pushes := total_pushes (stats a);
                 auto_commits := auto_commits (stats a) + (if automatic then 1 else 0);
                 manual_commits := manual_commits (stats a) + (if automatic then 0 else 1);
                 failed_operations := failed_operations (stats a) |} |}.

Definition _auto_push (w : World) (a : AutoGitManager) : AutoGitManager :=
  let result := push_result w in
  if success result then pushed (clock w) a else failed a.

Definition _auto_commit (w : World) (a : AutoGitManager) : AutoGitManager :=
  match pending_changes a with
  | [] => a
  | _ :: _ =>
      (* Generate AI commit message *)
      match generated_message w with
      | inr _ => failed a
      | inl commit_message =>
          (* Perform commit *)
          let result := commit_result w commit_message in
          if success result then
            let a := committed true (clock w) a in
            (* Auto-push if enabled *)
            if auto_push_enabled a then _auto_push w a else a
          else failed a
      end
  end.

(** The loop of [_on_file_changes]: every path of the batch whose record is
    not a deletion is added to the set. *)
Definition track (changes : list FileChangeEvent) (pending : list string)
  : list string :=
  fold_left (fun s change =>
               match event_type change with
               | deleted => s               (* Don't track deleted files *)
               | created | modified | moved => set_add (file_path change) s
               end) changes pending.

Definition _on_file_changes (w : World) (changes : list FileChangeEvent)
           (a : AutoGitManager) : AutoGitManager :=
  match changes with
  | [] => a
  | _ :: _ =>
      (* Add changed files to pending set *)
      let a := with_pending_changes (track changes (pending_changes a)) a in
      (* Check if we should auto-commit *)
      let time_since_last_commit := clock w - last_commit_time a in
      if (5 <=? Z.of_nat (List.length (pending_changes a)))
         || (time_since_last_commit >=? max_commit_frequency a)
      then _auto_commit w a
      else a
  end.

Definition manual_commit (w : World) (message : option string) (a : AutoGitManager)
  : GitOperationResult * AutoGitManager :=
  match match message with
        | Some m => inl m
        | None => generated_message w
        end with
  | inr e => ({| success := false; message := "Manual commit failed: " ++ e |}, a)
  | inl m =>
      let result := commit_result w m in
      (result, if success result then committed false (clock w) a else a)
  end.

Definition manual_push (w : World) (a : AutoGitManager)
  : GitOperationResult * AutoGitManager :=
  let result := push_result w in
  (result, if success result then pushed (clock w) a else a).

Definition _periodic_commit_check (w : World) (a : AutoGitManager) : AutoGitManager :=
  if status_is_dirty w then
    let time_since_last_commit := clock w - last_commit_time a in
    if time_since_last_commit >=? max_commit_frequency a then _auto_commit w a
    else a
  else a.

Definition _periodic_push_check (w : World) (a : AutoGitManager) : AutoGitManager :=
  if negb (auto_push_enabled a) then a else
  if status_ahead w >? 0 then
    let time_since_last_push := clock w - last_push_time a in
    if time_since_last_push >=? seconds 300 then _auto_push w a else a
  else a.

(** What happens to a manager: the monitor delivers a batch, the scheduler
    runs a periodic check, the user commits or pushes. *)
Inductive Operation :=
| OnFileChanges (changes : list FileChangeEvent)
| PeriodicCommitCheck
| PeriodicPushCheck
| ManualCommit (message : option string)
| ManualPush.

Definition apply (w : World) (op : Operation) (a : AutoGitManager) : AutoGitManager :=
  match op with
  | OnFileChanges changes => _on_file_changes w changes a
  | PeriodicCommitCheck => _periodic_commit_check w a
  | PeriodicPushCheck => _periodic_push_check w a
  | ManualCommit message => snd (manual_commit w message a)
  | ManualPush => snd (manual_push w a)
  end.

Definition run_manager (ops : list (World * Operation)) (a : AutoGitManager)
  : AutoGitManager :=
  fold_left (fun a wo => apply (fst wo) (snd wo) a) ops a.

(** The counters of the manager are consistent. *)
Definition consistent (a : AutoGitManager) : Prop :=
  total_commits (stats a) = auto_commits (stats a) + manual_commits (stats a)
  /\ 0 <= auto_commits (stats a)
  /\ 0 <= manual_commits (stats a)
  /\ 0 <= total_pushes (stats a)
  /\ 0 <= failed_operations (stats a)
  /\ NoDup (pending_changes a).

(** The callback as the monitor sees it: it returns, and it leaves the list
    as it is. *)
Definition callback : Callback :=
  {| cb_name := "_on_file_changes"; cb_call := fun batch => (Returned, batch) |}.

End AutoGit.

(** ** The commit message: [_clean_commit_message] of ai_commit_generator.py

    A Python [str] is a sequence of code points, and [message[:72]] counts
    code points; so the characters are left abstract here, with the three
    that the function names and the set that [str.strip()] removes. *)
Class Chars := {
  char : Type;
  char_eqb : char -> char -> bool;
  char_eqb_eq : forall a b, char_eqb a b = true <-> a = b;
  newline : char;                         (* the line feed *)
  double_quote : char;                    (* the double quote *)
  single_quote : char;                    (* the apostrophe *)
  is_space : char -> bool                 (* what str.strip() takes off *)
}.

Module CommitMessage.
Section Clean.
Context `{Chars}.

Definition str := list char.

(** [s.lstrip(...)], [s.rstrip(...)], [s.strip(...)] for a set of characters
    given by its test. *)
Fixpoint lstrip (drop : char -> bool) (s : str) : str :=
  match s with
  | [] => []
  | c :: s' => if drop c then lstrip drop s' else s
  end.

Definition rstrip (drop : char -> bool) (s : str) : str :=
  rev (lstrip drop (rev s)).

Definition strip_of (drop : char -> bool) (s : str) : str :=
  rstrip drop (lstrip drop s).

(** [s.strip()] and [s.strip(c)] *)
Definition strip (s : str) : str := strip_of is_space s.
Definition strip_char (c : char) (s : str) : str := strip_of (char_eqb c) s.

(** [s.split(LF)] *)
Fixpoint split_lines (s : str) : list str :=
  match s with
  | [] => [[]]
  | c :: s' =>
      if char_eqb c newline then [] :: split_lines s'
      else match split_lines s' with
           | [] => [[c]]
           | l :: ls => (c :: l) :: ls
           end
  end.

(** [LF.join(lines)] *)
Fixpoint join_lines (lines : list str) : str :=
  match lines with
  | [] => []
  | [l] => l
  | l :: (_ :: _) as rest => (l ++ newline :: join_lines rest)%list
  end.

(** A line: a string without line feed. *)
Definition no_newline (l : str) : Prop := ~ In newline l.

Definition _clean_commit_message (message : str) : str :=
  (* Remove any quotes or extra formatting *)
  let message := strip_char single_quote (strip_char double_quote (strip message)) in
  (* Ensure proper format *)
  let lines := split_lines message in
  match lines with
  | [] => []
  | [line] =>
      (* Single line message, keep it simple *)
      firstn 72 line
  | line0 :: (line1 :: _) as rest =>
      (* Multi-line message *)
      let summary := firstn 50 line0 in
      let body :=
        match strip line1 with
        | _ :: _ =>
            (* Insert empty line after summary if not present *)
            join_lines ([] :: rest)
        | [] => join_lines rest
        end in
      (summary ++ body)%list
  end.
End Clean.

(** Characters as bytes, for examples in ASCII. *)
#[export] Instance ascii_chars : Chars := {
  char := ascii;
  char_eqb := Ascii.eqb;
  char_eqb_eq := Ascii.eqb_eq;
  newline := "010"%char;
  double_quote := ascii_of_nat 34;
  single_quote := ascii_of_nat 39;
  is_space := fun c => existsb (Ascii.eqb c)
                         [" "%char; "009"%char; "010"%char; "011"%char;
                          "012"%char; "013"%char]
}.

End CommitMessage.

(** ** Concrete scenarios *)
Module Scenario.

(** A file system of regular, readable files, each given by its path, size
    and digest; no other path exists. *)
Definition files (l : list (string * (Z * string))) : FileSystem :=
  let lookup p := find (fun f => String.eqb (fst f) p) l in
  {| path_exists := fun p => match lookup p with Some _ => true | None => false end;
     path_isfile := fun p => match lookup p with Some _ => true | None => false end;
     path_getsize := fun p => option_map (fun f => fst (snd f)) (lookup p);
     md5_hexdigest := fun p => option_map (fun f => snd (snd f)) (lookup p) |}.

(** The notification of [kind] for the file [p], handled at time [t] with
    the files [l] on disk. *)
Definition notification (kind : EventType) (p : string) (t : Z)
           (l : list (string * (Z * string))) : Notification :=
  {| n_kind := kind;
     n_event := {| is_directory := false; src_path := p; dest_path := None |};
     n_env := {| now := t; fs := files l |} |}.

(** A subscriber that returns, and one that raises an [Exception]; both
    leave the list as it is. *)
Definition quiet (name : string) : Callback :=
  {| cb_name := name; cb_call := fun batch => (Returned, batch) |}.
Definition failing (name : string) : Callback :=
  {| cb_name := name; cb_call := fun batch => (RaisedException, batch) |}.

(** A monitor with the default configuration, built at time 0, and the
    same after [start_monitoring]. *)
Definition fresh : FileMonitor := new_FileMonitor _get_default_config 0.
Definition running : FileMonitor := snd (start_monitoring fresh).

End Scenario.

(** ** Vocabulary of the properties *)
Section Vocabulary.
Context `{PathLib}.
Variable config : Config.

(** The key a notification is recorded under when it gets past the
    directory test and the classifier: the normalized source path, or the
    normalized destination of a move. *)
Definition target (n : Notification) : option string :=
  if is_directory (n_event n) then None else
  match n_kind n with
  | moved =>
      match dest_path (n_event n) with
      | Some dest =>
          if should_ignore_file config dest then None else Some (normpath dest)
      | None => None
      end
  | created | modified | deleted =>
      if should_ignore_file config (src_path (n_event n)) then None
      else Some (normpath (src_path (n_event n)))
  end.

(** A no-op modification: a [modified] notification whose fingerprint is
    that of the record pending for its path. *)
Definition suppressed (n : Notification) (key : string)
           (recent_events : RecentEvents) : bool :=
  match n_kind n with
  | modified =>
      match PyDict.get key recent_events with
      | Some previous_event =>
          String.eqb (_get_file_hash (fs (n_env n)) key) (file_hash previous_event)
      | None => false
      end
  | created | deleted | moved => false
  end.

(** The key a notification writes, if it is neither dropped nor
    suppressed. *)
Definition writes (n : Notification) (recent_events : RecentEvents)
  : option string :=
  match target n with
  | Some key => if suppressed n key recent_events then None else Some key
  | None => None
  end.

Definition writes_to (p : string) (n : Notification)
           (recent_events : RecentEvents) : bool :=
  match writes n recent_events with
  | Some key => String.eqb key p
  | None => false
  end.

(** The last notification of [ns] that wrote the entry of [p], or [acc]
    when none did. *)
Fixpoint last_writer (p : string) (ns : list Notification)
         (recent_events : RecentEvents) (acc : option Notification)
  : option Notification :=
  match ns with
  | [] => acc
  | n :: ns' =>
      last_writer p ns' (dispatch config n recent_events)
        (if writes_to p n recent_events then Some n else acc)
  end.
End Vocabulary.

(** The record a notification leaves under [key]. *)
Definition record_of (n : Notification) (key : string) : FileChangeEvent :=
  new_FileChangeEvent (n_env n) key (n_kind n).

(** The entries a cleanup pass at [current_time] settles, in the order it
    hands them to the batcher, and those it leaves pending. *)
Definition expired_items (current_time : Z) (recent_events : RecentEvents)
  : RecentEvents :=
  filter (fun item => is_expired current_time (snd item)) recent_events.

Definition unexpired_items (current_time : Z) (recent_events : RecentEvents)
  : RecentEvents :=
  filter (fun item => negb (is_expired current_time (snd item))) recent_events.

Definition settled_for (p : string) (current_time : Z) (recent_events : RecentEvents)
  : RecentEvents :=
  filter (fun item => String.eqb (fst item) p) (expired_items current_time recent_events).

(** The records a run settles for the path [p]: what its cleanup passes pop
    from the entry of [p], pass by pass. *)
Fixpoint settled_along `{PathLib} (p : string) (actions : list Action)
         (m : FileMonitor) : list FileChangeEvent :=
  match actions with
  | [] => []
  | a :: rest =>
      (match a with
       | CleanupPass t => PyDict.values (settled_for p t (recent_events m))
       | _ => []
       end ++ settled_along p rest (snd (step a m)))%list
  end.

(** A [modified] notification for [p], seen as a file that passes the
    classifier, with fingerprint [h]. *)
Definition modified_of `{PathLib} (cfg : Config) (p h : string) (n : Notification) : Prop :=
  n_kind n = modified
  /\ is_directory (n_event n) = false
  /\ should_ignore_file cfg (src_path (n_event n)) = false
  /\ normpath (src_path (n_event n)) = p
  /\ _get_file_hash (fs (n_env n)) p = h.

(** What happens within the settle window that [first] opens: further
    [modified] notifications for [p] with the fingerprint [h], and passes of
    the cleanup thread no later than the end of the window. *)
Definition in_settle_window `{PathLib} (cfg : Config) (p h : string)
           (first : Notification) (a : Action) : Prop :=
  match a with
  | Notify n => modified_of cfg p h n
  | CleanupPass t => t - now (n_env first) <= debounce_interval
  | _ => False
  end.

(** The records the batcher holds: those of the tasks not yet run, then
    those still in [pending_changes]. *)
Definition accumulated (m : FileMonitor) : list FileChangeEvent :=
  (List.concat (work_queue (executor m)) ++ pending_changes m)%list.

(** The last record of [changes] for a path. *)
Definition latest_for (p : string) (changes : list FileChangeEvent)
  : option FileChangeEvent :=
  find (fun change => String.eqb (file_path change) p) (rev changes).

(** The items of a batch for a path. *)
Definition items_for (p : string) (batch : list FileChangeEvent)
  : list FileChangeEvent :=
  filter (fun change => String.eqb (file_path change) p) batch.

(** ** Invariants and relations of the proofs *)

(** The order of a batch. *)
Definition by_timestamp (a b : FileChangeEvent) : Prop := timestamp a <= timestamp b.

(** Every entry of the dictionary is filed under the path of its record. *)
Definition keyed (d : PyDict.dict FileChangeEvent) : Prop :=
  forall k v, In (k, v) d -> file_path v = k.

(** The loop of [unique_changes], from any dictionary. *)
Definition fill (changes : list FileChangeEvent) (d : PyDict.dict FileChangeEvent) :=
  fold_left (fun d change => PyDict.set (file_path change) change d) changes d.

(** What a call into the batcher may change: the executor's queue,
    [pending_changes], [last_batch_time] and the counters.  [added] are the
    records it accepted. *)
Record batcher_step (added : list FileChangeEvent) (m m' : FileMonitor) : Prop := {
  bs_config : config m' = config m;
  bs_recent_events : recent_events m' = recent_events m;
  bs_observer : observer m' = observer m;
  bs_change_callbacks : change_callbacks m' = change_callbacks m;
  bs_batch_interval : batch_interval m' = batch_interval m;
  bs_is_shutdown : is_shutdown (executor m') = is_shutdown (executor m);
  bs_deliveries : deliveries m' = deliveries m;
  bs_accumulated : accumulated m' = (accumulated m ++ added)%list;
  bs_total_events :
    total_events (stats m') = total_events (stats m) + Z.of_nat (List.length added)
}.

(** Popping a list of keys, one after the other. *)
Definition remove_all (ks : list string) (d : RecentEvents) : RecentEvents :=
  fold_left (fun d k => PyDict.remove k d) ks d.

(** The state of the engine while the record of [first] is pending. *)
Definition pending_first (m : FileMonitor) (p : string) (first : Notification)
           (m1 : FileMonitor) : Prop :=
  config m1 = config m
  /\ observer m1 = Alive
  /\ is_shutdown (executor m1) = false
  /\ PyDict.wf (recent_events m1)
  /\ PyDict.get p (recent_events m1) = Some (record_of first p).

(** No task and no delivered batch is empty. *)
Definition no_empty_batch (m : FileMonitor) : Prop :=
  Forall (fun changes => changes <> []) (work_queue (executor m))
  /\ Forall (fun d => dl_batch d <> []) (deliveries m).

(** The counters of [m'] are those of [m] or larger. *)
Definition stats_le (m m' : FileMonitor) : Prop :=
  total_events (stats m) <= total_events (stats m')
  /\ ignored_events (stats m) <= ignored_events (stats m')
  /\ processed_batches (stats m) <= processed_batches (stats m').

(** The executor is shut down and idle, and [history] is what was delivered. *)
Definition shut_down_with (history : list Delivery) (m : FileMonitor) : Prop :=
  is_shutdown (executor m) = true
  /\ work_queue (executor m) = []
  /\ deliveries m = history.

(** [recent_events] holds each path once, under its own record. *)
Definition one_record_per_path (m : FileMonitor) : Prop :=
  PyDict.wf (recent_events m) /\ keyed (recent_events m).

(** The accumulation buffer holds fewer than ten records. *)
Definition pending_below_ten (m : FileMonitor) : Prop :=
  (List.length (pending_changes m) <= 9)%nat.

(** The paths of a list in the order of their first occurrence. *)
Fixpoint first_seen_from (seen l : list string) : list string :=
  match l with
  | [] => []
  | x :: l' =>
      if list_in x seen then first_seen_from seen l'
      else x :: first_seen_from (x :: seen) l'
  end.

Definition first_seen (l : list string) : list string := first_seen_from [] l.

(** The delivery a task makes, given the callbacks registered when it
    runs. *)
Definition delivery_of (callbacks : list Callback) (changes : list FileChangeEvent)
  : Delivery :=
  {| dl_batch := final_changes changes;
     dl_calls := call_callbacks callbacks (final_changes changes) |}.

(** The batches counted are those queued or delivered, as long as no flush
    came after the shutdown of the executor. *)
Definition batches_accounted (m : FileMonitor) : Prop :=
  Z.of_nat (List.length (deliveries m) + List.length (work_queue (executor m)))
  <= processed_batches (stats m)
  /\ (is_shutdown (executor m) = false ->
      Z.of_nat (List.length (deliveries m) + List.length (work_queue (executor m)))
      = processed_batches (stats m)).

(** * Properties *)

(** ** Examples *)

Example normpath_collapses :
  Posix.posix_normpath "./src//a/../b.py" = "src/b.py"
  /\ Posix.posix_normpath "/tmp/../../x/" = "/x"
  /\ Posix.posix_normpath "" = ".".
Proof. repeat split. Qed.

Example suffix_is_last_extension :
  Posix.posix_suffix "src/a.github.py" = ".py"
  /\ Posix.posix_suffix "src/.bashrc" = ""
  /\ Posix.posix_suffix "Makefile" = "".
Proof. repeat split. Qed.

Example fnmatch_wildcards :
  Posix.posix_fnmatch "notes.txt~" "*~" = true
  /\ Posix.posix_fnmatch "a.swp" "*.swo" = false
  /\ Posix.posix_fnmatch ".DS_Store" ".DS_Store" = true.
Proof. repeat split. Qed.

Example should_ignore_file_default_config :
  should_ignore_file (H := Posix.posix) _get_default_config "src/a.py" = false
  /\ should_ignore_file (H := Posix.posix) _get_default_config "src/a.txt" = true
  /\ should_ignore_file (H := Posix.posix) _get_default_config ".git/hooks/x.py" = true
  /\ should_ignore_file (H := Posix.posix) _get_default_config "src/a.py~" = true.
Proof. repeat split. Qed.

(** The first scenario of the specification, up to the batcher: [a.txt]
    modified twice with one digest, [b.txt] created, [c.txt] modified, all
    in one settle window, with every extension allowed; three records are
    settled, in the order the paths were first seen. *)
Example three_paths_settle_three_records :
  let cfg := {| monitoring := None; git := None; system := None |} in
  let disk := [("a.txt", (1, "H1")); ("b.txt", (2, "H2")); ("c.txt", (3, "H3"))] in
  let m := run (H := Posix.posix)
             [StartMonitoring;
              Notify (Scenario.notification modified "a.txt" 0 disk);
              Notify (Scenario.notification modified "a.txt" 500000 disk);
              Notify (Scenario.notification created "b.txt" 600000 disk);
              Notify (Scenario.notification modified "c.txt" 700000 disk);
              CleanupPass (seconds 3)]
             (new_FileMonitor cfg 0) in
  map (fun c => (file_path c, event_type c, file_hash c)) (pending_changes m)
  = [("a.txt", modified, "H1"); ("b.txt", created, "H2"); ("c.txt", modified, "H3")]
  /\ total_events (stats m) = 3.
Proof. split; reflexivity. Qed.

(** ** Strings *)

Lemma prefix_app (d b : string) : String.prefix d (d ++ b) = true.
Proof.
  induction d as [|c d IH]; simpl.
  - destruct b; reflexivity.
  - destruct (ascii_dec c c) as [_|Hne]; [exact IH | now elim Hne].
Qed.

Lemma prefix_inv (d s : string) :
  String.prefix d s = true -> exists b, s = d ++ b.
Proof.
  revert s; induction d as [|c d IH]; intros s Hp.
  - exists s; reflexivity.
  - destruct s as [|c' s]; simpl in Hp; [discriminate|].
    destruct (ascii_dec c c') as [->|_]; [|discriminate].
    destruct (IH _ Hp) as [b ->]. exists b; reflexivity.
Qed.

(** [str_in d s] holds exactly when [d] occurs somewhere in [s]. *)
Lemma str_in_iff (d s : string) :
  str_in d s = true <-> exists a b, s = a ++ d ++ b.
Proof.
  split.
  - induction s as [|c s IH]; cbn [str_in]; intros Hin.
    + rewrite orb_false_r in Hin. destruct (prefix_inv _ _ Hin) as [b Hb].
      exists "", b; exact Hb.
    + apply orb_true_iff in Hin as [Hp|Hin].
      * destruct (prefix_inv _ _ Hp) as [b Hb]. exists "", b; exact Hb.
      * destruct (IH Hin) as (a & b & ->). exists (String c a), b; reflexivity.
  - intros (a & b & ->). induction a as [|c a IH].
    + change ("" ++ d ++ b) with (d ++ b).
      destruct (d ++ b) eqn:E; cbn [str_in]; rewrite <- E, prefix_app; reflexivity.
    + change (String c a ++ d ++ b) with (String c (a ++ d ++ b)).
      cbn [str_in]. rewrite IH. apply orb_true_r.
Qed.

(** ** FileClassifier *)

(** C9. The excluded-directory check of [should_ignore_file] is substring
    containment on the normalized path: whenever an excluded directory name
    [d] of the configuration occurs anywhere in [normpath p], the path is
    ignored, whatever its segments, extension or name are. *)
Theorem should_ignore_file_excluded_substring `{PathLib}
        (cfg : Config) (d p a b : string) :
  In d (get_default (monitoring cfg) exclude_directories []) ->
  normpath p = a ++ d ++ b ->
  should_ignore_file cfg p = true.
Proof.
  intros Hd Hp. unfold should_ignore_file.
  assert (Hex : existsb (fun excluded_dir => str_in excluded_dir (normpath p))
                  (get_default (monitoring cfg) exclude_directories []) = true).
  { apply existsb_exists. exists d. split; [exact Hd|].
    apply str_in_iff. exists a, b. exact Hp. }
  rewrite Hex. reflexivity.
Qed.

(** With [.git] excluded, the file [a.github.py] is ignored although no
    segment of its path is [.git] (and its extension is allowed). *)
Lemma should_ignore_file_excluded_substring_witness :
  should_ignore_file (H := Posix.posix) _get_default_config "a.github.py" = true
  /\ ~ In ".git" (Posix.split (normpath (PathLib := Posix.posix) "a.github.py"))
  /\ list_in (path_suffix (PathLib := Posix.posix) "a.github.py")
       [".py"; ".js"; ".ts"; ".html"; ".css"; ".md"] = true.
Proof.
  split; [|split].
  - apply (should_ignore_file_excluded_substring (H := Posix.posix)
             _get_default_config ".git" "a.github.py" "a" "hub.py").
    + simpl. left. reflexivity.
    + reflexivity.
  - simpl. intros [Heq|[]]. discriminate Heq.
  - reflexivity.
Defined.

(** ** Dictionaries *)
Module PyDictFacts.
Import PyDict.
Section Facts.
Context {V : Type}.
Implicit Types (d : dict V) (k : string) (v : V).

Lemma get_set_same k v d : get k (set k v d) = Some v.
Proof.
  induction d as [|[k' v'] d IH]; simpl.
  - now rewrite String.eqb_refl.
  - destruct (String.eqb k k') eqn:E; simpl; rewrite ?E, ?String.eqb_refl; auto.
Qed.

Lemma get_set_other k k' v d : k' <> k -> get k' (set k v d) = get k' d.
Proof.
  intros Hne. induction d as [|[k0 v0] d IH]; simpl.
  - apply String.eqb_neq in Hne. now rewrite Hne.
  - destruct (String.eqb k k0) eqn:E; simpl.
    + apply String.eqb_eq in E; subst k0.
      apply String.eqb_neq in Hne. now rewrite Hne.
    + now rewrite IH.
Qed.

Lemma get_None_keys k d : get k d = None <-> ~ In k (keys d).
Proof.
  induction d as [|[k' v'] d IH]; simpl.
  - tauto.
  - destruct (String.eqb k k') eqn:E.
    + apply String.eqb_eq in E; subst. split; [discriminate | intros F; elim F; now left].
    + apply String.eqb_neq in E. rewrite IH. split.
      * intros Hn [Heq|Hin]; [now elim E | now elim Hn].
      * intros Hn Hin. apply Hn. now right.
Qed.

Lemma get_Some_In k v d : get k d = Some v -> In (k, v) d.
Proof.
  induction d as [|[k' v'] d IH]; simpl; [discriminate|].
  destruct (String.eqb k k') eqn:E.
  - apply String.eqb_eq in E; subst. intros [= ->]. now left.
  - intros Hg. right. auto.
Qed.

Lemma In_get_Some k v d : wf d -> In (k, v) d -> get k d = Some v.
Proof.
  unfold wf. induction d as [|[k' v'] d IH]; simpl; [tauto|].
  intros Hnd [Heq|Hin]; inversion Hnd as [|? ? Hni Hnd']; subst.
  - injection Heq as -> ->. now rewrite String.eqb_refl.
  - destruct (String.eqb k k') eqn:E; [|auto].
    apply String.eqb_eq in E; subst. elim Hni.
    change (In (fst (k', v)) (map fst d)). now apply in_map.
Qed.

(** A new key goes to the end; a key already there keeps its place. *)
Lemma set_absent k v d : get k d = None -> set k v d = (d ++ [(k, v)])%list.
Proof.
  induction d as [|[k' v'] d IH]; simpl; [reflexivity|].
  destruct (String.eqb k k'); [discriminate|]. intros Hg. now rewrite IH.
Qed.

Lemma keys_set_present k v d : get k d <> None -> keys (set k v d) = keys d.
Proof.
  induction d as [|[k' v'] d IH]; simpl; [congruence|].
  destruct (String.eqb k k') eqn:E; simpl.
  - apply String.eqb_eq in E; subst. reflexivity.
  - intros Hg. now rewrite IH.
Qed.

Lemma wf_set k v d : wf d -> wf (set k v d).
Proof.
  unfold wf. intros Hwf. destruct (get k d) eqn:E.
  - rewrite keys_set_present by congruence. exact Hwf.
  - rewrite set_absent by exact E. unfold keys. rewrite map_app. simpl.
    apply get_None_keys in E.
    apply NoDup_app_remove_l with (l := []). simpl.
    apply Permutation_NoDup with (l := k :: map fst d).
    + apply Permutation_cons_append.
    + constructor; assumption.
Qed.

Lemma keys_remove_incl k d : incl (keys (remove k d)) (keys d).
Proof.
  induction d as [|[k' v'] d IH]; simpl; [apply incl_refl|].
  destruct (String.eqb k k'); simpl.
  - apply incl_tl, incl_refl.
  - apply incl_cons; [now left | now apply incl_tl].
Qed.

Lemma wf_remove k d : wf d -> wf (remove k d).
Proof.
  unfold wf. induction d as [|[k' v'] d IH]; simpl; [auto|].
  intros Hnd. inversion Hnd as [|? ? Hni Hnd']; subst.
  destruct (String.eqb k k'); simpl; [assumption|].
  constructor; [|auto]. intros Hin. apply Hni. now apply (keys_remove_incl k d).
Qed.

Lemma get_remove_same k d : wf d -> get k (remove k d) = None.
Proof.
  unfold wf. induction d as [|[k' v'] d IH]; simpl; [reflexivity|].
  intros Hnd. inversion Hnd as [|? ? Hni Hnd']; subst.
  destruct (String.eqb k k') eqn:E; simpl.
  - apply String.eqb_eq in E; subst. now apply get_None_keys.
  - rewrite E. auto.
Qed.

Lemma get_remove_other k k' d : k' <> k -> get k' (remove k d) = get k' d.
Proof.
  intros Hne. induction d as [|[k0 v0] d IH]; simpl; [reflexivity|].
  destruct (String.eqb k k0) eqn:E; simpl.
  - apply String.eqb_eq in E; subst k0.
    apply String.eqb_neq in Hne. now rewrite Hne.
  - now rewrite IH.
Qed.

Lemma wf_filter (f : string * V -> bool) d : wf d -> wf (filter f d).
Proof.
  unfold wf, keys. induction d as [|[k v] d IH]; simpl; [auto|].
  intros Hnd. inversion Hnd as [|? ? Hni Hnd']; subst.
  destruct (f (k, v)); simpl; [|auto].
  constructor; [|auto]. intros Hin. apply Hni.
  apply in_map_iff in Hin as (x & Hx & Hin). apply filter_In in Hin as [Hin _].
  rewrite <- Hx. now apply in_map.
Qed.

Lemma length_set_le k v d : (List.length (set k v d) <= S (List.length d))%nat.
Proof.
  induction d as [|[k' v'] d IH]; simpl; [lia|].
  destruct (String.eqb k k'); simpl; lia.
Qed.
End Facts.
End PyDictFacts.

(** ** Debouncer: the handlers *)
Section HandlerFacts.
Context `{PathLib}.
Variable cfg : Config.
Import PyDict PyDictFacts.

(** The four handlers in one equation: a notification that has a target
    and is not suppressed overwrites the entry of that target with its own
    record; any other notification leaves the dictionary as it is. *)
Lemma dispatch_spec (n : Notification) (recent : RecentEvents) :
  dispatch cfg n recent =
  match writes cfg n recent with
  | Some key => set key (record_of n key) recent
  | None => recent
  end.
Proof.
  unfold dispatch, writes, target, suppressed, record_of.
  destruct n as [kind ev env]; simpl.
  destruct kind; simpl;
    unfold on_created, on_modified, on_deleted, on_moved;
    destruct (is_directory ev); try reflexivity.
  - destruct (should_ignore_file cfg (src_path ev)); reflexivity.
  - destruct (should_ignore_file cfg (src_path ev)); [reflexivity|]. simpl.
    destruct (get (normpath (src_path ev)) recent) as [prev|]; [|reflexivity].
    destruct (String.eqb _ (file_hash prev)); reflexivity.
  - destruct (should_ignore_file cfg (src_path ev)); reflexivity.
  - destruct (dest_path ev) as [dest|]; [|reflexivity].
    destruct (should_ignore_file cfg dest); reflexivity.
Qed.

Lemma dispatch_wf (n : Notification) (recent : RecentEvents) :
  wf recent -> wf (dispatch cfg n recent).
Proof.
  intros Hwf. rewrite dispatch_spec. destruct (writes cfg n recent); [|exact Hwf].
  now apply wf_set.
Qed.

Lemma dispatch_all_wf (ns : list Notification) (recent : RecentEvents) :
  wf recent -> wf (dispatch_all cfg ns recent).
Proof.
  revert recent; induction ns as [|n ns IH]; intros recent Hwf; simpl; [exact Hwf|].
  apply IH, dispatch_wf, Hwf.
Qed.

(** A notification that does not write [p] leaves the entry of [p]. *)
Lemma dispatch_get_other (p : string) (n : Notification) (recent : RecentEvents) :
  writes_to cfg p n recent = false ->
  get p (dispatch cfg n recent) = get p recent.
Proof.
  unfold writes_to. rewrite dispatch_spec.
  destruct (writes cfg n recent) as [key|]; [|reflexivity].
  intros Hne. apply String.eqb_neq in Hne. apply get_set_other. congruence.
Qed.

(** A notification that writes [p] leaves its own record there. *)
Lemma dispatch_get_written (p : string) (n : Notification) (recent : RecentEvents) :
  writes_to cfg p n recent = true ->
  get p (dispatch cfg n recent) = Some (record_of n p).
Proof.
  unfold writes_to. rewrite dispatch_spec.
  destruct (writes cfg n recent) as [key|]; [|discriminate].
  intros Heq. apply String.eqb_eq in Heq. subst key. apply get_set_same.
Qed.

(** The entry of [p] after a sequence of notifications is the record of
    the last one that wrote it. *)
Lemma last_writer_get (p : string) (orig : option FileChangeEvent)
      (ns : list Notification) :
  forall (recent : RecentEvents) (acc : option Notification),
    get p recent = match acc with
                   | Some n => Some (record_of n p)
                   | None => orig
                   end ->
    get p (dispatch_all cfg ns recent) =
    match last_writer cfg p ns recent acc with
    | Some n => Some (record_of n p)
    | None => orig
    end.
Proof.
  induction ns as [|n ns IH]; intros recent acc Hacc; simpl; [exact Hacc|].
  apply IH. destruct (writes_to cfg p n recent) eqn:E.
  - now apply dispatch_get_written.
  - rewrite dispatch_get_other by exact E. exact Hacc.
Qed.

(** Repeated no-op modifications leave the dictionary as it is. *)
Lemma dispatch_all_suppressed (ns : list Notification) (recent : RecentEvents) :
  Forall (fun n => writes cfg n recent = None) ns ->
  dispatch_all cfg ns recent = recent.
Proof.
  induction 1 as [|n ns Hn _ IH]; simpl; [reflexivity|].
  rewrite dispatch_spec, Hn. exact IH.
Qed.
End HandlerFacts.

(** C10. A [moved] notification touches no entry of [recent_events] but that
    of its normalized destination: in particular nothing is recorded under
    the source path.  Without a destination it is dropped; with one that
    passes the classifier, the entry of the destination is a record of kind
    [moved] for the destination; and the dictionary grows by one entry at
    most. *)
Theorem on_moved_records_destination_only `{PathLib}
        (cfg : Config) (env : Env) (event : FileSystemEvent) (recent : RecentEvents) :
  (forall k, (forall dest, dest_path event = Some dest -> k <> normpath dest) ->
             PyDict.get k (on_moved cfg env event recent) = PyDict.get k recent)
  /\ (dest_path event = None -> on_moved cfg env event recent = recent)
  /\ (forall dest,
        dest_path event = Some dest -> is_directory event = false ->
        should_ignore_file cfg dest = false ->
        PyDict.get (normpath dest) (on_moved cfg env event recent)
        = Some {| file_path := normpath dest;
                  event_type := moved;
                  timestamp := now env;
                  file_size := _get_file_size (fs env) (normpath dest);
                  file_hash := _get_file_hash (fs env) (normpath dest) |})
  /\ (List.length (on_moved cfg env event recent) <= S (List.length recent))%nat.
Proof.
  unfold on_moved. repeat split.
  - intros k Hk. destruct (is_directory event); [reflexivity|].
    destruct (dest_path event) as [dest|]; [|reflexivity].
    destruct (should_ignore_file cfg dest); simpl; [reflexivity|].
    apply PyDictFacts.get_set_other. now apply Hk.
  - intros ->. destruct (is_directory event); reflexivity.
  - intros dest -> -> ->. simpl. apply PyDictFacts.get_set_same.
  - destruct (is_directory event); [lia|].
    destruct (dest_path event) as [dest|]; [|lia].
    destruct (should_ignore_file cfg dest); simpl; [lia|].
    apply PyDictFacts.length_set_le.
Qed.

(** The move of [old.py] to [new.py], seen with an empty dictionary: one
    record, under [new.py]. *)
Lemma on_moved_records_destination_only_witness :
  let event := {| is_directory := false; src_path := "old.py";
                  dest_path := Some "new.py" |} in
  let env := {| now := 5;
                fs := {| path_exists := fun _ => false; path_isfile := fun _ => false;
                         path_getsize := fun _ => None;
                         md5_hexdigest := fun _ => None |} |} in
  PyDict.get "old.py" (on_moved (H := Posix.posix) _get_default_config env event [])
  = None
  /\ on_moved (H := Posix.posix) _get_default_config env event []
     = [("new.py", {| file_path := "new.py"; event_type := moved; timestamp := 5;
                      file_size := 0; file_hash := "" |})].
Proof.
  split.
  - apply (proj1 (on_moved_records_destination_only (H := Posix.posix)
                    _get_default_config _ _ [])).
    intros dest [= <-]. discriminate.
  - reflexivity.
Defined.

(** ** Batcher: deduplication and ordering *)
Section BatchFacts.
Import PyDict PyDictFacts.

Lemma insert_by_timestamp_perm x l :
  Permutation (insert_by_timestamp x l) (x :: l).
Proof.
  induction l as [|y l IH]; simpl; [reflexivity|].
  destruct (timestamp x <=? timestamp y); [reflexivity|].
  rewrite IH. apply perm_swap.
Qed.

Lemma sort_by_timestamp_perm l : Permutation (sort_by_timestamp l) l.
Proof.
  induction l as [|x l IH]; simpl; [reflexivity|].
  rewrite insert_by_timestamp_perm. now constructor.
Qed.

Lemma insert_by_timestamp_sorted x l :
  StronglySorted by_timestamp l ->
  StronglySorted by_timestamp (insert_by_timestamp x l).
Proof.
  induction 1 as [|y l Hs IH Hall]; simpl.
  - repeat constructor.
  - destruct (timestamp x <=? timestamp y) eqn:E.
    + apply Z.leb_le in E. constructor; [now constructor|].
      constructor; [exact E|].
      eapply Forall_impl; [|exact Hall]. unfold by_timestamp. intros; lia.
    + apply Z.leb_gt in E. constructor; [exact IH|].
      eapply Permutation_Forall.
      * symmetry. apply insert_by_timestamp_perm.
      * constructor; [unfold by_timestamp; lia | exact Hall].
Qed.

Lemma sort_by_timestamp_sorted l : StronglySorted by_timestamp (sort_by_timestamp l).
Proof.
  induction l as [|x l IH]; simpl; [constructor|].
  now apply insert_by_timestamp_sorted.
Qed.

Lemma keyed_set c d : keyed d -> keyed (set (file_path c) c d).
Proof.
  unfold keyed. induction d as [|[k' v'] d IH]; simpl; intros Hk k v.
  - intros [[= <- <-]|[]]. reflexivity.
  - destruct (String.eqb (file_path c) k'); simpl.
    + intros [[= <- <-]|Hin]; [reflexivity|]. apply Hk. now right.
    + intros [[= <- <-]|Hin]; [apply Hk; now left|].
      apply IH; [|exact Hin]. intros k0 v0 H0. apply Hk. now right.
Qed.

Lemma fill_wf changes : forall d, wf d -> wf (fill changes d).
Proof.
  induction changes as [|c cs IH]; simpl; intros d Hwf; [exact Hwf|].
  apply IH, wf_set, Hwf.
Qed.

Lemma fill_keyed changes : forall d, keyed d -> keyed (fill changes d).
Proof.
  induction changes as [|c cs IH]; simpl; intros d Hk; [exact Hk|].
  apply IH, keyed_set, Hk.
Qed.

Lemma find_app {A} (f : A -> bool) (l1 l2 : list A) :
  find f (l1 ++ l2)%list = match find f l1 with
                           | Some x => Some x
                           | None => find f l2
                           end.
Proof.
  induction l1 as [|x l1 IH]; simpl; [reflexivity|].
  destruct (f x); [reflexivity | exact IH].
Qed.

(** The loop keeps, for every path, the last record it met. *)
Lemma fill_get p changes :
  forall d, get p (fill changes d) = match latest_for p changes with
                                     | Some c => Some c
                                     | None => get p d
                                     end.
Proof.
  unfold latest_for.
  induction changes as [|c cs IH]; simpl; intros d; [reflexivity|].
  rewrite IH, find_app. destruct (find _ (rev cs)); [reflexivity|]. simpl.
  destruct (String.eqb (file_path c) p) eqn:E.
  - apply String.eqb_eq in E. subst p. apply get_set_same.
  - apply String.eqb_neq in E. apply get_set_other. congruence.
Qed.

Lemma filter_values_get p (d : dict FileChangeEvent) :
  wf d -> keyed d ->
  filter (fun change => String.eqb (file_path change) p) (values d)
  = match get p d with Some r => [r] | None => [] end.
Proof.
  unfold wf, keyed. induction d as [|[k v] d IH]; simpl; intros Hnd Hk; [reflexivity|].
  inversion Hnd as [|? ? Hni Hnd']; subst.
  assert (Hv : file_path v = k) by (apply Hk; now left).
  assert (IH' := IH Hnd' (fun k0 v0 H0 => Hk k0 v0 (or_intror H0))).
  rewrite Hv, (String.eqb_sym k p). destruct (String.eqb p k) eqn:E.
  - apply String.eqb_eq in E. subst p. rewrite IH'.
    apply get_None_keys in Hni. now rewrite Hni.
  - exact IH'.
Qed.

Lemma latest_for_path p changes r :
  latest_for p changes = Some r -> file_path r = p /\ In r changes.
Proof.
  unfold latest_for. intros Hf. apply find_some in Hf as [Hin Heq].
  apply String.eqb_eq in Heq. split; [exact Heq | now apply in_rev].
Qed.

Lemma latest_for_In c changes :
  In c changes -> exists r, latest_for (file_path c) changes = Some r.
Proof.
  unfold latest_for. intros Hin.
  destruct (find _ (rev changes)) as [r|] eqn:E; [now exists r|].
  apply find_none with (x := c) in E; [|rewrite <- in_rev; exact Hin].
  now rewrite String.eqb_refl in E.
Qed.

Lemma filter_perm {A} (f : A -> bool) (l l' : list A) :
  Permutation l l' -> Permutation (filter f l) (filter f l').
Proof.
  induction 1 as [|x l l' _ IH|x y l|l l' l'' _ IH1 _ IH2]; simpl.
  - constructor.
  - destruct (f x); [now constructor | exact IH].
  - destruct (f x), (f y); try reflexivity. apply perm_swap.
  - now transitivity (filter f l').
Qed.

Lemma items_for_final_changes p changes :
  items_for p (final_changes changes)
  = match latest_for p changes with Some r => [r] | None => [] end.
Proof.
  unfold items_for, final_changes, unique_changes.
  change (fold_left _ changes []) with (fill changes []).
  assert (Hperm : Permutation
            (filter (fun change => String.eqb (file_path change) p)
               (sort_by_timestamp (values (fill changes []))))
            (filter (fun change => String.eqb (file_path change) p)
               (values (fill changes [])))).
  { apply filter_perm, sort_by_timestamp_perm. }
  rewrite filter_values_get in Hperm.
  - rewrite fill_get in Hperm. simpl in Hperm.
    destruct (latest_for p changes) as [r|].
    + symmetry in Hperm. now apply Permutation_length_1_inv in Hperm.
    + symmetry in Hperm. now apply Permutation_nil in Hperm.
  - apply fill_wf. constructor.
  - apply fill_keyed. intros k v [].
Qed.

Lemma final_changes_In r changes :
  In r (final_changes changes) -> latest_for (file_path r) changes = Some r.
Proof.
  intros Hin.
  assert (Hf : In r (items_for (file_path r) (final_changes changes))).
  { apply filter_In. split; [exact Hin | apply String.eqb_refl]. }
  rewrite items_for_final_changes in Hf.
  destruct (latest_for (file_path r) changes) as [r'|]; simpl in Hf; [|tauto].
  destruct Hf as [->|[]]. reflexivity.
Qed.

Lemma final_changes_nonempty changes : changes <> [] -> final_changes changes <> [].
Proof.
  destruct changes as [|c cs]; [congruence|]. intros _ Hnil.
  destruct (latest_for_In c (c :: cs)) as [r Hr]; [now left|].
  assert (Hi := items_for_final_changes (file_path c) (c :: cs)).
  rewrite Hr, Hnil in Hi. discriminate Hi.
Qed.
End BatchFacts.

(** ** Aggregator: running the methods *)

(** Unfolds the plumbing of [M] so that a method runs on a given monitor. *)
Ltac run_m :=
  repeat (unfold bind, read, update, ret, raise; simpl).

Section BatcherSteps.

Lemma batcher_step_refl m : batcher_step [] m m.
Proof.
  constructor; try reflexivity.
  - now rewrite app_nil_r.
  - simpl. lia.
Qed.

Lemma batcher_step_trans a1 a2 m1 m2 m3 :
  batcher_step a1 m1 m2 -> batcher_step a2 m2 m3 ->
  batcher_step (a1 ++ a2) m1 m3.
Proof.
  intros [] []. constructor; try congruence.
  - rewrite app_assoc. congruence.
  - rewrite length_app, Nat2Z.inj_add. lia.
Qed.

(** A flush with nothing pending does nothing. *)
Lemma trigger_empty now m :
  pending_changes m = [] -> _trigger_batch_processing now m = (Val tt, m).
Proof.
  intros Hp. unfold _trigger_batch_processing. run_m. now rewrite Hp.
Qed.

(** A flush moves the whole of [pending_changes] into one task. *)
Lemma trigger_nonempty now m :
  pending_changes m <> [] -> is_shutdown (executor m) = false ->
  _trigger_batch_processing now m =
  (Val tt,
   {| config := config m; recent_events := recent_events m;
      observer := observer m; pending_changes := [];
      change_callbacks := change_callbacks m; last_batch_time := now;
      batch_interval := batch_interval m;
      executor := {| work_queue := (work_queue (executor m) ++ [pending_changes m])%list;
                     is_shutdown := false |};
      stats := incr_processed_batches (stats m);
      deliveries := deliveries m |}).
Proof.
  intros Hp Hs. unfold _trigger_batch_processing, executor_submit. run_m.
  destruct (pending_changes m) as [|c cs]; [congruence|]. run_m.
  rewrite Hs. reflexivity.
Qed.

(** After [shutdown], a flush still empties [pending_changes] and counts a
    batch, and then fails to submit it. *)
Lemma trigger_after_shutdown now m :
  pending_changes m <> [] -> is_shutdown (executor m) = true ->
  _trigger_batch_processing now m =
  (Exc (RuntimeError "cannot schedule new futures after shutdown"),
   {| config := config m; recent_events := recent_events m;
      observer := observer m; pending_changes := [];
      change_callbacks := change_callbacks m; last_batch_time := now;
      batch_interval := batch_interval m;
      executor := executor m;
      stats := incr_processed_batches (stats m);
      deliveries := deliveries m |}).
Proof.
  intros Hp Hs. unfold _trigger_batch_processing, executor_submit. run_m.
  destruct (pending_changes m) as [|c cs]; [congruence|]. run_m.
  rewrite Hs. reflexivity.
Qed.

Lemma trigger_step now m :
  is_shutdown (executor m) = false ->
  exists m', _trigger_batch_processing now m = (Val tt, m')
             /\ batcher_step [] m m'.
Proof.
  intros Hs. destruct (pending_changes m) as [|c cs] eqn:Hp.
  - exists m. split; [now apply trigger_empty | apply batcher_step_refl].
  - eexists. split; [apply trigger_nonempty; congruence|].
    constructor; simpl; try reflexivity; try congruence.
    + unfold accumulated; simpl. rewrite Hp, concat_app. simpl.
      now rewrite !app_nil_r.
    + lia.
Qed.

(** The batcher accepts a settled record: it is counted and kept, in
    [pending_changes] or in a task. *)
Lemma process_file_change_step now event m :
  is_shutdown (executor m) = false ->
  exists m', _process_file_change now event m = (Val tt, m')
             /\ batcher_step [event] m m'.
Proof.
  intros Hs. unfold _process_file_change. run_m.
  set (m1 := with_stats _ _).
  assert (H1 : batcher_step [event] m m1).
  { constructor; try reflexivity.
    unfold accumulated; simpl. now rewrite app_assoc. }
  destruct (_ || _).
  - destruct (trigger_step now m1) as (m' & -> & H2); [exact Hs|].
    exists m'. split; [reflexivity|].
    rewrite <- (app_nil_r [event]). eapply batcher_step_trans; eassumption.
  - exists m1. split; [reflexivity | exact H1].
Qed.
End BatcherSteps.

(** ** Debouncer: the cleanup pass *)
Section CleanupFacts.
Import PyDict PyDictFacts.

Lemma remove_all_cons_notin ks : forall k v (d : RecentEvents),
  ~ In k ks -> remove_all ks ((k, v) :: d) = (k, v) :: remove_all ks d.
Proof.
  induction ks as [|k0 ks IH]; intros k v d Hni; simpl; [reflexivity|].
  destruct (String.eqb k0 k) eqn:E.
  - apply String.eqb_eq in E. subst. elim Hni. now left.
  - apply IH. intros Hin. apply Hni. now right.
Qed.

(** Popping the keys that a test selects leaves the entries it rejects. *)
Lemma remove_all_filter (f : string * FileChangeEvent -> bool) (d : RecentEvents) :
  wf d -> remove_all (keys (filter f d)) d = filter (fun item => negb (f item)) d.
Proof.
  unfold wf. induction d as [|[k v] d IH]; simpl; intros Hnd; [reflexivity|].
  inversion Hnd as [|? ? Hni Hnd']; subst.
  destruct (f (k, v)); simpl.
  - rewrite String.eqb_refl. now apply IH.
  - rewrite remove_all_cons_notin; [now rewrite IH|].
    intros Hin. apply Hni. unfold keys in Hin.
    apply in_map_iff in Hin as (x & Hx & Hin). apply filter_In in Hin as [Hin _].
    rewrite <- Hx. now apply in_map.
Qed.

Lemma batcher_step_with_recent r added m m' :
  batcher_step added m m' ->
  batcher_step added (with_recent_events r m) (with_recent_events r m').
Proof. intros []. constructor; assumption || reflexivity. Qed.

(** The second loop of the cleanup pass: every selected entry is popped
    and handed to the batcher, in order. *)
Lemma settle_loop t (items : RecentEvents) : forall m,
  is_shutdown (executor m) = false ->
  NoDup (keys items) ->
  (forall k e, In (k, e) items -> get k (recent_events m) = Some e) ->
  exists m',
    for_each (keys items) (settle t) m = (Val tt, m')
    /\ batcher_step (values items)
         (with_recent_events (remove_all (keys items) (recent_events m)) m) m'.
Proof.
  induction items as [|[k e] items IH]; intros m Hs Hnd Hget; simpl.
  - exists m. split; [reflexivity|].
    destruct m; apply batcher_step_refl.
  - inversion Hnd as [|? ? Hni Hnd']; subst.
    unfold bind at 1. unfold settle at 1. run_m.
    rewrite (Hget k e) by now left.
    set (m1 := with_recent_events (remove k (recent_events m)) m).
    destruct (process_file_change_step t e m1 Hs) as (m2 & -> & H12).
    destruct (IH m2) as (m3 & -> & H23).
    + rewrite (bs_is_shutdown _ _ _ H12). exact Hs.
    + exact Hnd'.
    + intros k' e' Hin. rewrite (bs_recent_events _ _ _ H12). simpl.
      rewrite get_remove_other; [apply Hget; now right|].
      intros ->. apply Hni. change (In (fst (k, e')) (map fst items)).
      now apply in_map.
    + exists m3. split; [reflexivity|].
      rewrite (bs_recent_events _ _ _ H12) in H23. simpl in H23.
      change (e :: values items) with ([e] ++ values items)%list.
      eapply batcher_step_trans; [|exact H23].
      apply (batcher_step_with_recent
               (remove_all (keys items) (remove k (recent_events m)))) in H12.
      exact H12.
Qed.

(** A cleanup pass while the executor accepts work: the expired entries
    leave [recent_events] and reach the batcher, in dictionary order, each
    counted once in [total_events]; the others stay. *)
Lemma cleanup_old_events_spec t m :
  wf (recent_events m) -> is_shutdown (executor m) = false ->
  exists m',
    cleanup_old_events t m = (Val tt, m')
    /\ batcher_step (values (expired_items t (recent_events m)))
         (with_recent_events (unexpired_items t (recent_events m)) m) m'.
Proof.
  intros Hwf Hs. unfold cleanup_old_events, expired_files. run_m.
  destruct (settle_loop t (expired_items t (recent_events m)) m Hs) as (m' & Hrun & Hstep).
  - apply (wf_filter _ _ Hwf).
  - intros k e Hin. apply In_get_Some; [exact Hwf|].
    apply filter_In in Hin. tauto.
  - exists m'. split; [exact Hrun|].
    unfold expired_items in Hstep. rewrite remove_all_filter in Hstep by exact Hwf.
    exact Hstep.
Qed.

(** The entries settled for a path: its pending record, if expired. *)
Lemma settled_for_get p t (recent : RecentEvents) :
  wf recent ->
  settled_for p t recent
  = match get p recent with
    | Some e => if is_expired t e then [(p, e)] else []
    | None => []
    end.
Proof.
  unfold settled_for, expired_items, wf.
  induction recent as [|[k v] d IH]; simpl; intros Hnd; [reflexivity|].
  inversion Hnd as [|? ? Hni Hnd']; subst.
  rewrite (String.eqb_sym p k).
  destruct (String.eqb k p) eqn:E.
  - apply String.eqb_eq in E. subst k.
    apply get_None_keys in Hni. rewrite Hni in IH.
    destruct (is_expired t v); simpl; rewrite ?String.eqb_refl, IH; auto.
  - destruct (is_expired t v); simpl; rewrite ?E; auto.
Qed.
End CleanupFacts.

(** ** The engine *)
Section EngineFacts.
Context `{PathLib}.
Import PyDict PyDictFacts.

(** While the observer is alive, notifications go to the handler and touch
    nothing but [recent_events]. *)
Lemma run_notify (ns : list Notification) : forall m,
  observer m = Alive ->
  run (map Notify ns) m
  = with_recent_events (dispatch_all (config m) ns (recent_events m)) m.
Proof.
  unfold run. induction ns as [|n ns IH]; intros m Ha; simpl.
  - destruct m; reflexivity.
  - unfold notify. run_m. rewrite Ha. simpl. rewrite IH by exact Ha. reflexivity.
Qed.

Lemma get_filter_None (f : string * FileChangeEvent -> bool) p (d : RecentEvents) :
  get p d = None -> get p (filter f d) = None.
Proof.
  rewrite !get_None_keys. intros Hni Hin. apply Hni. unfold keys in *.
  apply in_map_iff in Hin as (x & Hx & Hin). apply filter_In in Hin as [Hin _].
  rewrite <- Hx. now apply in_map.
Qed.

(** A modification with the fingerprint of the pending record is a no-op. *)
Lemma modified_same_hash_suppressed cfg (n : Notification) p (prev : FileChangeEvent)
      (recent : RecentEvents) :
  n_kind n = modified ->
  is_directory (n_event n) = false ->
  should_ignore_file cfg (src_path (n_event n)) = false ->
  normpath (src_path (n_event n)) = p ->
  get p recent = Some prev ->
  _get_file_hash (fs (n_env n)) p = file_hash prev ->
  writes cfg n recent = None.
Proof.
  intros Hk Hd Hi Hp Hg Hh. unfold writes, target, suppressed.
  rewrite Hd, Hk, Hi, Hp, Hg, Hh, String.eqb_refl. reflexivity.
Qed.

Lemma modified_first_written cfg (n : Notification) p (recent : RecentEvents) :
  n_kind n = modified ->
  is_directory (n_event n) = false ->
  should_ignore_file cfg (src_path (n_event n)) = false ->
  normpath (src_path (n_event n)) = p ->
  get p recent = None ->
  writes cfg n recent = Some p.
Proof.
  intros Hk Hd Hi Hp Hg. unfold writes, target, suppressed.
  rewrite Hd, Hk, Hi, Hp, Hg. reflexivity.
Qed.
End EngineFacts.

(** *** Repeated modifications within a settle window *)
Section SettleWindow.
Context `{PathLib}.
Import PyDict PyDictFacts.

Lemma settled_along_app p (a1 a2 : list Action) : forall m,
  settled_along p (a1 ++ a2) m
  = (settled_along p a1 m ++ settled_along p a2 (run a1 m))%list.
Proof.
  induction a1 as [|a a1 IH]; intros m; simpl; [reflexivity|].
  rewrite IH, app_assoc. reflexivity.
Qed.

Lemma get_filter_Some (f : string * FileChangeEvent -> bool) p e (d : RecentEvents) :
  wf d -> get p d = Some e -> f (p, e) = true -> get p (filter f d) = Some e.
Proof.
  intros Hwf Hg Hf. apply In_get_Some; [now apply wf_filter|].
  apply filter_In. split; [now apply get_Some_In | exact Hf].
Qed.

(** Within the window, the pending record of [first] stays: later
    modifications are no-ops, and the cleanup passes leave it. *)
Lemma settle_window_run m p h first (window : list Action) :
  modified_of (config m) p h first ->
  Forall (in_settle_window (config m) p h first) window ->
  forall m1, pending_first m p first m1 ->
             pending_first m p first (run window m1)
             /\ settled_along p window m1 = [].
Proof.
  intros Hfirst. induction 1 as [|a window Ha _ IH]; intros m1 Hpend.
  - split; [exact Hpend | reflexivity].
  - destruct Hpend as (Hc & Ho & Hs & Hwf & Hg).
    destruct a; simpl in Ha; try contradiction.
    + (* a further modification: suppressed *)
      destruct Ha as (Hk' & Hd' & Hi' & Hp' & Hh').
      assert (Hw : writes (config m1) n (recent_events m1) = None).
      { rewrite Hc. eapply modified_same_hash_suppressed; eauto.
        rewrite Hh'. unfold record_of. simpl.
        destruct Hfirst as (_ & _ & _ & _ & Hh). now rewrite Hh. }
      assert (Hstep : snd (step (Notify n) m1)
                      = with_recent_events (recent_events m1) m1).
      { simpl. unfold notify. run_m. rewrite Ho. simpl.
        now rewrite dispatch_spec, Hw. }
      change (run (Notify n :: window) m1) with (run window (snd (step (Notify n) m1))).
      cbn [settled_along]. rewrite Hstep. apply IH. now repeat split.
    + (* a cleanup pass before the record expires *)
      assert (Hne : is_expired current_time (record_of first p) = false).
      { unfold is_expired, record_of. simpl. rewrite Z.gtb_ltb. apply Z.ltb_ge. lia. }
      destruct (cleanup_old_events_spec current_time m1 Hwf Hs) as (m2 & Hrun & Hstep).
      change (run (CleanupPass current_time :: window) m1)
        with (run window (snd (step (CleanupPass current_time) m1))).
      cbn [settled_along step]. rewrite Hrun. cbn [snd].
      rewrite settled_for_get by exact Hwf. rewrite Hg, Hne. simpl.
      apply IH. unfold pending_first.
      rewrite (bs_config _ _ _ Hstep), (bs_observer _ _ _ Hstep),
        (bs_is_shutdown _ _ _ Hstep), (bs_recent_events _ _ _ Hstep). simpl.
      repeat split; try assumption.
      * apply (wf_filter _ _ Hwf).
      * apply get_filter_Some; [exact Hwf | exact Hg |]. simpl. now rewrite Hne.
Qed.
End SettleWindow.

(** C1 (as the code has it).  A [modified] notification for a path [p]
    opens a settle window; further [modified] notifications for [p] with
    the same fingerprint arrive in it, in any number, while the cleanup
    thread makes its passes.  When no record was pending for [p], the first
    notification is recorded and all the others are suppressed, and the
    first cleanup pass after the window settles its record: exactly one
    record is settled for [p], the first notification's, and it is handed
    to the batcher.  When a record with that fingerprint was pending
    already, the first notification is suppressed as well. *)
Theorem repeated_modified_settles_first `{PathLib}
        (m : FileMonitor) (p h : string) (first : Notification) :
  observer m = Alive ->
  is_shutdown (executor m) = false ->
  PyDict.wf (recent_events m) ->
  modified_of (config m) p h first ->
  (PyDict.get p (recent_events m) = None ->
   forall (window : list Action) (t : Z),
     Forall (in_settle_window (config m) p h first) window ->
     t - now (n_env first) > debounce_interval ->
     let m1 := run (Notify first :: window) m in
     PyDict.get p (recent_events m1) = Some (record_of first p)
     /\ settled_along p (Notify first :: window ++ [CleanupPass t]) m
        = [record_of first p]
     /\ exists m2,
         cleanup_old_events t m1 = (Val tt, m2)
         /\ accumulated m2
            = (accumulated m1
                 ++ PyDict.values (expired_items t (recent_events m1)))%list
         /\ settled_for p t (recent_events m1) = [(p, record_of first p)]
         /\ PyDict.get p (recent_events m2) = None)
  /\ (forall prev rest,
         PyDict.get p (recent_events m) = Some prev ->
         file_hash prev = h ->
         Forall (modified_of (config m) p h) rest ->
         recent_events (run (map Notify (first :: rest)) m) = recent_events m).
Proof.
  intros Ha Hs Hwf Hfirst. split.
  - intros Hnone window t Hwin Ht m1.
    destruct Hfirst as (Hk & Hd & Hi & Hp & Hh).
    assert (Hw : writes (config m) first (recent_events m) = Some p)
      by (now apply modified_first_written).
    set (m0 := snd (step (Notify first) m)).
    assert (Hm0 : m0 = with_recent_events
                         (PyDict.set p (record_of first p) (recent_events m)) m).
    { unfold m0. simpl. unfold notify. run_m. rewrite Ha. simpl.
      now rewrite dispatch_spec, Hw. }
    assert (Hpend0 : pending_first m p first m0).
    { rewrite Hm0. unfold pending_first. simpl. repeat split; try assumption.
      - now apply PyDictFacts.wf_set.
      - apply PyDictFacts.get_set_same. }
    destruct (settle_window_run m p h first window
                (conj Hk (conj Hd (conj Hi (conj Hp Hh)))) Hwin m0 Hpend0)
      as [(Hc1 & Ho1 & Hs1 & Hwf1 & Hg1) Hnil].
    change (run (Notify first :: window) m) with (run window m0) in m1.
    fold m1 in Hc1, Ho1, Hs1, Hwf1, Hg1.
    assert (Hexp : is_expired t (record_of first p) = true).
    { unfold is_expired, record_of. simpl. apply Z.gtb_lt. lia. }
    assert (Hsettled : settled_for p t (recent_events m1) = [(p, record_of first p)]).
    { rewrite settled_for_get by exact Hwf1. now rewrite Hg1, Hexp. }
    split; [exact Hg1|]. split.
    + change (Notify first :: window ++ [CleanupPass t])%list
        with ([Notify first] ++ (window ++ [CleanupPass t]))%list.
      rewrite settled_along_app. simpl settled_along at 1.
      change (run [Notify first] m) with m0.
      rewrite settled_along_app, Hnil. fold m1. simpl.
      now rewrite Hsettled.
    + destruct (cleanup_old_events_spec t m1 Hwf1 Hs1) as (m2 & Hrun & Hstep).
      exists m2. split; [exact Hrun|]. split; [|split].
      * exact (bs_accumulated _ _ _ Hstep).
      * exact Hsettled.
      * rewrite (bs_recent_events _ _ _ Hstep). simpl. unfold unexpired_items.
        destruct (PyDict.get p (filter _ (recent_events m1))) as [e|] eqn:E;
          [|reflexivity].
        apply PyDictFacts.get_Some_In in E. apply filter_In in E as [Hin Hne].
        apply (PyDictFacts.In_get_Some _ _ _ Hwf1) in Hin.
        rewrite Hg1 in Hin. injection Hin as <-. simpl in Hne.
        rewrite Hexp in Hne. discriminate.
  - intros prev rest Hprev Hhash Hrest. rewrite run_notify by exact Ha.
    change (dispatch_all (config m) (first :: rest) (recent_events m) = recent_events m).
    apply dispatch_all_suppressed.
    eapply Forall_impl; [|exact (Forall_cons _ Hfirst Hrest)].
    intros n (Hk' & Hd' & Hi' & Hp' & Hh').
    eapply modified_same_hash_suppressed; eauto. congruence.
Qed.

(** Three [modified] notifications for [a.py] with the digest [H1] within
    one second, a cleanup pass among them, on a running monitor with nothing
    pending; the cleanup pass at second 5 settles the first. *)
Lemma repeated_modified_settles_first_witness :
  let disk := [("a.py", (10, "H1"))] in
  let n1 := Scenario.notification modified "a.py" (seconds 1) disk in
  let n2 := Scenario.notification modified "a.py" 1500000 disk in
  let n3 := Scenario.notification modified "a.py" 1900000 disk in
  let window := [Notify n2; CleanupPass 1700000; Notify n3] in
  let m1 := run (H := Posix.posix) (Notify n1 :: window) Scenario.running in
  PyDict.get "a.py" (recent_events m1) = Some (record_of n1 "a.py")
  /\ settled_along (H := Posix.posix) "a.py"
       (Notify n1 :: window ++ [CleanupPass (seconds 5)]) Scenario.running
     = [record_of n1 "a.py"]
  /\ exists m2,
      cleanup_old_events (seconds 5) m1 = (Val tt, m2)
      /\ accumulated m2
         = (accumulated m1
              ++ PyDict.values (expired_items (seconds 5) (recent_events m1)))%list
      /\ settled_for "a.py" (seconds 5) (recent_events m1)
         = [("a.py", record_of n1 "a.py")]
      /\ PyDict.get "a.py" (recent_events m2) = None.
Proof.
  apply (proj1 (repeated_modified_settles_first (H := Posix.posix) Scenario.running
                  "a.py" "H1"
                  (Scenario.notification modified "a.py" (seconds 1)
                     [("a.py", (10, "H1"))])
                  eq_refl eq_refl (NoDup_nil _)
                  (conj eq_refl (conj eq_refl (conj eq_refl (conj eq_refl eq_refl)))))).
  - reflexivity.
  - repeat constructor; vm_compute; discriminate.
  - vm_compute. reflexivity.
Defined.

(** C1, as stated, fails: three [modified] notifications for [a.py] with one
    digest, all within one second, and the cleanup pass that follows
    settles one record, not none. *)
Lemma repeated_modified_counterexample :
  let disk := [("a.py", (10, "H1"))] in
  let ns := [Scenario.notification modified "a.py" (seconds 1) disk;
             Scenario.notification modified "a.py" 1500000 disk;
             Scenario.notification modified "a.py" 1900000 disk] in
  let record := {| file_path := "a.py"; event_type := modified; timestamp := seconds 1;
                   file_size := 10; file_hash := "H1" |} in
  let m1 := run (H := Posix.posix) (map Notify ns) Scenario.running in
  let m2 := run (H := Posix.posix) [CleanupPass (seconds 5)] m1 in
  settled_along (H := Posix.posix) "a.py"
    (map Notify ns ++ [CleanupPass (seconds 5)]) Scenario.running = [record]
  /\ pending_changes m2 = [record]
  /\ total_events (stats m2) = 1
  /\ List.length (accumulated m2) <> 0%nat.
Proof.
  vm_compute. repeat split. discriminate.
Qed.

(** C3. Last kind wins.  The record pending for a path after any sequence of
    notifications is the record of the last notification that wrote it, with
    that notification's kind; a [created], [deleted] or [moved] notification
    that gets past the directory test and the classifier always writes,
    whatever the fingerprints; the cleanup pass hands the pending records
    over as they are; and so a path seen [created] then [deleted] settles as
    one record, of kind [deleted]. *)
Theorem settled_kind_is_last_written `{PathLib} (cfg : Config) :
  (forall p ns recent,
      PyDict.get p (dispatch_all cfg ns recent)
      = match last_writer cfg p ns recent None with
        | Some n => Some {| file_path := p;
                            event_type := n_kind n;
                            timestamp := now (n_env n);
                            file_size := _get_file_size (fs (n_env n)) p;
                            file_hash := _get_file_hash (fs (n_env n)) p |}
        | None => PyDict.get p recent
        end)
  /\ (forall n key recent,
         n_kind n <> modified -> target cfg n = Some key ->
         writes_to cfg key n recent = true
         /\ dispatch cfg n recent = PyDict.set key (record_of n key) recent)
  /\ (forall m t,
         PyDict.wf (recent_events m) -> is_shutdown (executor m) = false ->
         exists m', cleanup_old_events t m = (Val tt, m')
                    /\ accumulated m'
                       = (accumulated m
                            ++ PyDict.values (expired_items t (recent_events m)))%list)
  /\ (forall m n1 n2 p t,
         config m = cfg -> observer m = Alive ->
         is_shutdown (executor m) = false -> PyDict.wf (recent_events m) ->
         n_kind n1 = created -> target cfg n1 = Some p ->
         n_kind n2 = deleted -> target cfg n2 = Some p ->
         t - now (n_env n2) > debounce_interval ->
         let m1 := run [Notify n1; Notify n2] m in
         let record := {| file_path := p;
                          event_type := deleted;
                          timestamp := now (n_env n2);
                          file_size := _get_file_size (fs (n_env n2)) p;
                          file_hash := _get_file_hash (fs (n_env n2)) p |} in
         PyDict.get p (recent_events m1) = Some record
         /\ settled_for p t (recent_events m1) = [(p, record)]
         /\ exists m2,
             cleanup_old_events t m1 = (Val tt, m2)
             /\ accumulated m2
                = (accumulated m
                     ++ PyDict.values (expired_items t (recent_events m1)))%list
             /\ PyDict.get p (recent_events m2) = None).
Proof.
  assert (Hwrites : forall n key recent,
             n_kind n <> modified -> target cfg n = Some key ->
             writes cfg n recent = Some key).
  { intros n key recent Hk Ht. unfold writes, suppressed. rewrite Ht.
    destruct (n_kind n); [reflexivity | congruence | reflexivity | reflexivity]. }
  split; [|split; [|split]].
  - intros p ns recent.
    exact (last_writer_get cfg p (PyDict.get p recent) ns recent None eq_refl).
  - intros n key recent Hk Ht. split.
    + unfold writes_to. rewrite (Hwrites n key recent Hk Ht). apply String.eqb_refl.
    + rewrite dispatch_spec, (Hwrites n key recent Hk Ht). reflexivity.
  - intros m t Hwf Hs.
    destruct (cleanup_old_events_spec t m Hwf Hs) as (m' & Hrun & Hstep).
    exists m'. split; [exact Hrun|]. exact (bs_accumulated _ _ _ Hstep).
  - intros m n1 n2 p t Hcfg Ha Hs Hwf Hk1 Ht1 Hk2 Ht2 Hlate m1 record.
    subst cfg.
    assert (Hm1 : m1 = with_recent_events
                         (dispatch_all (config m) [n1; n2] (recent_events m)) m).
    { exact (run_notify [n1; n2] m Ha). }
    assert (Hrec : record = record_of n2 p).
    { unfold record, record_of, new_FileChangeEvent. now rewrite Hk2. }
    assert (Hwf1 : PyDict.wf (recent_events m1)).
    { rewrite Hm1. exact (dispatch_all_wf (config m) [n1; n2] _ Hwf). }
    assert (Hget : PyDict.get p (recent_events m1) = Some record).
    { rewrite Hm1, Hrec. simpl. rewrite dispatch_spec.
      rewrite (Hwrites n2 p) by congruence. apply PyDictFacts.get_set_same. }
    assert (Hexp : is_expired t record = true).
    { unfold is_expired, record. simpl. apply Z.gtb_lt. lia. }
    split; [exact Hget|]. split.
    + rewrite settled_for_get by exact Hwf1. now rewrite Hget, Hexp.
    + destruct (cleanup_old_events_spec t m1 Hwf1) as (m2 & Hrun & Hstep).
      { rewrite Hm1. exact Hs. }
      exists m2. split; [exact Hrun|]. split.
      * rewrite (bs_accumulated _ _ _ Hstep). rewrite Hm1. reflexivity.
      * rewrite (bs_recent_events _ _ _ Hstep). simpl.
        unfold unexpired_items.
        destruct (PyDict.get p (filter _ (recent_events m1))) as [e|] eqn:E;
          [|reflexivity].
        apply PyDictFacts.get_Some_In in E. apply filter_In in E as [Hin Hne].
        apply (PyDictFacts.In_get_Some _ _ _ Hwf1) in Hin.
        rewrite Hget in Hin. injection Hin as <-. simpl in Hne.
        rewrite Hexp in Hne. discriminate.
Qed.

(** [a.py] is created, deleted half a second later, and settled: one record,
    of kind [deleted]. *)
Lemma settled_kind_is_last_written_witness :
  let n1 := Scenario.notification created "a.py" (seconds 1) [("a.py", (10, "H1"))] in
  let n2 := Scenario.notification deleted "a.py" 1500000 [] in
  let m1 := run (H := Posix.posix) [Notify n1; Notify n2] Scenario.running in
  let record := {| file_path := "a.py"; event_type := deleted; timestamp := 1500000;
                   file_size := 0; file_hash := "" |} in
  PyDict.get "a.py" (recent_events m1) = Some record
  /\ settled_for "a.py" (seconds 5) (recent_events m1) = [("a.py", record)]
  /\ exists m2,
      cleanup_old_events (seconds 5) m1 = (Val tt, m2)
      /\ accumulated m2
         = (accumulated Scenario.running
              ++ PyDict.values (expired_items (seconds 5) (recent_events m1)))%list
      /\ PyDict.get "a.py" (recent_events m2) = None.
Proof.
  apply (proj2 (proj2 (proj2
           (settled_kind_is_last_written (H := Posix.posix) _get_default_config)))
           Scenario.running
           (Scenario.notification created "a.py" (seconds 1) [("a.py", (10, "H1"))])
           (Scenario.notification deleted "a.py" 1500000 [])
           "a.py" (seconds 5)).
  - reflexivity.
  - reflexivity.
  - reflexivity.
  - constructor.
  - reflexivity.
  - reflexivity.
  - reflexivity.
  - reflexivity.
  - vm_compute. reflexivity.
Defined.

(** ** Delivery *)
Section DeliveryFacts.


Lemma run_task_nonempty changes m :
  changes <> [] ->
  run_task changes m
  = (Val tt,
     with_deliveries
       (deliveries m
          ++ [{| dl_batch := final_changes changes;
                 dl_calls := call_callbacks (change_callbacks m)
                               (final_changes changes) |}])%list m).
Proof.
  destruct changes as [|c cs]; [congruence|]. intros _. reflexivity.
Qed.

(** A task never raises into the engine. *)
Lemma run_task_returns changes m : fst (run_task changes m) = Val tt.
Proof.
  destruct changes as [|c cs]; [reflexivity|].
  now rewrite run_task_nonempty.
Qed.

(** The first callback is called with the list as it was formed. *)
Lemma call_callbacks_first callbacks batch i :
  hd_error (call_callbacks callbacks batch) = Some i -> inv_batch i = batch.
Proof.
  destruct callbacks as [|cb rest]; simpl; [discriminate|].
  destruct (cb_call cb batch) as [o batch']. simpl. now intros [= <-].
Qed.

(** When every callback returns or raises an [Exception], the calls made
    are one per registered callback, in the order of the list. *)
Lemma call_callbacks_all callbacks : forall batch,
  (forall cb l, In cb callbacks -> fst (cb_call cb l) <> RaisedBaseException) ->
  Forall2 (fun cb i => inv_name i = cb_name cb
                       /\ inv_outcome i = fst (cb_call cb (inv_batch i)))
          callbacks (call_callbacks callbacks batch).
Proof.
  induction callbacks as [|cb rest IH]; intros batch Hok; simpl; [constructor|].
  assert (Hcb := Hok cb batch (or_introl eq_refl)).
  destruct (cb_call cb batch) as [o batch'] eqn:E. simpl in Hcb.
  assert (Hrest : Forall2 (fun cb i => inv_name i = cb_name cb
                              /\ inv_outcome i = fst (cb_call cb (inv_batch i)))
                    rest (call_callbacks rest batch')).
  { apply IH. intros cb' l Hin. apply Hok. now right. }
  destruct o; [| |congruence]; (constructor; [simpl; now rewrite E | exact Hrest]).
Qed.

(** Callbacks that leave the list alone are all called with the same one. *)
Lemma call_callbacks_same_batch callbacks : forall batch,
  (forall cb l, In cb callbacks -> snd (cb_call cb l) = l) ->
  Forall (fun i => inv_batch i = batch) (call_callbacks callbacks batch).
Proof.
  induction callbacks as [|cb rest IH]; intros batch Hpure; simpl; [constructor|].
  assert (Hcb := Hpure cb batch (or_introl eq_refl)).
  destruct (cb_call cb batch) as [o batch']. simpl in Hcb. subst batch'.
  constructor; [reflexivity|].
  destruct o; try constructor; apply IH; intros cb' l Hin; apply Hpure; now right.
Qed.

Lemma Forall2_map_eq {A B C} (f : A -> C) (g : B -> C) (l : list A) (l' : list B) :
  Forall2 (fun a b => g b = f a) l l' -> map g l' = map f l.
Proof. induction 1; simpl; congruence. Qed.
End DeliveryFacts.

(** C4. The list a flush delivers holds, for every path among the
    accumulated records, exactly one item, the last record accumulated for
    that path, and nothing else; it is sorted by timestamp; and it is the
    list the task of the flush forms and calls the first callback with, and
    every callback when none of them changes the list it is given. *)
Theorem flushed_batch_dedup_sorted (changes : list FileChangeEvent) :
  (forall c, In c changes ->
             exists r, latest_for (file_path c) changes = Some r
                       /\ items_for (file_path c) (final_changes changes) = [r])
  /\ (forall r, In r (final_changes changes) ->
                latest_for (file_path r) changes = Some r)
  /\ StronglySorted (fun a b => timestamp a <= timestamp b) (final_changes changes)
  /\ (forall now m,
         pending_changes m = changes -> changes <> [] ->
         is_shutdown (executor m) = false ->
         exists m1 m2 d,
           _trigger_batch_processing now m = (Val tt, m1)
           /\ work_queue (executor m1) = (work_queue (executor m) ++ [changes])%list
           /\ pending_changes m1 = []
           /\ run_task changes m1 = (Val tt, m2)
           /\ deliveries m2 = (deliveries m ++ [d])%list
           /\ dl_batch d = final_changes changes
           /\ (forall i, hd_error (dl_calls d) = Some i ->
                         inv_batch i = final_changes changes)
           /\ ((forall cb l, In cb (change_callbacks m) -> snd (cb_call cb l) = l) ->
               Forall (fun i => inv_batch i = final_changes changes) (dl_calls d))).
Proof.
  split; [|split; [|split]].
  - intros c Hin. destruct (latest_for_In c changes Hin) as [r Hr].
    exists r. split; [exact Hr|]. now rewrite items_for_final_changes, Hr.
  - intros r Hr. now apply final_changes_In.
  - apply sort_by_timestamp_sorted.
  - intros now m Hp Hne Hs. subst changes.
    eexists _, _, _. split; [now apply trigger_nonempty|].
    split; [reflexivity|]. split; [reflexivity|].
    split; [now apply run_task_nonempty|].
    split; [reflexivity|]. split; [reflexivity|]. split.
    + intros i. apply call_callbacks_first.
    + intros Hpure. now apply call_callbacks_same_batch.
Qed.

(** [a.py] settled in one cleanup pass and again in a later one, where it
    stood before [b.py] in the dictionary although it changed after it. *)
Lemma flushed_batch_dedup_sorted_witness :
  let a1 := {| file_path := "a.py"; event_type := created; timestamp := 10;
               file_size := 1; file_hash := "H1" |} in
  let a2 := {| file_path := "a.py"; event_type := modified; timestamp := 40;
               file_size := 2; file_hash := "H2" |} in
  let b1 := {| file_path := "b.py"; event_type := created; timestamp := 35;
               file_size := 3; file_hash := "H3" |} in
  final_changes [a1; a2; b1] = [b1; a2]
  /\ StronglySorted (fun a b => timestamp a <= timestamp b) (final_changes [a1; a2; b1])
  /\ exists r, latest_for "a.py" [a1; a2; b1] = Some r
               /\ items_for "a.py" (final_changes [a1; a2; b1]) = [r].
Proof.
  split; [reflexivity|]. split.
  - apply (proj1 (proj2 (proj2 (flushed_batch_dedup_sorted _)))).
  - apply (proj1 (flushed_batch_dedup_sorted _)
             {| file_path := "a.py"; event_type := created; timestamp := 10;
                file_size := 1; file_hash := "H1" |}).
    simpl. left. reflexivity.
Defined.

(** C7. For a batch, the callbacks registered are called once each, in the
    order [add_change_callback] appended them, whether earlier ones return
    or raise an [Exception]; the task itself returns and changes nothing of
    the monitor but its delivery history. *)
Theorem callbacks_called_once_in_order
        (callbacks : list Callback) (changes : list FileChangeEvent) :
  (forall cb l, In cb callbacks -> fst (cb_call cb l) <> RaisedBaseException) ->
  changes <> [] ->
  exists d,
    _process_change_batch callbacks changes = Some d
    /\ Forall2 (fun cb i => inv_name i = cb_name cb
                            /\ inv_outcome i = fst (cb_call cb (inv_batch i)))
         callbacks (dl_calls d)
    /\ map inv_name (dl_calls d) = map cb_name callbacks
    /\ (forall m, change_callbacks m = callbacks ->
                  run_task changes m
                  = (Val tt, with_deliveries (deliveries m ++ [d])%list m))
    /\ (forall m cb, change_callbacks m = callbacks ->
                     add_change_callback cb m
                     = (Val tt, with_change_callbacks (callbacks ++ [cb])%list m)).
Proof.
  intros Hok Hne.
  exists {| dl_batch := final_changes changes;
            dl_calls := call_callbacks callbacks (final_changes changes) |}.
  assert (Hall := call_callbacks_all callbacks (final_changes changes) Hok).
  split; [|split; [|split; [|split]]].
  - destruct changes; [congruence | reflexivity].
  - exact Hall.
  - apply Forall2_map_eq. simpl. eapply Forall2_impl; [|exact Hall]. simpl. tauto.
  - intros m <-. now apply run_task_nonempty.
  - intros m cb <-. reflexivity.
Qed.

(** Three subscribers, the second of which raises: all three are called. *)
Lemma callbacks_called_once_in_order_witness :
  let callbacks := [Scenario.quiet "first"; Scenario.failing "second";
                    Scenario.quiet "third"] in
  let changes := [{| file_path := "a.py"; event_type := created; timestamp := 30;
                     file_size := 1; file_hash := "H1" |}] in
  exists d,
    _process_change_batch callbacks changes = Some d
    /\ Forall2 (fun cb i => inv_name i = cb_name cb
                            /\ inv_outcome i = fst (cb_call cb (inv_batch i)))
         callbacks (dl_calls d)
    /\ map inv_name (dl_calls d) = ["first"; "second"; "third"]
    /\ (forall m, change_callbacks m = callbacks ->
                  run_task changes m
                  = (Val tt, with_deliveries (deliveries m ++ [d])%list m))
    /\ (forall m cb, change_callbacks m = callbacks ->
                     add_change_callback cb m
                     = (Val tt, with_change_callbacks (callbacks ++ [cb])%list m)).
Proof.
  apply (callbacks_called_once_in_order
           [Scenario.quiet "first"; Scenario.failing "second"; Scenario.quiet "third"]).
  - intros cb l [<-|[<-|[<-|[]]]]; discriminate.
  - discriminate.
Defined.

(** ** Invariants of the engine *)
Section Invariants.
Context `{PathLib}.

Lemma for_each_preserves {A} (P : FileMonitor -> Prop) (body : A -> M unit) xs :
  (forall x m, P m -> P (snd (body x m))) ->
  forall m, P m -> P (snd (for_each xs body m)).
Proof.
  intros Hbody. induction xs as [|x xs IH]; intros m HP; simpl; [exact HP|].
  unfold bind. assert (Hx := Hbody x m HP).
  destruct (body x m) as [[[]|e] m']; simpl in *; auto.
Qed.

Lemma run_preserves (P : FileMonitor -> Prop) :
  (forall a m, P m -> P (snd (step a m))) ->
  forall actions m, P m -> P (run actions m).
Proof.
  intros Hstep. unfold run.
  induction actions as [|a actions IH]; intros m HP; simpl; [exact HP|].
  apply IH, Hstep, HP.
Qed.

(** A property of the monitor that every method keeps is kept by every
    step.  The methods are listed so that each invariant is checked on
    them one by one. *)
Lemma step_preserves (P : FileMonitor -> Prop) :
  (forall r m, P m -> P (with_recent_events r m)) ->
  (forall o m, P m -> P (with_observer o m)) ->
  (forall cbs m, P m -> P (with_change_callbacks cbs m)) ->
  (forall t m, P m -> P (snd (_trigger_batch_processing t m))) ->
  (forall t e m, P m -> P (snd (_process_file_change t e m))) ->
  (forall changes m, P m -> P (snd (run_task changes m))) ->
  (forall q s m, P m ->
                 (exists c, work_queue (executor m) = c :: q)
                 /\ s = is_shutdown (executor m)
                 \/ q = [] /\ s = true ->
                 P (with_executor {| work_queue := q; is_shutdown := s |} m)) ->
  forall a m, P m -> P (snd (step a m)).
Proof.
  intros Hrecent Hobs Hcbs Htrig Hproc Htask Hexec a m HP.
  destruct a; simpl.
  - unfold notify. run_m. destruct (observer m); simpl; auto.
  - unfold cleanup_old_events. run_m. apply for_each_preserves; [|exact HP].
    intros k m0 HP0. unfold settle. run_m.
    destruct (PyDict.get k (recent_events m0)); simpl; auto.
  - unfold timer_callback. run_m. destruct (pending_changes m) eqn:E; simpl; auto.
  - unfold worker_run. run_m. destruct (work_queue (executor m)) eqn:E; simpl; auto.
    apply Htask, Hexec; [exact HP|]. left. eauto.
  - unfold add_change_callback. run_m. auto.
  - unfold start_monitoring, observer_start. run_m.
    destruct (observer m); simpl; auto.
  - unfold stop_monitoring, observer_stop, observer_join. run_m.
    destruct (observer m) eqn:Eo; simpl; auto.
    + set (m1 := with_observer Finished m). assert (HP1 : P m1) by (apply Hobs, HP).
      assert (Ht := Htrig now0 m1 HP1).
      change (pending_changes m) with (pending_changes m1).
      destruct (pending_changes m1) eqn:Ep.
      * simpl. unfold executor_shutdown. run_m.
        apply for_each_preserves; [intros; now apply Htask|].
        apply Hexec; [exact HP1 | right; now split].
      * destruct (_trigger_batch_processing now0 m1) as [[[]|e] m2]; simpl in *; auto.
        unfold executor_shutdown. run_m.
        apply for_each_preserves; [intros; now apply Htask|].
        apply Hexec; [exact Ht | right; now split].
    + set (m1 := with_observer Finished m). assert (HP1 : P m1) by (apply Hobs, HP).
      assert (Ht := Htrig now0 m1 HP1).
      change (pending_changes m) with (pending_changes m1).
      destruct (pending_changes m1) eqn:Ep.
      * simpl. unfold executor_shutdown. run_m.
        apply for_each_preserves; [intros; now apply Htask|].
        apply Hexec; [exact HP1 | right; now split].
      * destruct (_trigger_batch_processing now0 m1) as [[[]|e] m2]; simpl in *; auto.
        unfold executor_shutdown. run_m.
        apply for_each_preserves; [intros; now apply Htask|].
        apply Hexec; [exact Ht | right; now split].
  - unfold force_process_changes. run_m. destruct (pending_changes m) eqn:E; simpl; auto.
Qed.
End Invariants.

(** *** No empty batch *)
Section NoEmptyBatch.
Context `{PathLib}.

Lemma trigger_no_empty_batch t m :
  no_empty_batch m -> no_empty_batch (snd (_trigger_batch_processing t m)).
Proof.
  intros [Hq Hd]. destruct (pending_changes m) as [|c cs] eqn:Ep.
  - rewrite trigger_empty by exact Ep. now split.
  - destruct (is_shutdown (executor m)) eqn:Es.
    + rewrite trigger_after_shutdown by congruence. now split.
    + rewrite trigger_nonempty by congruence. split; simpl; [|exact Hd].
      apply Forall_app. split; [exact Hq|]. constructor; [congruence | constructor].
Qed.

Lemma step_no_empty_batch a m : no_empty_batch m -> no_empty_batch (snd (step a m)).
Proof.
  apply step_preserves; clear a m.
  - intros r m [Hq Hd]. now split.
  - intros o m [Hq Hd]. now split.
  - intros cbs m [Hq Hd]. now split.
  - apply trigger_no_empty_batch.
  - intros t e m [Hq Hd]. unfold _process_file_change. run_m.
    destruct (_ || _); [|now split].
    apply trigger_no_empty_batch. now split.
  - intros changes m [Hq Hd]. destruct changes as [|c cs]; [now split|].
    rewrite run_task_nonempty by congruence. split; simpl; [exact Hq|].
    apply Forall_app. split; [exact Hd|]. constructor; [|constructor].
    simpl. apply final_changes_nonempty. congruence.
  - intros q s m [Hq Hd] [[[c Hc] _]|[-> _]]; split; simpl; try assumption.
    + rewrite Hc in Hq. now inversion Hq.
    + constructor.
Qed.
End NoEmptyBatch.

(** C5. A flush with nothing pending, whatever triggers it, leaves the
    monitor as it is: nothing is submitted and no callback is called; a
    task for an empty list calls no callback; and in every run of the
    engine from its construction, no task and no delivered batch is empty. *)
Theorem empty_flush_delivers_nothing `{PathLib} :
  (forall now m,
      pending_changes m = [] ->
      _trigger_batch_processing now m = (Val tt, m)
      /\ timer_callback now m = (Val tt, m)
      /\ force_process_changes now m = (Val tt, m))
  /\ (forall callbacks, _process_change_batch callbacks [] = None)
  /\ (forall m, run_task [] m = (Val tt, m))
  /\ (forall cfg t0 actions,
         let m := run actions (new_FileMonitor cfg t0) in
         Forall (fun changes => changes <> []) (work_queue (executor m))
         /\ Forall (fun d => dl_batch d <> []) (deliveries m)).
Proof.
  split; [|split; [|split]].
  - intros now m Hp. split; [now apply trigger_empty|].
    unfold timer_callback, force_process_changes. run_m. rewrite Hp. now split.
  - reflexivity.
  - reflexivity.
  - intros cfg t0 actions.
    apply (run_preserves no_empty_batch step_no_empty_batch).
    split; constructor.
Qed.

(** A forced flush of a monitor that has nothing pending. *)
Lemma empty_flush_delivers_nothing_witness :
  force_process_changes (seconds 3) Scenario.running = (Val tt, Scenario.running)
  /\ deliveries (run (H := Posix.posix)
                   [AddChangeCallback (Scenario.quiet "subscriber");
                    TimerPass (seconds 30); ForceProcessChanges (seconds 31);
                    StopMonitoring (seconds 32)] Scenario.running) = [].
Proof.
  split.
  - apply (proj1 (empty_flush_delivers_nothing (H := Posix.posix))). reflexivity.
  - reflexivity.
Defined.

(** *** Statistics *)
Section StatsFacts.
Context `{PathLib}.

Lemma trigger_stats t m :
  stats (snd (_trigger_batch_processing t m))
  = match pending_changes m with
    | [] => stats m
    | _ :: _ => incr_processed_batches (stats m)
    end.
Proof.
  destruct (pending_changes m) as [|c cs] eqn:Ep.
  - now rewrite trigger_empty.
  - destruct (is_shutdown (executor m)) eqn:Es.
    + now rewrite trigger_after_shutdown by congruence.
    + now rewrite trigger_nonempty by congruence.
Qed.

Lemma process_file_change_total t e m :
  total_events (stats (snd (_process_file_change t e m)))
  = total_events (stats m) + 1.
Proof.
  unfold _process_file_change. run_m. destruct (_ || _); [|reflexivity].
  rewrite trigger_stats. simpl.
  destruct (pending_changes m ++ [e])%list; reflexivity.
Qed.

Lemma step_stats_le m0 a m : stats_le m0 m -> stats_le m0 (snd (step a m)).
Proof.
  apply step_preserves; clear a m; unfold stats_le.
  - intros r m Hle. exact Hle.
  - intros o m Hle. exact Hle.
  - intros cbs m Hle. exact Hle.
  - intros t m Hle. rewrite trigger_stats.
    destruct (pending_changes m); simpl; lia.
  - intros t e m Hle. unfold _process_file_change. run_m.
    destruct (_ || _); [|simpl; lia].
    rewrite trigger_stats. simpl.
    destruct (pending_changes m ++ [e])%list; simpl; lia.
  - intros changes m Hle. destruct changes as [|c cs]; [exact Hle|].
    rewrite run_task_nonempty by congruence. exact Hle.
  - intros q s m Hle _. exact Hle.
Qed.
End StatsFacts.

(** C8 (as the code has it).  [stats] holds [total_events],
    [ignored_events] and [processed_batches], all 0 at construction, and
    [get_stats] adds the length of [pending_changes].  [total_events] goes up
    by one for every settled record handed to [_process_file_change], and
    a raw notification leaves it as it is; [processed_batches] goes up by
    one for every flush of a non-empty accumulation, after which the
    pending count is 0; no step of the engine makes any of the three
    counters smaller. *)
Theorem stats_counters `{PathLib} :
  (forall cfg t0,
      stats (new_FileMonitor cfg t0)
      = {| total_events := 0; ignored_events := 0; processed_batches := 0;
           start_time := t0 |})
  /\ (forall t m,
         snap_stats (get_stats t m) = stats m
         /\ snap_pending_changes (get_stats t m)
            = Z.of_nat (List.length (pending_changes m)))
  /\ (forall t e m,
         total_events (stats (snd (_process_file_change t e m)))
         = total_events (stats m) + 1)
  /\ (forall n m,
         total_events (stats (snd (step (Notify n) m))) = total_events (stats m))
  /\ (forall t m,
         pending_changes m <> [] ->
         processed_batches (stats (snd (_trigger_batch_processing t m)))
         = processed_batches (stats m) + 1)
  /\ (forall t t' m,
         snap_pending_changes (get_stats t' (snd (_trigger_batch_processing t m))) = 0)
  /\ (forall actions m,
         total_events (stats m) <= total_events (stats (run actions m))
         /\ ignored_events (stats m) <= ignored_events (stats (run actions m))
         /\ processed_batches (stats m) <= processed_batches (stats (run actions m))).
Proof.
  split; [|split; [|split; [|split; [|split; [|split]]]]].
  - reflexivity.
  - intros t m. split; reflexivity.
  - apply process_file_change_total.
  - intros n m. simpl. unfold notify. run_m. destruct (observer m); reflexivity.
  - intros t m Hne. rewrite trigger_stats.
    destruct (pending_changes m); [congruence | reflexivity].
  - intros t t' m. unfold get_stats. simpl.
    destruct (pending_changes m) as [|c cs] eqn:Ep.
    + rewrite trigger_empty by exact Ep. simpl. now rewrite Ep.
    + destruct (is_shutdown (executor m)) eqn:Es.
      * now rewrite trigger_after_shutdown by congruence.
      * now rewrite trigger_nonempty by congruence.
  - intros actions m.
    apply (run_preserves (stats_le m) (step_stats_le m)).
    unfold stats_le. lia.
Qed.

(** One notification, settled and flushed on a running monitor. *)
Lemma stats_counters_witness :
  let n := Scenario.notification created "a.py" (seconds 1) [("a.py", (10, "H1"))] in
  let m := run (H := Posix.posix)
               [Notify n; CleanupPass (seconds 5)] Scenario.running in
  pending_changes m <> []
  /\ processed_batches (stats (snd (_trigger_batch_processing (seconds 6) m)))
     = processed_batches (stats m) + 1.
Proof.
  split.
  - discriminate.
  - apply (proj1 (proj2 (proj2 (proj2 (proj2
             (stats_counters (H := Posix.posix))))))).
    discriminate.
Defined.

(** C8, as stated, fails: a raw notification is received and recorded, and
    [total_events] is not incremented; and the pending count that
    [get_stats] reports falls back to 0 at a flush. *)
Lemma stats_counters_counterexample :
  let n := Scenario.notification created "a.py" (seconds 1) [("a.py", (10, "H1"))] in
  let m1 := run (H := Posix.posix) [Notify n] Scenario.running in
  let m2 := run (H := Posix.posix) [CleanupPass (seconds 5)] m1 in
  let m3 := run (H := Posix.posix) [ForceProcessChanges (seconds 6)] m2 in
  List.length (recent_events m1) = 1%nat
  /\ total_events (stats m1) = total_events (stats Scenario.running)
  /\ total_events (stats m1) <> total_events (stats Scenario.running) + 1
  /\ snap_pending_changes (get_stats (seconds 5) m2) = 1
  /\ snap_pending_changes (get_stats (seconds 6) m3) = 0.
Proof.
  vm_compute. repeat split. discriminate.
Qed.

(** ** Lifecycle *)
Section LifecycleFacts.
Context `{PathLib}.

(** [stop_monitoring] on a running monitor whose earlier tasks have run:
    what is in [pending_changes] is delivered as one batch before the call
    returns.  [recent_events] is not looked at. *)
Lemma stop_monitoring_flushes_pending now m :
  observer m = Alive -> is_shutdown (executor m) = false ->
  work_queue (executor m) = [] -> pending_changes m <> [] ->
  exists m',
    stop_monitoring now m = (Val tt, m')
    /\ deliveries m'
       = (deliveries m
            ++ [{| dl_batch := final_changes (pending_changes m);
                   dl_calls := call_callbacks (change_callbacks m)
                                 (final_changes (pending_changes m)) |}])%list
    /\ pending_changes m' = []
    /\ work_queue (executor m') = []
    /\ recent_events m' = recent_events m.
Proof.
  intros Ha Hs Hq Hp. unfold stop_monitoring, observer_stop, observer_join. run_m.
  rewrite Ha. simpl.
  destruct (pending_changes m) as [|c cs] eqn:Ep; [congruence|].
  rewrite trigger_nonempty; [|simpl; congruence | exact Hs].
  unfold executor_shutdown. run_m. rewrite Hq, Ep. simpl.
  eexists. split; [reflexivity|]. simpl. repeat split.
Qed.

(** Once the executor is shut down and idle, no step delivers anything. *)
Lemma trigger_after_shutdown_keeps history t m :
  shut_down_with history m ->
  shut_down_with history (snd (_trigger_batch_processing t m)).
Proof.
  intros (Hs & Hq & Hd). destruct (pending_changes m) as [|c cs] eqn:Ep.
  - rewrite trigger_empty by exact Ep. now repeat split.
  - rewrite trigger_after_shutdown by congruence. now repeat split.
Qed.

Lemma step_after_shutdown history a m :
  shut_down_with history m -> shut_down_with history (snd (step a m)).
Proof.
  intros Hsd. destruct a; simpl.
  - unfold notify. run_m. destruct (observer m); exact Hsd.
  - unfold cleanup_old_events. run_m. apply for_each_preserves; [|exact Hsd].
    intros k m0 Hsd0. unfold settle. run_m.
    destruct (PyDict.get k (recent_events m0)); [|exact Hsd0].
    unfold _process_file_change. run_m.
    destruct (_ || _); [|exact Hsd0].
    apply trigger_after_shutdown_keeps. exact Hsd0.
  - unfold timer_callback. run_m.
    destruct (pending_changes m) eqn:Ep; [exact Hsd|].
    now apply trigger_after_shutdown_keeps.
  - unfold worker_run. run_m. destruct Hsd as (Hs & Hq & Hd). rewrite Hq.
    now repeat split.
  - exact Hsd.
  - unfold start_monitoring, observer_start. run_m. destruct (observer m); exact Hsd.
  - unfold stop_monitoring, observer_stop, observer_join. run_m.
    assert (Hfin : forall m1, shut_down_with history m1 ->
                              shut_down_with history (snd (executor_shutdown m1))).
    { intros m1 (Hs1 & Hq1 & Hd1). unfold executor_shutdown. run_m. rewrite Hq1.
      now repeat split. }
    assert (Hrest : forall m1,
               shut_down_with history m1 ->
               shut_down_with history
                 (snd (let (r, m') := match pending_changes m with
                                      | [] => fun m0 => (Val tt, m0)
                                      | _ :: _ => _trigger_batch_processing now0
                                      end m1 in
                       match r with
                       | Val _ => executor_shutdown m'
                       | Exc e => (Exc e, m')
                       end))).
    { intros m1 Hsd1. destruct (pending_changes m).
      - now apply Hfin.
      - assert (Ht := trigger_after_shutdown_keeps history now0 m1 Hsd1).
        destruct (_trigger_batch_processing now0 m1) as [[[]|e] m2]; simpl in *;
          [now apply Hfin | exact Ht]. }
    destruct (observer m); [exact Hsd | |]; apply Hrest; exact Hsd.
  - unfold force_process_changes. run_m.
    destruct (pending_changes m) eqn:Ep; [exact Hsd|].
    now apply trigger_after_shutdown_keeps.
Qed.

Lemma run_after_shutdown actions m :
  is_shutdown (executor m) = true -> work_queue (executor m) = [] ->
  deliveries (run actions m) = deliveries m.
Proof.
  intros Hs Hq.
  apply (run_preserves (shut_down_with (deliveries m))
           (step_after_shutdown (deliveries m)) actions m).
  now repeat split.
Qed.
End LifecycleFacts.

(** C2.  The code at the failing input: [a.py] is created at second 1 on a
    running monitor with a subscriber, and [stop_monitoring] is called at
    second 2.  The call returns; no batch was delivered; the record is still
    in [recent_events]; and whatever happens afterwards, nothing is
    delivered any more. *)
Theorem stop_monitoring_leaves_unsettled_record :
  let n := Scenario.notification created "a.py" (seconds 1) [("a.py", (10, "H1"))] in
  let m0 := run (H := Posix.posix)
                [AddChangeCallback (Scenario.quiet "subscriber");
                 StartMonitoring; Notify n] Scenario.fresh in
  exists m1,
    stop_monitoring (seconds 2) m0 = (Val tt, m1)
    /\ deliveries m1 = []
    /\ recent_events m1
       = [("a.py", {| file_path := "a.py"; event_type := created;
                      timestamp := seconds 1; file_size := 10; file_hash := "H1" |})]
    /\ (forall actions, deliveries (run (H := Posix.posix) actions m1) = []).
Proof.
  eexists. split; [reflexivity|]. split; [reflexivity|]. split; [reflexivity|].
  intros actions. now rewrite run_after_shutdown.
Qed.




(** * Further properties of the monitor *)

(** ** What the batcher's methods leave alone *)
Section Frames.
Context `{PathLib}.

Lemma trigger_recent_events t m :
  recent_events (snd (_trigger_batch_processing t m)) = recent_events m.
Proof.
  destruct (pending_changes m) as [|c cs] eqn:Ep.
  - now rewrite trigger_empty.
  - destruct (is_shutdown (executor m)) eqn:Es.
    + now rewrite trigger_after_shutdown by congruence.
    + now rewrite trigger_nonempty by congruence.
Qed.

Lemma process_file_change_recent_events t e m :
  recent_events (snd (_process_file_change t e m)) = recent_events m.
Proof.
  unfold _process_file_change. run_m. destruct (_ || _); [|reflexivity].
  now rewrite trigger_recent_events.
Qed.

Lemma run_task_recent_events changes m :
  recent_events (snd (run_task changes m)) = recent_events m.
Proof.
  destruct changes as [|c cs]; [reflexivity|].
  now rewrite run_task_nonempty.
Qed.

Lemma run_tasks_recent_events q : forall m,
  recent_events (snd (for_each q run_task m)) = recent_events m.
Proof.
  intros m. apply (for_each_preserves (fun m' => recent_events m' = recent_events m));
    [|reflexivity].
  intros c m0 H0. now rewrite run_task_recent_events.
Qed.

(** Only notifications and cleanup passes touch [recent_events]. *)
Lemma step_keeps_recent_events a m :
  match a with Notify _ | CleanupPass _ => False | _ => True end ->
  recent_events (snd (step a m)) = recent_events m.
Proof.
  destruct a; simpl; try contradiction; intros _.
  - unfold timer_callback. run_m. destruct (pending_changes m) eqn:Ep; [reflexivity|].
    apply trigger_recent_events.
  - unfold worker_run. run_m. destruct (work_queue (executor m)); [reflexivity|].
    simpl. now rewrite run_task_recent_events.
  - reflexivity.
  - unfold start_monitoring, observer_start. run_m. destruct (observer m); reflexivity.
  - unfold stop_monitoring, observer_stop, observer_join. run_m.
    assert (Hrest : forall m1,
               recent_events m1 = recent_events m ->
               recent_events
                 (snd (let (r, m') := match pending_changes m with
                                      | [] => fun m0 => (Val tt, m0)
                                      | _ :: _ => _trigger_batch_processing now0
                                      end m1 in
                       match r with
                       | Val _ => executor_shutdown m'
                       | Exc e => (Exc e, m')
                       end)) = recent_events m).
    { intros m1 H1.
      assert (Hfin : forall m2, recent_events m2 = recent_events m ->
                 recent_events (snd (executor_shutdown m2)) = recent_events m).
      { intros m2 H2. unfold executor_shutdown. run_m.
        now rewrite run_tasks_recent_events. }
      destruct (pending_changes m); [now apply Hfin|].
      assert (Ht := trigger_recent_events now0 m1).
      destruct (_trigger_batch_processing now0 m1) as [[[]|e] m2]; simpl in *.
      - apply Hfin. congruence.
      - congruence. }
    destruct (observer m); [reflexivity| |]; now apply Hrest.
  - unfold force_process_changes. run_m. destruct (pending_changes m) eqn:Ep; [reflexivity|].
    apply trigger_recent_events.
Qed.

Lemma dispatch_keyed cfg n (recent : RecentEvents) :
  keyed recent -> keyed (dispatch cfg n recent).
Proof.
  intros Hk. rewrite dispatch_spec. destruct (writes cfg n recent) as [key|]; [|exact Hk].
  exact (keyed_set (record_of n key) recent Hk).
Qed.

Lemma keyed_remove k (d : RecentEvents) : keyed d -> keyed (PyDict.remove k d).
Proof.
  unfold keyed. induction d as [|[k' v'] d IH]; simpl; intros Hk k0 v0; [tauto|].
  destruct (String.eqb k k'); simpl.
  - intros Hin. apply Hk. now right.
  - intros [Heq|Hin]; [apply Hk; now left|].
    apply IH; [|exact Hin]. intros k1 v1 H1. apply Hk. now right.
Qed.

Lemma step_one_record_per_path a m :
  one_record_per_path m -> one_record_per_path (snd (step a m)).
Proof.
  unfold one_record_per_path. intros [Hwf Hk].
  destruct a;
    try (rewrite step_keeps_recent_events by exact I; now split).
  - simpl. unfold notify. run_m. destruct (observer m); simpl; try now split.
    split; [now apply dispatch_wf | now apply dispatch_keyed].
  - simpl. unfold cleanup_old_events. run_m.
    apply (for_each_preserves one_record_per_path); [|now split].
    clear. intros k m [Hwf Hk]. unfold settle. run_m.
    destruct (PyDict.get k (recent_events m)); [|now split].
    unfold bind. simpl.
    set (m1 := with_recent_events _ m).
    assert (Hr := process_file_change_recent_events current_time f m1).
    destruct (_process_file_change current_time f m1) as [[[]|e] m2];
      simpl in *; unfold one_record_per_path; rewrite Hr; simpl;
      (split; [now apply PyDictFacts.wf_remove | now apply keyed_remove]).
Qed.
End Frames.

(** X1. PendingState holds at most one record per path: in every run of the
    engine from its construction, no path has two entries in
    [recent_events], and every entry is the record of the path it is filed
    under. *)
Theorem recent_events_one_record_per_path `{PathLib}
        (cfg : Config) (t0 : Z) (actions : list Action) :
  let m := run actions (new_FileMonitor cfg t0) in
  NoDup (PyDict.keys (recent_events m))
  /\ (forall k v, In (k, v) (recent_events m) -> file_path v = k)
  /\ (forall k v, PyDict.get k (recent_events m) = Some v <-> In (k, v) (recent_events m)).
Proof.
  intros m.
  assert (Hinv : one_record_per_path m).
  { apply (run_preserves one_record_per_path step_one_record_per_path).
    split; [constructor | intros k v []]. }
  destruct Hinv as [Hwf Hk]. split; [exact Hwf|]. split; [exact Hk|].
  intros k v. split; [apply PyDictFacts.get_Some_In | now apply PyDictFacts.In_get_Some].
Qed.

(** ** The accumulation buffer *)
Section Accumulation.
Context `{PathLib}.

Lemma trigger_pending_changes t m :
  pending_changes (snd (_trigger_batch_processing t m)) = [].
Proof.
  destruct (pending_changes m) as [|c cs] eqn:Ep.
  - now rewrite trigger_empty.
  - destruct (is_shutdown (executor m)) eqn:Es.
    + now rewrite trigger_after_shutdown by congruence.
    + now rewrite trigger_nonempty by congruence.
Qed.

Lemma step_pending_below_ten a m :
  pending_below_ten m -> pending_below_ten (snd (step a m)).
Proof.
  apply step_preserves; clear a m; unfold pending_below_ten.
  - intros r m Hle. exact Hle.
  - intros o m Hle. exact Hle.
  - intros cbs m Hle. exact Hle.
  - intros t m _. rewrite trigger_pending_changes. simpl. lia.
  - intros t e m Hle. unfold _process_file_change. run_m.
    destruct (t - last_batch_time m >=? batch_interval m); simpl.
    + rewrite trigger_pending_changes. simpl. lia.
    + destruct (Z.of_nat (List.length (pending_changes m ++ [e])) >=? 10) eqn:E.
      * rewrite trigger_pending_changes. simpl. lia.
      * simpl. rewrite Z.geb_leb in E. apply Z.leb_gt in E. lia.
  - intros changes m Hle. destruct changes as [|c cs]; [exact Hle|].
    now rewrite run_task_nonempty.
  - intros q s m Hle _. exact Hle.
Qed.
End Accumulation.

(** X2. The accumulation buffer is bounded: in every run of the engine from its
    construction, [pending_changes] holds nine records at most, because the
    tenth is flushed as it arrives. *)
Theorem pending_changes_below_ten `{PathLib}
        (cfg : Config) (t0 : Z) (actions : list Action) :
  (List.length (pending_changes (run actions (new_FileMonitor cfg t0))) <= 9)%nat
  /\ snap_pending_changes (get_stats t0 (run actions (new_FileMonitor cfg t0))) <= 9.
Proof.
  assert (Hinv : pending_below_ten (run actions (new_FileMonitor cfg t0))).
  { apply (run_preserves pending_below_ten step_pending_below_ten).
    unfold pending_below_ten. simpl. lia. }
  unfold pending_below_ten in Hinv. split; [exact Hinv|].
  unfold get_stats. simpl. lia.
Qed.

(** X3. When a settled record reaches the batcher of a monitor whose executor
    accepts work: if the batch interval has passed since the last flush, or
    the record is the tenth accumulated, everything accumulated, the record
    included, becomes one task at once and the interval restarts; otherwise
    the record is appended to [pending_changes] and nothing else happens
    but the count of [total_events]. *)
Theorem process_file_change_flush_rule (t : Z) (e : FileChangeEvent) (m : FileMonitor) :
  is_shutdown (executor m) = false ->
  (t - last_batch_time m >= batch_interval m
   \/ (List.length (pending_changes m) >= 9)%nat ->
   _process_file_change t e m
   = (Val tt,
      {| config := config m; recent_events := recent_events m;
         observer := observer m; pending_changes := [];
         change_callbacks := change_callbacks m; last_batch_time := t;
         batch_interval := batch_interval m;
         executor := {| work_queue := (work_queue (executor m)
                                         ++ [pending_changes m ++ [e]])%list;
                        is_shutdown := false |};
         stats := incr_processed_batches (incr_total_events (stats m));
         deliveries := deliveries m |}))
  /\ (t - last_batch_time m < batch_interval m ->
      (List.length (pending_changes m) < 9)%nat ->
      _process_file_change t e m
      = (Val tt,
         {| config := config m; recent_events := recent_events m;
            observer := observer m;
            pending_changes := (pending_changes m ++ [e])%list;
            change_callbacks := change_callbacks m;
            last_batch_time := last_batch_time m;
            batch_interval := batch_interval m;
            executor := executor m;
            stats := incr_total_events (stats m);
            deliveries := deliveries m |})).
Proof.
  intros Hs. split.
  - intros Hcond. unfold _process_file_change. run_m.
    assert (Hc : (t - last_batch_time m >=? batch_interval m)
                 || (Z.of_nat (List.length (pending_changes m ++ [e])) >=? 10) = true).
    { apply orb_true_iff. rewrite !Z.geb_leb, !Z.leb_le, length_app. simpl.
      destruct Hcond; [left | right]; lia. }
    rewrite Hc. rewrite trigger_nonempty; [reflexivity | | exact Hs].
    simpl. destruct (pending_changes m); discriminate.
  - intros Ht Hlen. unfold _process_file_change. run_m.
    assert (Hc : (t - last_batch_time m >=? batch_interval m)
                 || (Z.of_nat (List.length (pending_changes m ++ [e])) >=? 10) = false).
    { apply orb_false_iff. rewrite !Z.geb_leb. split; apply Z.leb_gt.
      - lia.
      - rewrite length_app. simpl. lia. }
    rewrite Hc. reflexivity.
Qed.

(** Nine records are pending ten seconds after the last flush; the tenth
    flushes all ten. *)
Lemma process_file_change_flush_rule_witness :
  let r := fun i => {| file_path := "f.py"; event_type := modified; timestamp := i;
                       file_size := 0; file_hash := "" |} in
  let m := with_pending_changes (map r [1; 2; 3; 4; 5; 6; 7; 8; 9]) Scenario.running in
  exists m',
    _process_file_change (seconds 10) (r 10) m = (Val tt, m')
    /\ pending_changes m' = []
    /\ work_queue (executor m') = [map r [1; 2; 3; 4; 5; 6; 7; 8; 9; 10]]
    /\ last_batch_time m' = seconds 10.
Proof.
  eexists. split.
  - apply (proj1 (process_file_change_flush_rule (seconds 10)
                    {| file_path := "f.py"; event_type := modified; timestamp := 10;
                       file_size := 0; file_hash := "" |}
                    (with_pending_changes
                       (map (fun i => {| file_path := "f.py"; event_type := modified;
                                         timestamp := i; file_size := 0;
                                         file_hash := "" |})
                            [1; 2; 3; 4; 5; 6; 7; 8; 9]) Scenario.running)
                    eq_refl)).
    right. simpl. lia.
  - repeat split.
Defined.

(** X4. Once the executor is shut down, a flush loses what it flushes: the
    records leave [pending_changes], the batch is counted in
    [processed_batches], the submission raises [RuntimeError], and no
    delivery follows, whatever happens next. *)
Theorem flush_after_shutdown_discards `{PathLib} (t : Z) (m : FileMonitor) :
  is_shutdown (executor m) = true ->
  work_queue (executor m) = [] ->
  pending_changes m <> [] ->
  exists m',
    force_process_changes t m
    = (Exc (RuntimeError "cannot schedule new futures after shutdown"), m')
    /\ timer_callback t m = force_process_changes t m
    /\ pending_changes m' = []
    /\ work_queue (executor m') = []
    /\ processed_batches (stats m') = processed_batches (stats m) + 1
    /\ (forall actions, deliveries (run actions m') = deliveries m).
Proof.
  intros Hs Hq Hp. unfold force_process_changes, timer_callback. run_m.
  destruct (pending_changes m) as [|c cs] eqn:Ep; [congruence|].
  rewrite trigger_after_shutdown by congruence.
  eexists. split; [reflexivity|]. split; [reflexivity|]. simpl.
  repeat split; try assumption.
  intros actions. now rewrite run_after_shutdown.
Qed.

(** A monitor is stopped; afterwards the cleanup thread settles a record,
    and a forced flush loses it. *)
Lemma flush_after_shutdown_discards_witness :
  let n := Scenario.notification created "a.py" (seconds 1) [("a.py", (10, "H1"))] in
  let m := run (H := Posix.posix)
               [Notify n; StopMonitoring (seconds 2); CleanupPass (seconds 5)]
               Scenario.running in
  exists m',
    force_process_changes (seconds 6) m
    = (Exc (RuntimeError "cannot schedule new futures after shutdown"), m')
    /\ timer_callback (seconds 6) m = force_process_changes (seconds 6) m
    /\ pending_changes m' = []
    /\ work_queue (executor m') = []
    /\ processed_batches (stats m') = processed_batches (stats m) + 1
    /\ (forall actions, deliveries (run (H := Posix.posix) actions m') = deliveries m).
Proof.
  apply (flush_after_shutdown_discards (H := Posix.posix)).
  - reflexivity.
  - reflexivity.
  - discriminate.
Defined.

(** ** The cleanup pass *)
Section CleanupPass.
Import PyDict PyDictFacts.


End CleanupPass.



(** ** The handlers *)



(** X7. A file that is gone, is not a regular file, or cannot be read has the
    empty fingerprint, and a missing file the size 0.  Hence a [modified]
    notification for such a file is dropped whenever the record pending
    for the path has the empty fingerprint too, as the record of a deletion
    does: the pending record keeps its kind and its timestamp. *)
Theorem modification_of_unreadable_file_suppressed `{PathLib}
        (cfg : Config) (env : Env) (event : FileSystemEvent)
        (prev : FileChangeEvent) (recent : RecentEvents) :
  let p := normpath (src_path event) in
  path_exists (fs env) p = false
  \/ path_isfile (fs env) p = false
  \/ md5_hexdigest (fs env) p = None ->
  PyDict.get p recent = Some prev ->
  file_hash prev = "" ->
  _get_file_hash (fs env) p = ""
  /\ (path_exists (fs env) p = false -> _get_file_size (fs env) p = 0)
  /\ on_modified cfg env event recent = recent.
Proof.
  intros p Hbad Hg Hh.
  assert (Hhash : _get_file_hash (fs env) p = "").
  { unfold _get_file_hash. destruct Hbad as [He|[Hf|Hm]].
    - now rewrite He.
    - rewrite Hf. now rewrite orb_true_r.
    - rewrite Hm. now destruct (negb _ || negb _). }
  split; [exact Hhash|]. split.
  - intros He. unfold _get_file_size. now rewrite He.
  - unfold on_modified. destruct (is_directory event); [reflexivity|].
    destruct (should_ignore_file cfg (src_path event)); [reflexivity|].
    fold p. rewrite Hg. simpl. fold p. now rewrite Hhash, Hh.
Qed.

(** [a.py] is deleted, and a [modified] notification for it arrives while
    it is still gone: the pending record remains the deletion. *)
Lemma modification_of_unreadable_file_suppressed_witness :
  let gone := Scenario.notification deleted "a.py" (seconds 1) [] in
  let late := Scenario.notification modified "a.py" 1500000 [] in
  let recent := on_deleted (H := Posix.posix) _get_default_config
                  (n_env gone) (n_event gone) [] in
  map (fun item => event_type (snd item)) recent = [deleted]
  /\ on_modified (H := Posix.posix) _get_default_config
       (n_env late) (n_event late) recent = recent.
Proof.
  split; [reflexivity|].
  apply (modification_of_unreadable_file_suppressed (H := Posix.posix)
           _get_default_config
           (n_env (Scenario.notification modified "a.py" 1500000 []))
           (n_event (Scenario.notification modified "a.py" 1500000 []))
           {| file_path := "a.py"; event_type := deleted; timestamp := seconds 1;
              file_size := 0; file_hash := "" |}).
  - left. reflexivity.
  - reflexivity.
  - reflexivity.
Defined.

(** X8. A notification leaves the whole monitor as it is, its counters
    included, when the observer is not running, when it is for a directory,
    when its path is ignored (the source path of a creation, modification or
    deletion; the destination of a move, whatever the source), or when it is
    a move without destination. *)
Theorem dropped_notification_changes_nothing `{PathLib}
        (n : Notification) (m : FileMonitor) :
  observer m <> Alive
  \/ is_directory (n_event n) = true
  \/ (n_kind n <> moved
      /\ should_ignore_file (config m) (src_path (n_event n)) = true)
  \/ (n_kind n = moved /\ dest_path (n_event n) = None)
  \/ (n_kind n = moved
      /\ exists dest, dest_path (n_event n) = Some dest
                      /\ should_ignore_file (config m) dest = true) ->
  step (Notify n) m = (Val tt, m).
Proof.
  intros Hdrop. simpl. unfold notify. run_m.
  assert (Hsame : with_recent_events (recent_events m) m = m) by (now destruct m).
  destruct (observer m) eqn:Eo; try reflexivity.
  assert (Hd : dispatch (config m) n (recent_events m) = recent_events m).
  { destruct Hdrop as [Ho|[Hdir|[[Hk Hi]|[[Hk Hdest]|[Hk (dest & Hdest & Hi)]]]]].
    - congruence.
    - unfold dispatch, on_created, on_modified, on_deleted, on_moved.
      rewrite Hdir. now destruct (n_kind n).
    - unfold dispatch, on_created, on_modified, on_deleted.
      rewrite Hi. destruct (n_kind n); try congruence;
        now destruct (is_directory (n_event n)).
    - unfold dispatch, on_moved. rewrite Hk, Hdest.
      now destruct (is_directory (n_event n)).
    - unfold dispatch, on_moved. rewrite Hk, Hdest, Hi.
      now destruct (is_directory (n_event n)). }
  simpl. rewrite Hd. now rewrite Hsame.
Qed.

(** A temporary file is written, and a file is moved into [.git]. *)
Lemma dropped_notification_changes_nothing_witness :
  step (H := Posix.posix)
    (Notify (Scenario.notification modified "notes.py~" (seconds 1) []))
    Scenario.running = (Val tt, Scenario.running)
  /\ step (H := Posix.posix)
       (Notify {| n_kind := moved;
                  n_event := {| is_directory := false; src_path := "a.py";
                                dest_path := Some ".git/a.py" |};
                  n_env := {| now := seconds 1; fs := Scenario.files [] |} |})
       Scenario.running = (Val tt, Scenario.running).
Proof.
  split.
  - apply (dropped_notification_changes_nothing (H := Posix.posix)).
    right. right. left. split; [discriminate | reflexivity].
  - apply (dropped_notification_changes_nothing (H := Posix.posix)).
    right. right. right. right. split; [reflexivity|].
    exists ".git/a.py". split; reflexivity.
Defined.

(** ** The classifier *)

(** X9. An empty name in [exclude_directories] makes the classifier ignore
    every path: the empty string occurs in every string. *)
Theorem empty_excluded_name_ignores_everything `{PathLib} (cfg : Config) :
  In "" (get_default (monitoring cfg) exclude_directories []) ->
  forall p, should_ignore_file cfg p = true.
Proof.
  intros Hin p. unfold should_ignore_file.
  assert (Hex : existsb (fun excluded_dir => str_in excluded_dir (normpath p))
                  (get_default (monitoring cfg) exclude_directories []) = true).
  { apply existsb_exists. exists "". split; [exact Hin|].
    apply str_in_iff. exists "", (normpath p). reflexivity. }
  now rewrite Hex.
Qed.

Lemma empty_excluded_name_ignores_everything_witness :
  let cfg := {| monitoring := Some {| exclude_directories := Some ["build"; ""];
                                      file_extensions := None |};
                git := None; system := None |} in
  should_ignore_file (H := Posix.posix) cfg "src/a.py" = true.
Proof.
  apply (empty_excluded_name_ignores_everything (H := Posix.posix)).
  simpl. right. left. reflexivity.
Defined.

(** X10. A stricter configuration ignores at least as much: with more excluded
    directories, more ignore patterns, and an allow-list of extensions that
    is a non-empty part of the old one (when the old one restricts at all),
    every path that was ignored is still ignored. *)
Theorem should_ignore_file_monotone `{PathLib} (cfg cfg' : Config) (p : string) :
  incl (get_default (monitoring cfg) exclude_directories [])
       (get_default (monitoring cfg') exclude_directories []) ->
  (get_default (monitoring cfg) file_extensions [] <> [] ->
   get_default (monitoring cfg') file_extensions [] <> []
   /\ incl (get_default (monitoring cfg') file_extensions [])
           (get_default (monitoring cfg) file_extensions [])) ->
  incl (get_default (git cfg) ignore_patterns [])
       (get_default (git cfg') ignore_patterns []) ->
  should_ignore_file cfg p = true ->
  should_ignore_file cfg' p = true.
Proof.
  intros Hex Hext Hpat. unfold should_ignore_file.
  set (ex := get_default (monitoring cfg) exclude_directories []) in *.
  set (ex' := get_default (monitoring cfg') exclude_directories []) in *.
  set (al := get_default (monitoring cfg) file_extensions []) in *.
  set (al' := get_default (monitoring cfg') file_extensions []) in *.
  set (pt := get_default (git cfg) ignore_patterns []) in *.
  set (pt' := get_default (git cfg') ignore_patterns []) in *.
  destruct (existsb _ ex) eqn:E1.
  { intros _. apply existsb_exists in E1 as (d & Hd & Hin).
    assert (E1' : existsb (fun excluded_dir => str_in excluded_dir (normpath p)) ex' = true).
    { apply existsb_exists. exists d. split; [now apply Hex | exact Hin]. }
    now rewrite E1'. }
  destruct (existsb _ ex'); [reflexivity|].
  destruct al as [|a al0] eqn:Eal.
  - destruct (match al' with [] => false | _ :: _ => _ end); [reflexivity|].
    destruct (existsb _ pt) eqn:E3.
    { intros _. apply existsb_exists in E3 as (pat & Hp & Hm).
      assert (E3' : existsb (fun pattern => fnmatch (basename (normpath p)) pattern
                                            || fnmatch (normpath p) pattern) pt' = true).
      { apply existsb_exists. exists pat. split; [now apply Hpat | exact Hm]. }
      now rewrite E3'. }
    destruct (existsb _ pt'); [reflexivity|]. tauto.
  - destruct (negb (list_in (path_suffix (normpath p)) (a :: al0))) eqn:E2.
    { intros _. destruct Hext as [Hne Hincl]; [discriminate|].
      destruct al' as [|a' al0']; [congruence|].
      assert (E2' : negb (list_in (path_suffix (normpath p)) (a' :: al0')) = true).
      { apply negb_true_iff. apply negb_true_iff in E2.
        destruct (list_in _ (a' :: al0')) eqn:El; [|reflexivity].
        unfold list_in in *. apply existsb_exists in El as (x & Hx & Heq).
        assert (Hc : existsb (String.eqb (path_suffix (normpath p))) (a :: al0) = true).
        { apply existsb_exists. exists x. split; [now apply Hincl | exact Heq]. }
        congruence. }
      now rewrite E2'. }
    destruct (match al' with [] => false | _ :: _ => _ end); [reflexivity|].
    destruct (existsb _ pt) eqn:E3.
    { intros _. apply existsb_exists in E3 as (pat & Hp & Hm).
      assert (E3' : existsb (fun pattern => fnmatch (basename (normpath p)) pattern
                                            || fnmatch (normpath p) pattern) pt' = true).
      { apply existsb_exists. exists pat. split; [now apply Hpat | exact Hm]. }
      now rewrite E3'. }
    destruct (existsb _ pt'); [reflexivity|]. tauto.
Qed.

(** The default configuration with [dist] excluded as well still ignores
    what the default configuration ignores. *)
Lemma should_ignore_file_monotone_witness :
  let cfg' := {| system := system _get_default_config;
                 monitoring := Some
                   {| exclude_directories :=
                        Some [".git"; "__pycache__"; "node_modules"; "dist"];
                      file_extensions := Some [".py"; ".js"] |};
                 git := git _get_default_config |} in
  should_ignore_file (H := Posix.posix) cfg' "docs/readme.txt" = true.
Proof.
  apply (should_ignore_file_monotone (H := Posix.posix) _get_default_config).
  - simpl. intros x Hx. simpl in *. tauto.
  - intros _. split; [discriminate|]. simpl. intros x Hx. simpl in *. tauto.
  - apply incl_refl.
  - reflexivity.
Defined.

(** ** The order of a batch *)

Section BatchOrder.
Import PyDict PyDictFacts.

Lemma insert_by_timestamp_filter (t : Z) x l :
  filter (fun c => timestamp c =? t) (insert_by_timestamp x l)
  = filter (fun c => timestamp c =? t) (x :: l).
Proof.
  induction l as [|y l IH]; [reflexivity|]. cbn [insert_by_timestamp].
  destruct (timestamp x <=? timestamp y) eqn:E; [reflexivity|].
  apply Z.leb_gt in E. cbn [filter] in *.
  destruct (timestamp y =? t) eqn:Ey.
  - apply Z.eqb_eq in Ey.
    assert (Ex : (timestamp x =? t) = false) by (apply Z.eqb_neq; lia).
    rewrite IH, Ex. reflexivity.
  - rewrite IH. reflexivity.
Qed.

Lemma sort_by_timestamp_stable (t : Z) l :
  filter (fun c => timestamp c =? t) (sort_by_timestamp l)
  = filter (fun c => timestamp c =? t) l.
Proof.
  induction l as [|x l IH]; [reflexivity|]. cbn [sort_by_timestamp fold_right].
  rewrite insert_by_timestamp_filter. cbn [filter].
  change (fold_right insert_by_timestamp [] l) with (sort_by_timestamp l).
  now rewrite IH.
Qed.

Lemma fill_keys changes : forall (d : dict FileChangeEvent) seen,
  (forall x, list_in x seen = true <-> In x (keys d)) ->
  keys (fill changes d)
  = (keys d ++ first_seen_from seen (map file_path changes))%list.
Proof.
  induction changes as [|c cs IH]; intros d seen Hseen; simpl.
  - now rewrite app_nil_r.
  - destruct (list_in (file_path c) seen) eqn:E.
    + rewrite (IH _ seen).
      * rewrite keys_set_present; [reflexivity|].
        apply Hseen in E. intros Hn. now apply get_None_keys in Hn.
      * intros x. rewrite keys_set_present; [apply Hseen|].
        apply Hseen in E. intros Hn. now apply get_None_keys in Hn.
    + assert (Hnone : get (file_path c) d = None).
      { apply get_None_keys. intros Hin. apply Hseen in Hin. congruence. }
      rewrite (IH _ (file_path c :: seen)).
      * rewrite set_absent by exact Hnone. unfold keys. rewrite map_app. simpl.
        now rewrite <- app_assoc.
      * intros x. rewrite set_absent by exact Hnone. unfold keys. rewrite map_app.
        simpl. rewrite in_app_iff. simpl. unfold list_in in *. simpl.
        rewrite orb_true_iff, String.eqb_eq. specialize (Hseen x).
        unfold keys in Hseen. intuition.
Qed.

Lemma keyed_values_keys (d : dict FileChangeEvent) :
  keyed d -> map file_path (values d) = keys d.
Proof.
  unfold keyed. induction d as [|[k v] d IH]; simpl; intros Hk; [reflexivity|].
  rewrite (Hk k v) by now left. f_equal. apply IH.
  intros k0 v0 H0. apply Hk. now right.
Qed.
End BatchOrder.

(** X11. A batch is the deduplicated records, which stand in the order in which
    their paths first appeared in the accumulation, rearranged by
    timestamp: a permutation of them in which records with the same
    timestamp keep that order. *)
Theorem final_changes_stable (changes : list FileChangeEvent) :
  map file_path (PyDict.values (unique_changes changes))
  = first_seen (map file_path changes)
  /\ Permutation (final_changes changes) (PyDict.values (unique_changes changes))
  /\ (forall t, filter (fun c => timestamp c =? t) (final_changes changes)
                = filter (fun c => timestamp c =? t)
                    (PyDict.values (unique_changes changes)))
  /\ List.length (final_changes changes)
     = List.length (first_seen (map file_path changes)).
Proof.
  assert (Hkeys : map file_path (PyDict.values (unique_changes changes))
                  = first_seen (map file_path changes)).
  { unfold unique_changes. change (fold_left _ changes []) with (fill changes []).
    rewrite keyed_values_keys by (apply fill_keyed; intros k v []).
    rewrite (fill_keys changes [] []); [reflexivity|].
    intros x. simpl. split; [discriminate | tauto]. }
  split; [exact Hkeys|]. split; [apply sort_by_timestamp_perm|]. split.
  - intros t. apply sort_by_timestamp_stable.
  - rewrite <- Hkeys, length_map. apply Permutation_length, sort_by_timestamp_perm.
Qed.

(** ** The executor *)

Section ExecutorFacts.
Context `{PathLib}.

Lemma run_tasks_deliveries q : forall m,
  Forall (fun changes => changes <> []) q ->
  for_each q run_task m
  = (Val tt,
     with_deliveries
       (deliveries m ++ map (delivery_of (change_callbacks m)) q)%list m).
Proof.
  induction q as [|c q IH]; intros m Hq; simpl.
  - rewrite app_nil_r. now destruct m.
  - inversion Hq as [|? ? Hc Hq']; subst. unfold bind.
    rewrite run_task_nonempty by exact Hc. rewrite IH by exact Hq'. simpl.
    rewrite <- app_assoc. reflexivity.
Qed.

Lemma trigger_batches_accounted t m :
  batches_accounted m -> batches_accounted (snd (_trigger_batch_processing t m)).
Proof.
  unfold batches_accounted. intros [Hle Heq].
  destruct (pending_changes m) as [|c cs] eqn:Ep.
  - rewrite trigger_empty by exact Ep. now split.
  - destruct (is_shutdown (executor m)) eqn:Es.
    + rewrite trigger_after_shutdown by congruence. simpl. split; [lia|].
      intros Hs. congruence.
    + rewrite trigger_nonempty by congruence. simpl. specialize (Heq eq_refl).
      rewrite length_app. simpl. split; [lia | intros _; lia].
Qed.

Lemma process_batches_accounted t e m :
  batches_accounted m -> batches_accounted (snd (_process_file_change t e m)).
Proof.
  intros Hacc. unfold _process_file_change. run_m.
  destruct (_ || _); [|exact Hacc].
  apply trigger_batches_accounted. exact Hacc.
Qed.

Lemma shutdown_batches_accounted m :
  no_empty_batch m -> batches_accounted m ->
  batches_accounted (snd (executor_shutdown m)).
Proof.
  intros [Hq _] [Hle _]. unfold executor_shutdown. run_m.
  rewrite run_tasks_deliveries by exact Hq. unfold batches_accounted. simpl.
  rewrite length_app, length_map. split; [lia | discriminate].
Qed.

Lemma step_batches_accounted a m :
  no_empty_batch m -> batches_accounted m -> batches_accounted (snd (step a m)).
Proof.
  intros Hne Hacc. destruct a; simpl.
  - unfold notify. run_m. destruct (observer m); exact Hacc.
  - unfold cleanup_old_events. run_m.
    apply (for_each_preserves batches_accounted); [|exact Hacc].
    intros k m0 H0. unfold settle. run_m.
    destruct (PyDict.get k (recent_events m0)); [|exact H0].
    apply process_batches_accounted. exact H0.
  - unfold timer_callback. run_m. destruct (pending_changes m) eqn:Ep; [exact Hacc|].
    now apply trigger_batches_accounted.
  - unfold worker_run. run_m. destruct (work_queue (executor m)) as [|c q] eqn:Eq;
      [exact Hacc|].
    destruct Hne as [Hq _]. rewrite Eq in Hq. inversion Hq as [|? ? Hc Hq']; subst.
    simpl. rewrite run_task_nonempty by exact Hc.
    destruct Hacc as [Hle Heq]. unfold batches_accounted in *. simpl.
    rewrite Eq in Hle, Heq. simpl in Hle, Heq. rewrite length_app. simpl.
    split; [lia | intros Hs; specialize (Heq Hs); lia].
  - exact Hacc.
  - unfold start_monitoring, observer_start. run_m. destruct (observer m); exact Hacc.
  - unfold stop_monitoring, observer_stop, observer_join. run_m.
    assert (Hrest : forall m1,
               no_empty_batch m1 -> batches_accounted m1 ->
               batches_accounted
                 (snd (let (r, m') := match pending_changes m with
                                      | [] => fun m0 => (Val tt, m0)
                                      | _ :: _ => _trigger_batch_processing now0
                                      end m1 in
                       match r with
                       | Val _ => executor_shutdown m'
                       | Exc e => (Exc e, m')
                       end))).
    { intros m1 Hne1 Hacc1. destruct (pending_changes m).
      - now apply shutdown_batches_accounted.
      - assert (Ht := trigger_batches_accounted now0 m1 Hacc1).
        assert (Hn := trigger_no_empty_batch now0 m1 Hne1).
        destruct (_trigger_batch_processing now0 m1) as [[[]|e] m2]; simpl in *;
          [now apply shutdown_batches_accounted | exact Ht]. }
    destruct (observer m); [exact Hacc | |]; now apply Hrest.
  - unfold force_process_changes. run_m.
    destruct (pending_changes m) eqn:Ep; [exact Hacc|].
    now apply trigger_batches_accounted.
Qed.
End ExecutorFacts.

(** X12. [processed_batches] accounts for the batches: in every run of the
    engine from its construction, the batches delivered and the tasks still
    queued are no more than [processed_batches] counts, and exactly as many
    as long as the executor has not been shut down. *)
Theorem processed_batches_accounts_for_batches `{PathLib}
        (cfg : Config) (t0 : Z) (actions : list Action) :
  let m := run actions (new_FileMonitor cfg t0) in
  Z.of_nat (List.length (deliveries m) + List.length (work_queue (executor m)))
  <= processed_batches (stats m)
  /\ (is_shutdown (executor m) = false ->
      Z.of_nat (List.length (deliveries m) + List.length (work_queue (executor m)))
      = processed_batches (stats m)).
Proof.
  intros m.
  assert (Hinv : no_empty_batch m /\ batches_accounted m).
  { apply (run_preserves (fun m => no_empty_batch m /\ batches_accounted m)).
    - intros a m0 [Hne Hacc]. split;
        [now apply step_no_empty_batch | now apply step_batches_accounted].
    - split; [split; constructor|]. unfold batches_accounted. simpl.
      split; [lia | reflexivity]. }
  exact (proj2 Hinv).
Qed.

(** What [stop_monitoring] does on a monitor that was started. *)
Lemma stop_monitoring_spec (now : Z) (m : FileMonitor) :
  observer m <> NotStarted ->
  is_shutdown (executor m) = false ->
  Forall (fun changes => changes <> []) (work_queue (executor m)) ->
  let tasks := (work_queue (executor m)
                  ++ match pending_changes m with
                     | [] => []
                     | _ :: _ => [pending_changes m]
                     end)%list in
  exists m',
    stop_monitoring now m = (Val tt, m')
    /\ deliveries m'
       = (deliveries m ++ map (delivery_of (change_callbacks m)) tasks)%list
    /\ pending_changes m' = []
    /\ work_queue (executor m') = []
    /\ is_shutdown (executor m') = true
    /\ observer m' = Finished
    /\ recent_events m' = recent_events m.
Proof.
  intros Ho Hs Hq tasks. unfold stop_monitoring, observer_stop, observer_join. run_m.
  assert (Hgo : exists m',
             (let (r, m'0) := match pending_changes m with
                              | [] => fun m0 => (Val tt, m0)
                              | _ :: _ => _trigger_batch_processing now
                              end (with_observer Finished m) in
              match r with
              | Val _ => executor_shutdown m'0
              | Exc e => (Exc e, m'0)
              end) = (Val tt, m')
             /\ deliveries m'
                = (deliveries m ++ map (delivery_of (change_callbacks m)) tasks)%list
             /\ pending_changes m' = []
             /\ work_queue (executor m') = []
             /\ is_shutdown (executor m') = true
             /\ observer m' = Finished
             /\ recent_events m' = recent_events m).
  { unfold tasks. destruct (pending_changes m) as [|c cs] eqn:Ep.
    - unfold executor_shutdown. run_m.
      rewrite run_tasks_deliveries by exact Hq. simpl. rewrite app_nil_r.
      eexists. split; [reflexivity|]. simpl. repeat split. exact Ep.
    - rewrite trigger_nonempty; [|simpl; congruence | exact Hs].
      unfold executor_shutdown. run_m.
      rewrite run_tasks_deliveries.
      + simpl. rewrite Ep. eexists. split; [reflexivity|]. simpl. repeat split.
      + rewrite Ep. apply Forall_app. split; [exact Hq|].
        constructor; [discriminate | constructor]. }
  destruct (observer m); [congruence | exact Hgo | exact Hgo].
Qed.



(** * The subscriber *)
Module AutoGitFacts.
Import AutoGit.

Lemma list_in_In x s : list_in x s = true <-> In x s.
Proof.
  unfold list_in. rewrite existsb_exists. split.
  - intros (y & Hy & Heq). apply String.eqb_eq in Heq. now subst.
  - intros Hin. exists x. split; [exact Hin | apply String.eqb_refl].
Qed.

Lemma set_add_In x y s : In x (set_add y s) <-> x = y \/ In x s.
Proof.
  unfold set_add. destruct (list_in y s) eqn:E.
  - apply list_in_In in E. split; [tauto|]. intros [->|Hin]; assumption.
  - rewrite in_app_iff. simpl. split; intros Hx; intuition.
Qed.

Lemma set_add_NoDup y s : NoDup s -> NoDup (set_add y s).
Proof.
  intros Hnd. unfold set_add. destruct (list_in y s) eqn:E; [exact Hnd|].
  apply NoDup_app_remove_l with (l := []). simpl.
  apply Permutation_NoDup with (l := y :: s); [apply Permutation_cons_append|].
  constructor; [|exact Hnd]. intros Hin. apply list_in_In in Hin. congruence.
Qed.

Lemma track_In changes : forall pending p,
  In p (track changes pending)
  <-> In p pending
      \/ exists c, In c changes /\ file_path c = p /\ event_type c <> deleted.
Proof.
  unfold track. induction changes as [|c cs IH]; intros pending p; simpl.
  - split; [tauto|]. intros [Hin|(c & [] & _)]. exact Hin.
  - rewrite IH. split.
    + intros [Hin|(c' & Hc' & Hp & Hk)].
      * destruct (event_type c) eqn:Ek; try (now left);
          apply set_add_In in Hin as [->|Hin];
          try (now left); right; exists c; (split; [now left|]);
          (split; [reflexivity | congruence]).
      * right. exists c'. split; [now right | now split].
    + intros [Hin|(c' & [<-|Hc'] & Hp & Hk)].
      * left. destruct (event_type c); try exact Hin; apply set_add_In; now right.
      * left. destruct (event_type c) eqn:Ek; try congruence;
          apply set_add_In; left; now symmetry.
      * right. exists c'. now split.
Qed.

Lemma track_NoDup changes : forall pending, NoDup pending -> NoDup (track changes pending).
Proof.
  unfold track. induction changes as [|c cs IH]; intros pending Hnd; simpl; [exact Hnd|].
  apply IH. destruct (event_type c); try exact Hnd; now apply set_add_NoDup.
Qed.
End AutoGitFacts.

(** X16. What the manager tracks of a flush.  When [_on_file_changes] is the
    registered callback, the task of a flush calls it once, with the
    deduplicated batch; its loop then adds to the manager's pending set
    exactly the paths whose last accumulated record is not a deletion, and
    leaves the paths already there.  A path created and deleted again in
    one accumulation is not tracked. *)
Theorem manager_tracks_latest_undeleted
        (changes : list FileChangeEvent) (pending : list string) :
  (forall m, change_callbacks m = [AutoGit.callback] -> changes <> [] ->
             exists d, run_task changes m
                       = (Val tt, with_deliveries (deliveries m ++ [d])%list m)
                       /\ map inv_batch (dl_calls d) = [final_changes changes])
  /\ (forall p,
         In p (AutoGit.track (final_changes changes) pending)
         <-> In p pending
             \/ exists r, latest_for p changes = Some r /\ event_type r <> deleted)
  /\ (NoDup pending -> NoDup (AutoGit.track (final_changes changes) pending)).
Proof.
  split; [|split].
  - intros m Hcb Hne. eexists. split; [now apply run_task_nonempty|].
    rewrite Hcb. reflexivity.
  - intros p. rewrite AutoGitFacts.track_In. split.
    + intros [Hin|(c & Hc & Hp & Hk)]; [now left|]. right. exists c.
      apply final_changes_In in Hc. rewrite Hp in Hc. now split.
    + intros [Hin|(r & Hr & Hk)]; [now left|]. right. exists r.
      assert (Hi := items_for_final_changes p changes). rewrite Hr in Hi.
      assert (Hin : In r (items_for p (final_changes changes)))
        by (rewrite Hi; now left).
      apply filter_In in Hin as [Hin Hp]. apply String.eqb_eq in Hp.
      now repeat split.
  - apply AutoGitFacts.track_NoDup.
Qed.

(** [tmp.py] is created and deleted, [a.py] modified: only [a.py] is
    tracked. *)
Lemma manager_tracks_latest_undeleted_witness :
  let r := fun p k i => {| file_path := p; event_type := k; timestamp := i;
                           file_size := 0; file_hash := "" |} in
  let changes := [r "tmp.py" created 1; r "a.py" modified 2; r "tmp.py" deleted 3] in
  AutoGit.track (final_changes changes) [] = ["a.py"]
  /\ NoDup (AutoGit.track (final_changes changes) []).
Proof.
  split; [reflexivity|].
  apply (proj2 (proj2 (manager_tracks_latest_undeleted _ []))). constructor.
Defined.

(** X17. The commit rule of [_on_file_changes].  An empty batch changes nothing.
    With fewer than five tracked paths and less than [max_commit_frequency]
    since the last commit, the paths are tracked and neither git nor the
    generator is consulted.  Otherwise a commit is attempted: if a message
    is generated and the commit succeeds, the pending set is cleared, the
    commit is counted as automatic and dated, and a push is attempted if
    enabled; if the generator raises or the commit fails, the pending set
    keeps every tracked path and [failed_operations] goes up by one. *)
Theorem on_file_changes_commit_rule
        (w : AutoGit.World) (changes : list FileChangeEvent)
        (a : AutoGit.AutoGitManager) :
  let tracked := AutoGit.track changes (AutoGit.pending_changes a) in
  let a1 := AutoGit.with_pending_changes tracked a in
  let due := Z.of_nat (List.length tracked) >= 5
             \/ AutoGit.clock w - AutoGit.last_commit_time a
                >= AutoGit.max_commit_frequency a in
  AutoGit._on_file_changes w [] a = a
  /\ (changes <> [] -> ~ due -> AutoGit._on_file_changes w changes a = a1)
  /\ (changes <> [] -> due -> tracked <> [] ->
      forall msg,
        AutoGit.generated_message w = inl msg ->
        AutoGit.success (AutoGit.commit_result w msg) = true ->
        AutoGit._on_file_changes w changes a
        = (if AutoGit.auto_push_enabled a
           then AutoGit._auto_push w (AutoGit.committed true (AutoGit.clock w) a1)
           else AutoGit.committed true (AutoGit.clock w) a1)
        /\ AutoGit.pending_changes (AutoGit._on_file_changes w changes a) = [])
  /\ (changes <> [] -> due -> tracked <> [] ->
      (exists e, AutoGit.generated_message w = inr e)
      \/ (exists msg, AutoGit.generated_message w = inl msg
                      /\ AutoGit.success (AutoGit.commit_result w msg) = false) ->
      AutoGit._on_file_changes w changes a = AutoGit.failed a1).
Proof.
  intros tracked a1 due.
  assert (Hdue : due <->
                 (5 <=? Z.of_nat (List.length (AutoGit.pending_changes a1)))
                 || (AutoGit.clock w - AutoGit.last_commit_time a1
                     >=? AutoGit.max_commit_frequency a1) = true).
  { unfold due. simpl. rewrite orb_true_iff, Z.leb_le, Z.geb_leb, Z.leb_le.
    split; intros [Hl|Hr]; [left | right | left | right]; lia. }
  split; [reflexivity|]. split; [|split].
  - intros Hne Hnot. destruct changes as [|c cs]; [congruence|].
    unfold AutoGit._on_file_changes. fold tracked. fold a1.
    destruct (_ || _) eqn:E; [|reflexivity]. elim Hnot. now apply Hdue.
  - intros Hne Hd Htr msg Hmsg Hok. destruct changes as [|c cs]; [congruence|].
    assert (Hrun : AutoGit._on_file_changes w (c :: cs) a
                   = (if AutoGit.auto_push_enabled a
                      then AutoGit._auto_push w (AutoGit.committed true (AutoGit.clock w) a1)
                      else AutoGit.committed true (AutoGit.clock w) a1)).
    { unfold AutoGit._on_file_changes. fold tracked. fold a1.
      apply Hdue in Hd. rewrite Hd. unfold AutoGit._auto_commit.
      change (AutoGit.pending_changes a1) with tracked.
      destruct tracked as [|x xs] eqn:Et; [congruence|].
      rewrite Hmsg, Hok. reflexivity. }
    split; [exact Hrun|]. rewrite Hrun.
    destruct (AutoGit.auto_push_enabled a); [|reflexivity].
    unfold AutoGit._auto_push.
    destruct (AutoGit.success (AutoGit.push_result w)); reflexivity.
  - intros Hne Hd Htr Hfail. destruct changes as [|c cs]; [congruence|].
    unfold AutoGit._on_file_changes. fold tracked. fold a1.
    apply Hdue in Hd. rewrite Hd. unfold AutoGit._auto_commit.
    change (AutoGit.pending_changes a1) with tracked.
    destruct tracked as [|x xs] eqn:Et; [congruence|].
    destruct Hfail as [[e He]|(msg & Hmsg & Hbad)].
    + now rewrite He.
    + now rewrite Hmsg, Hbad.
Qed.

(** Five paths arrive in one batch and the commit succeeds. *)
Lemma on_file_changes_commit_rule_witness :
  let r := fun p => {| file_path := p; event_type := modified; timestamp := 1;
                       file_size := 0; file_hash := "" |} in
  let w := {| AutoGit.clock := seconds 10;
              AutoGit.generated_message := inl "feat: Update source code (5 files)";
              AutoGit.commit_result :=
                fun _ => {| AutoGit.success := true; AutoGit.message := "Commit created" |};
              AutoGit.push_result :=
                {| AutoGit.success := false; AutoGit.message := "No commits to push" |};
              AutoGit.status_is_dirty := true; AutoGit.status_ahead := 0 |} in
  let a := AutoGit.new_AutoGitManager false (seconds 300) 0 in
  AutoGit.pending_changes
    (AutoGit._on_file_changes w (map r ["a.py"; "b.py"; "c.py"; "d.py"; "e.py"]) a) = []
  /\ AutoGit.auto_commits
       (AutoGit.stats
          (AutoGit._on_file_changes w (map r ["a.py"; "b.py"; "c.py"; "d.py"; "e.py"]) a))
     = 1.
Proof.
  split; [|reflexivity].
  apply (proj1 (proj2 (proj2 (on_file_changes_commit_rule _ _ _))))
    with (msg := "feat: Update source code (5 files)").
  - simpl. discriminate.
  - left. vm_compute. discriminate.
  - vm_compute. discriminate.
  - reflexivity.
  - reflexivity.
Defined.

Section ManagerInvariant.
Import AutoGit.

Lemma auto_push_consistent w a : consistent a -> consistent (_auto_push w a).
Proof.
  unfold consistent, _auto_push. intros (H1 & H2 & H3 & H4 & H5 & H6).
  destruct (success (push_result w)); simpl; repeat split; auto; lia.
Qed.

Lemma auto_commit_consistent w a : consistent a -> consistent (_auto_commit w a).
Proof.
  intros Hc. unfold _auto_commit. destruct (pending_changes a) eqn:Ep; [exact Hc|].
  assert (Hf : consistent (failed a)).
  { destruct Hc as (H1 & H2 & H3 & H4 & H5 & H6). unfold consistent. simpl.
    repeat split; auto; lia. }
  destruct (generated_message w) as [msg|e]; [|exact Hf].
  destruct (success (commit_result w msg)); [|exact Hf].
  assert (Hcm : consistent (committed true (clock w) a)).
  { destruct Hc as (H1 & H2 & H3 & H4 & H5 & H6). unfold consistent. simpl.
    repeat split; auto; try lia. constructor. }
  destruct (auto_push_enabled (committed true (clock w) a));
    [now apply auto_push_consistent | exact Hcm].
Qed.

Lemma apply_consistent w op a : consistent a -> consistent (apply w op a).
Proof.
  intros Hc. destruct op; simpl.
  - unfold _on_file_changes. destruct changes as [|c cs]; [exact Hc|].
    assert (Ht : consistent (with_pending_changes
                               (track (c :: cs) (pending_changes a)) a)).
    { destruct Hc as (H1 & H2 & H3 & H4 & H5 & H6). unfold consistent.
      repeat split; try assumption.
      change (NoDup (track (c :: cs) (pending_changes a))).
      now apply AutoGitFacts.track_NoDup. }
    destruct (_ || _); [now apply auto_commit_consistent | exact Ht].
  - unfold _periodic_commit_check. destruct (status_is_dirty w); [|exact Hc].
    destruct (_ >=? _); [now apply auto_commit_consistent | exact Hc].
  - unfold _periodic_push_check. destruct (negb (auto_push_enabled a)); [exact Hc|].
    destruct (status_ahead w >? 0); [|exact Hc].
    destruct (_ >=? _); [now apply auto_push_consistent | exact Hc].
  - unfold manual_commit.
    destruct (match message0 with Some m => inl m | None => generated_message w end)
      as [m|e]; [|exact Hc].
    simpl. destruct (success (commit_result w m)); [|exact Hc].
    destruct Hc as (H1 & H2 & H3 & H4 & H5 & H6). unfold consistent. simpl.
    repeat split; auto; try lia. constructor.
  - unfold manual_push. simpl. destruct (success (push_result w)); [|exact Hc].
    destruct Hc as (H1 & H2 & H3 & H4 & H5 & H6). unfold consistent. simpl.
    repeat split; auto; lia.
Qed.

Lemma run_manager_consistent ops : forall a,
  consistent a -> consistent (run_manager ops a).
Proof.
  unfold run_manager. induction ops as [|[w op] ops IH]; intros a Hc; simpl; [exact Hc|].
  apply IH. now apply apply_consistent.
Qed.

(** Paths leave the pending set only by a commit that succeeds: an
    operation that does not raise [total_commits] keeps every pending
    path. *)
Lemma apply_keeps_pending w op a p :
  total_commits (stats (apply w op a)) = total_commits (stats a) ->
  In p (pending_changes a) -> In p (pending_changes (apply w op a)).
Proof.
  assert (Hpush : forall a0, pending_changes (_auto_push w a0) = pending_changes a0
                             /\ total_commits (stats (_auto_push w a0))
                                = total_commits (stats a0)).
  { intros a0. unfold _auto_push. destruct (success (push_result w)); now split. }
  assert (Hcommit : forall a0,
             total_commits (stats (_auto_commit w a0)) = total_commits (stats a0) ->
             pending_changes (_auto_commit w a0) = pending_changes a0).
  { intros a0. unfold _auto_commit. destruct (pending_changes a0) eqn:Ep; [now rewrite Ep|].
    destruct (generated_message w) as [msg|e]; [|now rewrite <- Ep].
    destruct (success (commit_result w msg)); [|now rewrite <- Ep].
    destruct (auto_push_enabled (committed true (clock w) a0)).
    - rewrite (proj2 (Hpush _)). simpl. lia.
    - simpl. lia. }
  destruct op; simpl.
  - unfold _on_file_changes. destruct changes as [|c cs]; [auto|].
    set (a1 := with_pending_changes (track (c :: cs) (pending_changes a)) a).
    assert (Hin1 : In p (pending_changes a) -> In p (pending_changes a1)).
    { intros Hin. apply AutoGitFacts.track_In. now left. }
    destruct (_ || _); [|auto].
    intros Ht Hin. rewrite Hcommit by exact Ht. auto.
  - unfold _periodic_commit_check. destruct (status_is_dirty w); [|auto].
    destruct (_ >=? _); [|auto]. intros Ht Hin. now rewrite Hcommit.
  - unfold _periodic_push_check. destruct (negb (auto_push_enabled a)); [auto|].
    destruct (status_ahead w >? 0); [|auto].
    destruct (_ >=? _); [|auto]. intros _ Hin. now rewrite (proj1 (Hpush a)).
  - unfold manual_commit.
    destruct (match message0 with Some m => inl m | None => generated_message w end)
      as [m|e]; [|auto].
    simpl. destruct (success (commit_result w m)); [|auto]. simpl. lia.
  - unfold manual_push. simpl. destruct (success (push_result w)); auto.
Qed.
End ManagerInvariant.

(** X18. The manager's books.  Whatever batches, periodic checks and manual
    operations a manager goes through from its construction, and whatever
    git and the generator answer, every commit counted is counted as
    automatic or as manual, never both; no counter is negative; the pending
    set holds each path once; and one operation that counts no commit
    loses no pending path. *)
Theorem manager_counters_consistent
        (auto_push : bool) (max_frequency t0 : Z)
        (ops : list (AutoGit.World * AutoGit.Operation)) :
  let a := AutoGit.run_manager ops
             (AutoGit.new_AutoGitManager auto_push max_frequency t0) in
  AutoGit.total_commits (AutoGit.stats a)
  = AutoGit.auto_commits (AutoGit.stats a) + AutoGit.manual_commits (AutoGit.stats a)
  /\ 0 <= AutoGit.auto_commits (AutoGit.stats a)
  /\ 0 <= AutoGit.manual_commits (AutoGit.stats a)
  /\ 0 <= AutoGit.total_pushes (AutoGit.stats a)
  /\ 0 <= AutoGit.failed_operations (AutoGit.stats a)
  /\ NoDup (AutoGit.pending_changes a)
  /\ (forall w op p,
         AutoGit.total_commits (AutoGit.stats (AutoGit.apply w op a))
         = AutoGit.total_commits (AutoGit.stats a) ->
         In p (AutoGit.pending_changes a) ->
         In p (AutoGit.pending_changes (AutoGit.apply w op a))).
Proof.
  intros a.
  assert (Hc : AutoGit.consistent a).
  { apply run_manager_consistent.
    unfold AutoGit.consistent. simpl. repeat split; try lia. constructor. }
  destruct Hc as (H1 & H2 & H3 & H4 & H5 & H6).
  repeat (split; [assumption|]).
  intros w op p. apply apply_keeps_pending.
Qed.

(** * The commit message *)
Module CommitMessageFacts.
Import CommitMessage.
Section Facts.
Context `{Chars}.

Lemma split_lines_nonempty (s : str) : split_lines s <> [].
Proof.
  destruct s as [|c s]; simpl; [discriminate|].
  destruct (char_eqb c newline); [discriminate|].
  destruct (split_lines s); discriminate.
Qed.

Lemma split_lines_no_newline (s : str) : Forall no_newline (split_lines s).
Proof.
  induction s as [|c s IH]; simpl.
  - constructor; [intros [] | constructor].
  - destruct (char_eqb c newline) eqn:E.
    + constructor; [intros [] | exact IH].
    + assert (Hc : c <> newline).
      { intros Heq. apply char_eqb_eq in Heq. congruence. }
      destruct (split_lines s) as [|l ls].
      * constructor; [|constructor]. intros [Heq|[]]. congruence.
      * inversion IH as [|? ? Hl Hls]; subst. constructor; [|exact Hls].
        intros [Heq|Hin]; [congruence | now apply Hl].
Qed.

(** A prefix without line feed stays on the first line. *)
Lemma split_lines_app (a s : str) :
  no_newline a ->
  split_lines (a ++ s)%list
  = match split_lines s with
    | [] => [a]
    | l :: ls => (a ++ l)%list :: ls
    end.
Proof.
  induction a as [|c a IH]; intros Ha; simpl.
  - destruct (split_lines s) eqn:E; [|reflexivity]. now apply split_lines_nonempty in E.
  - assert (Hc : char_eqb c newline = false).
    { destruct (char_eqb c newline) eqn:E; [|reflexivity].
      apply char_eqb_eq in E. elim Ha. now left. }
    rewrite Hc, IH by (intros Hin; apply Ha; now right).
    destruct (split_lines s); reflexivity.
Qed.

Lemma split_lines_cons_newline (s : str) :
  split_lines (newline :: s) = [] :: split_lines s.
Proof.
  simpl. assert (Hn : char_eqb newline newline = true) by now apply char_eqb_eq.
  now rewrite Hn.
Qed.

(** Splitting undoes joining. *)
Lemma split_join (lines : list str) :
  lines <> [] -> Forall no_newline lines -> split_lines (join_lines lines) = lines.
Proof.
  induction lines as [|l lines IH]; [congruence|]. intros _ Hall.
  inversion Hall as [|? ? Hl Hls]; subst.
  destruct lines as [|l' lines].
  - simpl. rewrite <- (app_nil_r l) at 1. rewrite split_lines_app by exact Hl.
    simpl. now rewrite app_nil_r.
  - change (join_lines (l :: l' :: lines))
      with (l ++ newline :: join_lines (l' :: lines))%list.
    rewrite split_lines_app by exact Hl. rewrite split_lines_cons_newline.
    rewrite IH by (discriminate || exact Hls). now rewrite app_nil_r.
Qed.

Lemma firstn_no_newline n (l : str) : no_newline l -> no_newline (firstn n l).
Proof.
  unfold no_newline. revert l. induction n as [|n IH]; intros l Hl; simpl; [tauto|].
  destruct l as [|c l]; simpl; [tauto|].
  intros [Heq|Hin]; [apply Hl; now left|].
  apply (IH l); [|exact Hin]. intros Hin'. apply Hl. now right.
Qed.
End Facts.
End CommitMessageFacts.

(** X19. [_clean_commit_message], line by line.  The message is stripped of
    white space and of quotes at both ends.  If one line is left, the result
    is its first 72 characters.  If several are left, the first is cut to
    50 characters and no empty line is put after it: when the second line
    is not blank the lines follow as they are, and when it is blank it is
    glued to the end of the summary, so that the result has one line
    less. *)
Theorem clean_commit_message_lines `{Chars} (message : CommitMessage.str) :
  let stripped := CommitMessage.strip_char single_quote
                    (CommitMessage.strip_char double_quote
                       (CommitMessage.strip message)) in
  match CommitMessage.split_lines stripped with
  | [] => False
  | [line] =>
      CommitMessage._clean_commit_message message = firstn 72 line
      /\ (List.length (CommitMessage._clean_commit_message message) <= 72)%nat
  | line0 :: line1 :: rest =>
      CommitMessage.split_lines (CommitMessage._clean_commit_message message)
      = match CommitMessage.strip line1 with
        | _ :: _ => firstn 50 line0 :: line1 :: rest
        | [] => (firstn 50 line0 ++ line1)%list :: rest
        end
  end.
Proof.
  intros stripped. unfold CommitMessage._clean_commit_message. fold stripped.
  assert (Hall := CommitMessageFacts.split_lines_no_newline stripped).
  destruct (CommitMessage.split_lines stripped) as [|line0 [|line1 rest]] eqn:E.
  - now apply CommitMessageFacts.split_lines_nonempty in E.
  - split; [reflexivity|]. apply firstn_le_length.
  - inversion Hall as [|? ? H0 Hrest]; subst.
    assert (Hs : CommitMessage.no_newline (firstn 50 line0))
      by now apply CommitMessageFacts.firstn_no_newline.
    destruct (CommitMessage.strip line1) as [|c cs].
    + rewrite CommitMessageFacts.split_lines_app by exact Hs.
      rewrite CommitMessageFacts.split_join by (discriminate || exact Hrest).
      reflexivity.
    + change (CommitMessage.join_lines ([] :: line1 :: rest))
        with (newline :: CommitMessage.join_lines (line1 :: rest)).
      rewrite CommitMessageFacts.split_lines_app by exact Hs.
      rewrite CommitMessageFacts.split_lines_cons_newline.
      rewrite CommitMessageFacts.split_join by (discriminate || exact Hrest).
      now rewrite app_nil_r.
Qed.

(** A summary and a body, without and with a blank line between them, both
    in quotes: the result is the same two lines. *)
Lemma clean_commit_message_lines_witness :
  let text := fun s => list_ascii_of_string s in
  let quote := String (ascii_of_nat 34) EmptyString in
  let lf := String (ascii_of_nat 10) EmptyString in
  CommitMessage._clean_commit_message (H := CommitMessage.ascii_chars)
    (text (quote ++ "Add login" ++ lf ++ "Check the form" ++ quote))
  = text ("Add login" ++ lf ++ "Check the form")
  /\ CommitMessage._clean_commit_message (H := CommitMessage.ascii_chars)
       (text (quote ++ "Add login" ++ lf ++ lf ++ "Check the form" ++ quote))
     = text ("Add login" ++ lf ++ "Check the form")
  /\ CommitMessage.split_lines (H := CommitMessage.ascii_chars)
       (CommitMessage._clean_commit_message (H := CommitMessage.ascii_chars)
          (text ("Add login" ++ lf ++ lf ++ "Check the form")))
     = [text "Add login"; text "Check the form"].
Proof.
  split; [reflexivity|]. split; [reflexivity|].
  exact (clean_commit_message_lines (H := CommitMessage.ascii_chars)
           (list_ascii_of_string
              ("Add login" ++ String (ascii_of_nat 10) EmptyString
                 ++ String (ascii_of_nat 10) EmptyString ++ "Check the form"))).
Defined.

(** * Shutdown *)

(** X14. No accumulated path is lost at shutdown: when [stop_monitoring] is
    called on a monitor that was started and whose executor accepts work,
    every record the batcher holds, queued in a task or still in
    [pending_changes], has its path in one of the batches delivered before
    the call returns. *)
Theorem stop_monitoring_delivers_every_accumulated_path
        (now : Z) (m : FileMonitor) (r : FileChangeEvent) :
  observer m <> NotStarted ->
  is_shutdown (executor m) = false ->
  Forall (fun changes => changes <> []) (work_queue (executor m)) ->
  In r (accumulated m) ->
  exists m' delivered d,
    stop_monitoring now m = (Val tt, m')
    /\ deliveries m' = (deliveries m ++ delivered)%list
    /\ In d delivered
    /\ In (file_path r) (map file_path (dl_batch d)).
Proof.
  intros Ho Hs Hq Hr.
  destruct (stop_monitoring_spec now m Ho Hs Hq) as (m' & Hrun & Hd & _).
  set (tasks := (work_queue (executor m)
                   ++ match pending_changes m with
                      | [] => []
                      | _ :: _ => [pending_changes m]
                      end)%list) in *.
  assert (Htask : exists c, In c tasks /\ In r c).
  { unfold accumulated in Hr. apply in_app_iff in Hr as [Hin|Hin].
    - apply in_concat in Hin as (c & Hc & Hrc). exists c. split; [|exact Hrc].
      unfold tasks. apply in_app_iff. now left.
    - exists (pending_changes m). split; [|exact Hin].
      unfold tasks. apply in_app_iff. right.
      destruct (pending_changes m); [contradiction | now left]. }
  destruct Htask as (c & Hc & Hrc).
  exists m', (map (delivery_of (change_callbacks m)) tasks),
    (delivery_of (change_callbacks m) c).
  split; [exact Hrun|]. split; [exact Hd|]. split; [now apply in_map|].
  simpl. destruct (latest_for_In r c Hrc) as [r' Hr'].
  assert (Hi := items_for_final_changes (file_path r) c). rewrite Hr' in Hi.
  assert (Hin : In r' (items_for (file_path r) (final_changes c)))
    by (rewrite Hi; now left).
  apply filter_In in Hin as [Hin Hp]. apply String.eqb_eq in Hp.
  rewrite <- Hp. now apply in_map.
Qed.

(** One record is pending on a running monitor. *)
Lemma stop_monitoring_delivers_every_accumulated_path_witness :
  let r := {| file_path := "a.py"; event_type := modified; timestamp := 1;
              file_size := 0; file_hash := "" |} in
  let m := with_pending_changes [r] Scenario.running in
  exists m' delivered d,
    stop_monitoring (seconds 9) m = (Val tt, m')
    /\ deliveries m' = (deliveries m ++ delivered)%list
    /\ In d delivered
    /\ In "a.py" (map file_path (dl_batch d)).
Proof.
  apply (stop_monitoring_delivers_every_accumulated_path (seconds 9)
           (with_pending_changes
              [{| file_path := "a.py"; event_type := modified; timestamp := 1;
                  file_size := 0; file_hash := "" |}] Scenario.running)
           {| file_path := "a.py"; event_type := modified; timestamp := 1;
              file_size := 0; file_hash := "" |}).
  - discriminate.
  - reflexivity.
  - constructor.
  - left. reflexivity.
Defined.

(** X15. A second [stop_monitoring] is harmless only while nothing is pending:
    on a monitor already stopped it returns normally and changes nothing
    when [pending_changes] is empty; when the cleanup thread has settled
    records since, it raises [RuntimeError] and the records are gone,
    undelivered. *)
Theorem stop_monitoring_after_stop (now : Z) (m : FileMonitor) :
  observer m = Finished ->
  is_shutdown (executor m) = true ->
  work_queue (executor m) = [] ->
  (pending_changes m = [] -> stop_monitoring now m = (Val tt, m))
  /\ (pending_changes m <> [] ->
      exists m',
        stop_monitoring now m
        = (Exc (RuntimeError "cannot schedule new futures after shutdown"), m')
        /\ pending_changes m' = []
        /\ work_queue (executor m') = []
        /\ deliveries m' = deliveries m).
Proof.
  intros Ho Hs Hq. unfold stop_monitoring, observer_stop, observer_join. run_m.
  rewrite Ho. simpl.
  assert (Hsame : with_observer Finished m = m)
    by (destruct m; simpl in *; subst; reflexivity).
  rewrite Hsame. split.
  - intros Hp. rewrite Hp. unfold executor_shutdown. run_m. rewrite Hq. simpl.
    f_equal. destruct m as [? ? ? ? ? ? ? [q sd] ? ?]; simpl in *. subst. reflexivity.
  - intros Hp. destruct (pending_changes m) as [|c cs] eqn:Ep; [congruence|].
    rewrite trigger_after_shutdown by congruence.
    eexists. split; [reflexivity|]. simpl. now repeat split.
Qed.

(** A monitor is stopped twice; and stopped, cleaned up, and stopped
    again. *)
Lemma stop_monitoring_after_stop_witness :
  let m := run (H := Posix.posix) [StopMonitoring (seconds 2)] Scenario.running in
  let n := Scenario.notification created "a.py" (seconds 1) [("a.py", (10, "H1"))] in
  let m2 := run (H := Posix.posix)
                [Notify n; StopMonitoring (seconds 2); CleanupPass (seconds 5)]
                Scenario.running in
  stop_monitoring (seconds 3) m = (Val tt, m)
  /\ exists m',
      stop_monitoring (seconds 6) m2
      = (Exc (RuntimeError "cannot schedule new futures after shutdown"), m')
      /\ pending_changes m' = []
      /\ work_queue (executor m') = []
      /\ deliveries m' = deliveries m2.
Proof.
  split.
  - apply (proj1 (stop_monitoring_after_stop (seconds 3)
                    (run (H := Posix.posix) [StopMonitoring (seconds 2)]
                       Scenario.running) eq_refl eq_refl eq_refl)).
    reflexivity.
  - apply (proj2 (stop_monitoring_after_stop (seconds 6)
                    (run (H := Posix.posix)
                       [Notify (Scenario.notification created "a.py" (seconds 1)
                                  [("a.py", (10, "H1"))]);
                        StopMonitoring (seconds 2); CleanupPass (seconds 5)]
                       Scenario.running) eq_refl eq_refl eq_refl)).
    discriminate.
Defined.
